(** * Personal Finance Calculator: the budget entity and the reconciliation engine

    A shallow embedding of [modules/budget.py] together with the parts of
    [modules/calculator.py] and [config/settings.py] it calls.

    Modelling conventions.
    - Python [float] amounts are exact rationals ([Q]); [round(x, n)] is
      rounding to [n] decimals with ties going to the even neighbour, the
      rule the Python documentation gives.  Binary floating point error is
      outside this model: [round] works on the binary float, so where the
      decimal value is a tie ([10.15 * 1.1], [0.03 / 20 * 100]) the code
      can return either neighbour, and a comparison with a product such as
      [budgeted * 0.1] can go either way where the two sides are equal as
      decimals.  The statements on computed amounts therefore fix a rounded
      value up to its ties ([rounds_to]) and leave the case of equality at
      such a threshold open.
    - A Python [dict] is an association list in insertion order with the
      assignment, deletion and lookup of the language.
    - A mutating method returns its result together with the new object.
    - Reading the clock ([get_current_date], [datetime.now]) is an explicit
      argument.
    - A raised exception is the [Raised] outcome of a call. *)

From Stdlib Require Import ZArith QArith Qround Qabs Qminmax Lqa Lia.
From Stdlib Require Import List String Ascii Bool Permutation.
From Stdlib Require OrderedTypeEx.
Import ListNotations.

Set Warnings "-notation-for-abbreviation".
Local Open Scope Q_scope.

(* ================================================================= *)
(** ** Numbers *)

Module PyNum.

(** [a < b], [a <= b] and [a == b] on floats, as tests. *)
Definition Qltb (a b : Q) : bool :=
  match a ?= b with Lt => true | _ => false end.

Definition Qleb (a b : Q) : bool := negb (Qltb b a).

Definition Qeqb (a b : Q) : bool :=
  match a ?= b with Eq => true | _ => false end.

(** Nearest integer, ties to even. *)
Definition round_half_even (x : Q) : Z :=
  let f := Qfloor x in
  match Qcompare (x - inject_Z f)%Q (1 # 2)%Q with
  | Lt => f
  | Gt => (f + 1)%Z
  | Eq => if Z.even f then f else (f + 1)%Z
  end.

(** [10 ** ndigits]. *)
Fixpoint pow10 (ndigits : nat) : positive :=
  match ndigits with
  | O => 1%positive
  | S n => (10 * pow10 n)%positive
  end.

(** [round(x, ndigits)] on the decimal value: the nearest number with
    [ndigits] decimals, a tie going to the even neighbour. *)
Definition py_round (x : Q) (ndigits : nat) : Q :=
  Qmake (round_half_even (x * inject_Z (Zpos (pow10 ndigits)))) (pow10 ndigits).

(** [sum(values)]: left to right from [0]. *)
Definition py_sum (values : list Q) : Q := fold_left Qplus values 0.

(** [max(a, b)] and [min(a, b)]: the first argument unless the second is
    strictly better. *)
Definition py_max (a b : Q) : Q := if Qltb a b then b else a.
Definition py_min (a b : Q) : Q := if Qltb b a then b else a.

Definition py_abs (a : Q) : Q := if Qltb a 0 then - a else a.

(** A float that may be [float('inf')]. *)
Inductive xfloat : Type :=
| Finite (q : Q)
| Infinity.

Definition x_round (x : xfloat) (ndigits : nat) : xfloat :=
  match x with
  | Finite q => Finite (py_round q ndigits)
  | Infinity => Infinity
  end.

End PyNum.
Export PyNum.

(* ================================================================= *)
(** ** Dictionaries *)

Module PyDict.

Section Dict.
Context {V : Type}.

Definition dict := list (string * V).

(** [d.get(k)] *)
Fixpoint dict_get (k : string) (d : dict) : option V :=
  match d with
  | [] => None
  | (k', v) :: rest => if (k' =? k)%string then Some v else dict_get k rest
  end.

(** [k in d] *)
Definition dict_mem (k : string) (d : dict) : bool :=
  match dict_get k d with Some _ => true | None => false end.

(** [d[k] = v]: an existing key keeps its position, a new key goes last. *)
Fixpoint dict_set (k : string) (v : V) (d : dict) : dict :=
  match d with
  | [] => [(k, v)]
  | (k', v') :: rest =>
      if (k' =? k)%string then (k, v) :: rest
      else (k', v') :: dict_set k v rest
  end.

(** [del d[k]] for a key that is present. *)
Fixpoint dict_del (k : string) (d : dict) : dict :=
  match d with
  | [] => []
  | (k', v') :: rest =>
      if (k' =? k)%string then rest else (k', v') :: dict_del k rest
  end.

Definition dict_keys (d : dict) : list string := map fst d.
Definition dict_values (d : dict) : list V := map snd d.

(** A dictionary has each key once. *)
Definition dict_wf (d : dict) : Prop := NoDup (dict_keys d).

End Dict.

Arguments dict V : clear implicits.

(** [d.get(k, default)] *)
Definition dict_get_default {V} (k : string) (d : dict V) (default : V) : V :=
  match dict_get k d with Some v => v | None => default end.

End PyDict.
Export PyDict.

(* ================================================================= *)
(** ** Outcomes of a call *)

Inductive exn : Type :=
| ValueError (msg : string)
| KeyError (key : string).

Inductive outcome (A : Type) : Type :=
| Returned (a : A)
| Raised (e : exn).

Arguments Returned {A} a.
Arguments Raised {A} e.

Definition bind {A B} (m : outcome A) (k : A -> outcome B) : outcome B :=
  match m with
  | Returned a => k a
  | Raised e => Raised e
  end.

Notation "x <- m ;; k" := (bind m (fun x => k))
  (at level 61, m at next level, right associativity).

(* ================================================================= *)
(** ** config/settings.py *)

Module Settings.

Definition DEFAULT_CURRENCY : string := "USD".
Definition DECIMAL_PRECISION : nat := 2.
Definition MAX_TRANSACTION_AMOUNT : Q := 1000000.
Definition MIN_TRANSACTION_AMOUNT : Q := 1 # 100.

Definition DEFAULT_EXCHANGE_RATES : dict Q :=
  [ ("USD", 1); ("EUR", 85 # 100); ("GBP", 73 # 100); ("JPY", 110);
    ("CAD", 125 # 100); ("AUD", 135 # 100); ("CHF", 92 # 100);
    ("CNY", 645 # 100); ("INR", 745 # 10); ("BRL", 52 # 10) ]%string.

End Settings.
Export Settings.

(* ================================================================= *)
(** ** Strings *)

(** The ASCII characters [str.strip()] removes; names are taken to be
    ASCII strings. *)
Definition is_whitespace (c : ascii) : bool :=
  let n := nat_of_ascii c in
  ((9 <=? n) && (n <=? 13) || (28 <=? n) && (n <=? 32))%nat.

Fixpoint lstrip (s : string) : string :=
  match s with
  | EmptyString => EmptyString
  | String c rest => if is_whitespace c then lstrip rest else s
  end.

Fixpoint string_rev (s acc : string) : string :=
  match s with
  | EmptyString => acc
  | String c rest => string_rev rest (String c acc)
  end.

(** [s.strip()] *)
Definition strip (s : string) : string :=
  string_rev (lstrip (string_rev (lstrip s) EmptyString)) EmptyString.

(** Truth value of a string: non-empty. *)
Definition truthy (s : string) : bool :=
  match s with EmptyString => false | _ => true end.

(* ================================================================= *)
(** ** modules/budget.py: the Budget class *)

Record Budget : Type := mkBudget {
  monthly_income : Q;
  currency : string;
  categories : dict Q;
  created_date : string;
  last_updated : string
}.

Definition set_categories (b : Budget) (c : dict Q) : Budget :=
  mkBudget (monthly_income b) (currency b) c (created_date b) (last_updated b).

Definition set_last_updated (b : Budget) (d : string) : Budget :=
  mkBudget (monthly_income b) (currency b) (categories b) (created_date b) d.

Definition set_monthly_income (b : Budget) (m : Q) : Budget :=
  mkBudget m (currency b) (categories b) (created_date b) (last_updated b).

(** [Budget.__init__] *)
Definition Budget_init (now : string) (income : Q) (cur : string) : Budget :=
  mkBudget (py_round income DECIMAL_PRECISION) cur [] now now.

(** [Budget.get_total_budget] *)
Definition get_total_budget (b : Budget) : Q :=
  py_round (py_sum (dict_values (categories b))) DECIMAL_PRECISION.

(** [Budget.get_remaining_budget] *)
Definition get_remaining_budget (b : Budget) : Q :=
  py_round (monthly_income b - get_total_budget b) DECIMAL_PRECISION.

(** [Budget.get_category_amount] *)
Definition get_category_amount (b : Budget) (category : string) : Q :=
  dict_get_default category (categories b) 0.

(** [Budget.get_budget_utilization] *)
Definition get_budget_utilization (b : Budget) : Q :=
  if Qeqb (monthly_income b) 0 then 0
  else py_round (get_total_budget b / monthly_income b * 100) 1.

(** The mapping [to_dict] writes and [from_dict] reads; a key that may be
    missing is an [option]. *)
Record BudgetData : Type := mkBudgetData {
  d_monthly_income : option Q;
  d_currency : option string;
  d_categories : option (dict Q);
  d_created_date : option string;
  d_last_updated : option string
}.

(** [Budget.to_dict] *)
Definition to_dict (b : Budget) : BudgetData :=
  mkBudgetData (Some (monthly_income b)) (Some (currency b))
               (Some (categories b)) (Some (created_date b))
               (Some (last_updated b)).

Definition get_or {A} (o : option A) (default : A) : A :=
  match o with Some a => a | None => default end.

(** [Budget.from_dict] *)
Definition from_dict (now : string) (data : BudgetData) : outcome Budget :=
  match d_monthly_income data with
  | None => Raised (KeyError "monthly_income")
  | Some income =>
      let budget := Budget_init now income
                      (get_or (d_currency data) DEFAULT_CURRENCY) in
      Returned (mkBudget (monthly_income budget) (currency budget)
                  (get_or (d_categories data) [])
                  (get_or (d_created_date data) now)
                  (get_or (d_last_updated data) now))
  end.

Section WithValidation.

(** [modules/data_handler.py] is not part of the sources at hand:
    [validate_positive_number] is a parameter.  It answers [None] for an
    amount it rejects. *)
Variable validate_positive_number : Q -> option Q.

(** [Budget.add_category] *)
Definition add_category (now : string) (b : Budget)
           (category : string) (amount : Q) : bool * Budget :=
  if negb (truthy category) || negb (truthy (strip category))
  then (false, b)
  else
    match validate_positive_number amount with
    | None => (false, b)
    | Some validated_amount =>
        let old_amount := dict_get_default category (categories b) 0 in
        let b1 := set_categories b
                    (dict_set category validated_amount (categories b)) in
        if Qltb (monthly_income b1) (get_total_budget b1) then
          if Qltb 0 old_amount
          then (false, set_categories b1
                         (dict_set category old_amount (categories b1)))
          else (false, set_categories b1
                         (dict_del category (categories b1)))
        else (true, set_last_updated b1 now)
    end.

(** [Budget.remove_category] *)
Definition remove_category (now : string) (b : Budget)
           (category : string) : bool * Budget :=
  if dict_mem category (categories b)
  then (true, set_last_updated
                (set_categories b (dict_del category (categories b))) now)
  else (false, b).

(** [create_budget] *)
Definition create_budget (now : string) (income : Q) (cur : string)
  : outcome Budget :=
  match validate_positive_number income with
  | None => Raised (ValueError
              "Invalid monthly income. Must be a positive number.")
  | Some validated_income => Returned (Budget_init now validated_income cur)
  end.

(** [update_budget_income]: the loop assigns to each key of the
    dictionary in turn. *)
Definition rescale_categories (scale_factor : Q) (cats : dict Q) : dict Q :=
  fold_left
    (fun acc category =>
       let old_amount := dict_get_default category acc 0 in
       let new_amount := old_amount * scale_factor in
       dict_set category (py_round new_amount DECIMAL_PRECISION) acc)
    (dict_keys cats) cats.

Definition update_budget_income (now : string) (b : Budget) (new_income : Q)
  : bool * Budget :=
  match validate_positive_number new_income with
  | None => (false, b)
  | Some validated_income =>
      if Qeqb (monthly_income b) 0
      then (true, set_monthly_income b validated_income)
      else
        let scale_factor := validated_income / monthly_income b in
        let b1 := set_categories b
                    (rescale_categories scale_factor (categories b)) in
        (true, set_last_updated (set_monthly_income b1 validated_income) now)
  end.

(** A call in a session on one budget, with the date the clock shows
    when it is made. *)
Inductive call : Type :=
| AddCategory (now : string) (category : string) (amount : Q)
| RemoveCategory (now : string) (category : string).

Definition do_call (b : Budget) (c : call) : Budget :=
  match c with
  | AddCategory now category amount =>
      snd (add_category now b category amount)
  | RemoveCategory now category => snd (remove_category now b category)
  end.

Definition run_calls (b : Budget) (calls : list call) : Budget :=
  fold_left do_call calls b.

End WithValidation.

(* ================================================================= *)
(** ** modules/calculator.py: the transaction queries the engine uses *)

Record Transaction : Type := mkTransaction {
  t_date : string;
  t_type : string;
  t_amount : Q;
  t_category : string;
  t_currency : string;
  t_description : string
}.

(** Rows of the comparison [track_spending_vs_budget] returns. *)
Inductive Status : Type := Over | Under | Exact | Unbudgeted.

Record CategoryEntry : Type := mkCategoryEntry {
  budgeted : Q;
  actual : Q;
  variance : Q;
  percentage_used : xfloat;
  status : Status
}.

Record SummaryEntry : Type := mkSummaryEntry {
  total_budgeted : Q;
  total_spent : Q;
  total_variance : Q;
  budget_utilization : Q
}.

(** The comparison is one dictionary: a row per category and the totals
    under the key ['_summary']. *)
Inductive Row : Type :=
| CategoryRow (e : CategoryEntry)
| SummaryRow (s : SummaryEntry).

Definition SUMMARY_KEY : string := "_summary".

(** What [get_budget_status] lists. *)
Record OverItem : Type := mkOverItem {
  oi_category : string;
  oi_variance : Q;
  oi_percentage_over : xfloat
}.

Record UnderItem : Type := mkUnderItem {
  ui_category : string;
  ui_remaining : Q;
  ui_percentage_used : xfloat
}.

Record UnbudgetedItem : Type := mkUnbudgetedItem {
  ub_category : string;
  ub_amount : Q
}.

Record StatusLists : Type := mkStatusLists {
  sl_over : list OverItem;
  sl_under : list UnderItem;
  sl_unbudgeted : list UnbudgetedItem
}.

Record BudgetStatus : Type := mkBudgetStatus {
  bs_budget_health : string;
  bs_total_budgeted : Q;
  bs_total_spent : Q;
  bs_remaining_budget : Q;
  bs_budget_utilization : Q;
  over_budget_categories : list OverItem;
  under_budget_categories : list UnderItem;
  unbudgeted_categories : list UnbudgetedItem;
  bs_categories_count : nat;
  bs_currency : string
}.

(** Suggestions of [suggest_budget_adjustments]. *)
Inductive SuggestionType : Type := SIncrease | SDecrease | SAdd.
Inductive Priority : Type := High | Medium | Low.

(** The reason is a sentence around one formatted amount; the amount and
    the kind of sentence are kept, the rendering is not. *)
Inductive Reason : Type :=
| ConsistentlyOver (amount : Q)
| ConsistentlyUnder (amount : Q)
| UnbudgetedSpending (amount : Q).

Record Suggestion : Type := mkSuggestion {
  s_category : string;
  s_type : SuggestionType;
  s_current_amount : Q;
  s_suggested_amount : Q;
  s_reason : Reason;
  s_priority : Priority
}.

Record HealthScore : Type := mkHealthScore {
  hs_score : Q;
  hs_health_level : string;
  hs_budget_utilization : Q;
  hs_over_budget_count : nat;
  hs_unbudgeted_count : nat;
  hs_recommendations_count : nat
}.

(** [x - 100] on a float that may be infinite. *)
Definition x_minus_100 (x : xfloat) : xfloat :=
  match x with
  | Finite q => Finite (q - 100)
  | Infinity => Infinity
  end.

(** [priority_order] *)
Definition priority_order (p : Priority) : nat :=
  match p with High => 3 | Medium => 2 | Low => 1 end.

(** [list.sort(key=..., reverse=True)]: a stable sort, largest key first. *)
Fixpoint insert_by_priority (x : Suggestion) (l : list Suggestion)
  : list Suggestion :=
  match l with
  | [] => [x]
  | y :: rest =>
      if (priority_order (s_priority x) <? priority_order (s_priority y))%nat
      then y :: insert_by_priority x rest
      else x :: y :: rest
  end.

Definition sort_by_priority (l : list Suggestion) : list Suggestion :=
  fold_right insert_by_priority [] l.

Definition of_nat (n : nat) : Q := inject_Z (Z.of_nat n).

Section Engine.

(** [modules/currency.py] is not part of the sources at hand: both of its
    functions used here are parameters. *)
Variable convert_currency : Q -> string -> string -> option Q.
Variable normalize_to_base_currency :
  list Transaction -> string -> list Transaction.

(** The clock: the date, in [DATE_FORMAT], of the day [n] days ago. *)
Variable days_ago : nat -> string.

(** [get_transactions_by_period] *)
Definition get_transactions_by_period
           (transactions : list Transaction) (period : string)
  : list Transaction :=
  let keep_from start_date_str :=
    filter (fun t => String.leb start_date_str (t_date t)) transactions in
  if (period =? "week")%string then keep_from (days_ago 7)
  else if (period =? "month")%string then keep_from (days_ago 30)
  else if (period =? "quarter")%string then keep_from (days_ago 90)
  else if (period =? "year")%string then keep_from (days_ago 365)
  else transactions.

(** [if start_date and transaction['date'] < start_date] *)
Definition before (date : string) (start_date : option string) : bool :=
  match start_date with
  | Some s => truthy s && String.ltb date s
  | None => false
  end.

Definition after (date : string) (end_date : option string) : bool :=
  match end_date with
  | Some s => truthy s && String.ltb s date
  | None => false
  end.

(** The body of the loop of [get_expense_breakdown] on the
    [defaultdict(float)]. *)
Definition add_expense_to (start_date end_date : option string)
           (target_currency : string)
           (category_totals : dict Q) (transaction : Transaction) : dict Q :=
  if negb (t_type transaction =? "expense")%string then category_totals
  else if before (t_date transaction) start_date then category_totals
  else if after (t_date transaction) end_date then category_totals
  else
    let amount := t_amount transaction in
    let from_currency := t_currency transaction in
    let amount :=
      if negb (from_currency =? target_currency)%string then
        match convert_currency amount from_currency target_currency with
        | Some converted_amount => converted_amount
        | None => amount
        end
      else amount in
    dict_set (t_category transaction)
             (dict_get_default (t_category transaction) category_totals 0
              + amount)
             category_totals.

(** [get_expense_breakdown] *)
Definition get_expense_breakdown (transactions : list Transaction)
           (start_date end_date : option string) (target_currency : string)
  : dict Q :=
  let category_totals :=
    fold_left (add_expense_to start_date end_date target_currency)
              transactions [] in
  map (fun '(category, amount) =>
         (category, py_round amount DECIMAL_PRECISION))
      category_totals.

(* --------------------------------------------------------------- *)
(** *** track_spending_vs_budget *)

(** The row of a budgeted category. *)
Definition budget_row (budgeted_amount actual_amount : Q) : CategoryEntry :=
  let variance := actual_amount - budgeted_amount in
  let percentage_used :=
    if Qltb 0 budgeted_amount
    then Finite (actual_amount / budgeted_amount * 100)
    else if Qeqb actual_amount 0 then Finite 0 else Infinity in
  mkCategoryEntry
    (py_round budgeted_amount DECIMAL_PRECISION)
    (py_round actual_amount DECIMAL_PRECISION)
    (py_round variance DECIMAL_PRECISION)
    (x_round percentage_used 1)
    (if Qltb 0 variance then Over
     else if Qltb variance 0 then Under else Exact).

(** The row of a category with spending and no budget. *)
Definition unbudgeted_row (amount : Q) : CategoryEntry :=
  mkCategoryEntry 0
    (py_round amount DECIMAL_PRECISION)
    (py_round amount DECIMAL_PRECISION)
    Infinity Unbudgeted.

(** First loop: over [budget.categories.items()]. *)
Definition track_budgeted (actual_spending : dict Q)
           (st : dict Row * Q * Q) (item : string * Q) : dict Row * Q * Q :=
  let '(comparison, total_budgeted, total_spent) := st in
  let '(category, budgeted_amount) := item in
  let actual_amount := dict_get_default category actual_spending 0 in
  (dict_set category (CategoryRow (budget_row budgeted_amount actual_amount))
            comparison,
   total_budgeted + budgeted_amount,
   total_spent + actual_amount).

(** Second loop: over [actual_spending.items()]. *)
Definition track_unbudgeted (budget : Budget)
           (st : dict Row * Q) (item : string * Q) : dict Row * Q :=
  let '(comparison, total_spent) := st in
  let '(category, amount) := item in
  if negb (dict_mem category (categories budget))
  then (dict_set category (CategoryRow (unbudgeted_row amount)) comparison,
        total_spent + amount)
  else (comparison, total_spent).

(** The loops and the summary, from the spending per category. *)
Definition compare_to_budget (budget : Budget) (actual_spending : dict Q)
  : dict Row :=
  let '(comparison, total_budgeted, total_spent) :=
    fold_left (track_budgeted actual_spending) (categories budget)
              ([], 0, 0) in
  let '(comparison, total_spent) :=
    fold_left (track_unbudgeted budget) actual_spending
              (comparison, total_spent) in
  dict_set SUMMARY_KEY
    (SummaryRow
       (mkSummaryEntry
          (py_round total_budgeted DECIMAL_PRECISION)
          (py_round total_spent DECIMAL_PRECISION)
          (py_round (total_spent - total_budgeted) DECIMAL_PRECISION)
          (if Qltb 0 total_budgeted
           then py_round (total_spent / total_budgeted * 100) 1
           else 0)))
    comparison.

(** The spending per category the comparison is made with. *)
Definition actual_spending_of (budget : Budget)
           (transactions : list Transaction) (period : string) : dict Q :=
  let period_transactions :=
    get_transactions_by_period transactions period in
  let period_transactions :=
    if negb (currency budget =? DEFAULT_CURRENCY)%string
    then normalize_to_base_currency period_transactions (currency budget)
    else period_transactions in
  get_expense_breakdown period_transactions None None (currency budget).

(** [track_spending_vs_budget] *)
Definition track_spending_vs_budget (budget : Budget)
           (transactions : list Transaction) (period : string) : dict Row :=
  compare_to_budget budget (actual_spending_of budget transactions period).

(* --------------------------------------------------------------- *)
(** *** get_budget_status *)

(** [spending_comparison['_summary']] *)
Definition summary_of (comparison : dict Row) : outcome SummaryEntry :=
  match dict_get SUMMARY_KEY comparison with
  | Some (SummaryRow s) => Returned s
  | Some (CategoryRow _) => Raised (KeyError "total_variance")
  | None => Raised (KeyError SUMMARY_KEY)
  end.

(** The loop that sorts the rows into the three lists. *)
Fixpoint classify (items : list (string * Row)) (acc : StatusLists)
  : outcome StatusLists :=
  match items with
  | [] => Returned acc
  | (category, data) :: rest =>
      if (category =? SUMMARY_KEY)%string then classify rest acc
      else
        match data with
        | SummaryRow _ => Raised (KeyError "status")
        | CategoryRow e =>
            match status e with
            | Over =>
                classify rest
                  (mkStatusLists
                     (sl_over acc ++
                      [mkOverItem category (variance e)
                                  (x_minus_100 (percentage_used e))])
                     (sl_under acc) (sl_unbudgeted acc))
            | Under =>
                classify rest
                  (mkStatusLists (sl_over acc)
                     (sl_under acc ++
                      [mkUnderItem category (- variance e)
                                   (percentage_used e)])
                     (sl_unbudgeted acc))
            | Unbudgeted =>
                classify rest
                  (mkStatusLists (sl_over acc) (sl_under acc)
                     (sl_unbudgeted acc ++
                      [mkUnbudgetedItem category (actual e)]))
            | Exact => classify rest acc
            end
        end
  end.

(** [get_budget_status] *)
Definition get_budget_status (budget : Budget)
           (transactions : list Transaction) : outcome BudgetStatus :=
  let spending_comparison :=
    track_spending_vs_budget budget transactions "month" in
  summary <- summary_of spending_comparison ;;
  lists <- classify spending_comparison (mkStatusLists [] [] []) ;;
  Returned
    (mkBudgetStatus
       (if Qleb (total_variance summary) 0 then "healthy" else "over_budget")
       (total_budgeted summary)
       (total_spent summary)
       (get_remaining_budget budget)
       (budget_utilization summary)
       (sl_over lists) (sl_under lists) (sl_unbudgeted lists)
       (List.length (categories budget))
       (currency budget)).

(* --------------------------------------------------------------- *)
(** *** suggest_budget_adjustments *)

(** The body of the loop: the suggestions one row adds.  The thresholds
    are compared as decimal values. *)
Definition suggest_for (category : string) (data : CategoryEntry)
  : list Suggestion :=
  let budgeted := budgeted data in
  let actual := actual data in
  let variance := variance data in
  match status data with
  | Over =>
      if Qltb (budgeted * (1 # 10)) variance then
        let suggested_increase := variance * (12 # 10) in
        [mkSuggestion category SIncrease budgeted
           (py_round (budgeted + suggested_increase) DECIMAL_PRECISION)
           (ConsistentlyOver variance)
           (if Qltb (budgeted * (25 # 100)) variance then High else Medium)]
      else []
  | Under =>
      if Qltb (budgeted * (3 # 10)) (py_abs variance) then
        let suggested_decrease := py_abs variance * (5 # 10) in
        let new_amount :=
          py_max (budgeted - suggested_decrease) (actual * (11 # 10)) in
        [mkSuggestion category SDecrease budgeted
           (py_round new_amount DECIMAL_PRECISION)
           (ConsistentlyUnder (py_abs variance))
           Low]
      else []
  | Unbudgeted =>
      if Qltb 0 actual then
        let suggested_amount := actual * (12 # 10) in
        [mkSuggestion category SAdd 0
           (py_round suggested_amount DECIMAL_PRECISION)
           (UnbudgetedSpending actual)
           Medium]
      else []
  | Exact => []
  end.

(** The loop over [spending_comparison.items()]. *)
Fixpoint collect_suggestions (items : list (string * Row))
         (suggestions : list Suggestion) : outcome (list Suggestion) :=
  match items with
  | [] => Returned suggestions
  | (category, data) :: rest =>
      if (category =? SUMMARY_KEY)%string
      then collect_suggestions rest suggestions
      else
        match data with
        | SummaryRow _ => Raised (KeyError "budgeted")
        | CategoryRow e =>
            collect_suggestions rest (suggestions ++ suggest_for category e)
        end
  end.

(** [suggest_budget_adjustments] *)
Definition suggest_budget_adjustments (budget : Budget)
           (transactions : list Transaction) : outcome (list Suggestion) :=
  let spending_comparison :=
    track_spending_vs_budget budget transactions "month" in
  suggestions <- collect_suggestions spending_comparison [] ;;
  Returned (sort_by_priority suggestions).

(* --------------------------------------------------------------- *)
(** *** get_budget_health_score *)

(** The score before it is clamped. *)
Definition raw_health_score (over_count unbudgeted_count : nat)
           (utilization : Q) : Q :=
  let score := 100 in
  let over_budget_penalty := of_nat over_count * 10 in
  let score := score - over_budget_penalty in
  let unbudgeted_penalty := of_nat unbudgeted_count * 5 in
  let score := score - unbudgeted_penalty in
  let score :=
    if Qltb 95 utilization then score - (utilization - 95) * 2
    else score in
  let score :=
    if Qleb 80 utilization && Qleb utilization 90 then score + 10
    else score in
  score.

(** [max(0, min(100, score))] *)
Definition clamp_score (score : Q) : Q := py_max 0 (py_min 100 score).

Definition health_level_of (score : Q) : string :=
  if Qleb 80 score then "Excellent"
  else if Qleb 60 score then "Good"
  else if Qleb 40 score then "Fair"
  else "Poor".

(** [get_budget_health_score] *)
Definition get_budget_health_score (budget : Budget)
           (transactions : list Transaction) : outcome HealthScore :=
  status <- get_budget_status budget transactions ;;
  let comparison := track_spending_vs_budget budget transactions "month" in
  let score :=
    clamp_score
      (raw_health_score (List.length (over_budget_categories status))
                        (List.length (unbudgeted_categories status))
                        (bs_budget_utilization status)) in
  let health_level := health_level_of score in
  suggestions <- suggest_budget_adjustments budget transactions ;;
  Returned
    (mkHealthScore (py_round score 1) health_level
       (bs_budget_utilization status)
       (List.length (over_budget_categories status))
       (List.length (unbudgeted_categories status))
       (List.length suggestions)).

End Engine.

(* ================================================================= *)
(** ** The collaborators that are not at hand, from the specification *)

(** Modelled from the spec: [validate_positive_number] of
    [modules/data_handler.py], which is missing.  The specification rejects
    an amount that is "negative, zero, or outside configured bounds"; the
    bounds are the validation limits of [config/settings.py]. *)
Definition validate_positive_number_spec (value : Q) : option Q :=
  if Qltb 0 value && Qleb MIN_TRANSACTION_AMOUNT value
     && Qleb value MAX_TRANSACTION_AMOUNT
  then Some value else None.

(** Modelled from the spec: [convert_currency] of [modules/currency.py],
    which is missing: "maps (amount, fromCurrency, toCurrency) to a converted
    amount using a static rate table; returns a failure signal if a currency
    is unknown", the rates being relative to the default currency. *)
Definition convert_currency_spec (amount : Q) (from_currency to_currency : string)
  : option Q :=
  match dict_get from_currency DEFAULT_EXCHANGE_RATES,
        dict_get to_currency DEFAULT_EXCHANGE_RATES with
  | Some from_rate, Some to_rate => Some (amount / from_rate * to_rate)
  | _, _ => None
  end.

(** Modelled from the spec: [normalize_to_base_currency] of
    [modules/currency.py], which is missing: it "re-expresses the
    transactions' amounts" in the given currency, and a failed conversion
    "falls back to the original unconverted amount". *)
Definition normalize_to_base_currency_spec
           (transactions : list Transaction) (target : string)
  : list Transaction :=
  map (fun t =>
         match convert_currency_spec (t_amount t) (t_currency t) target with
         | Some converted =>
             mkTransaction (t_date t) (t_type t) converted (t_category t)
                           target (t_description t)
         | None => t
         end)
      transactions.

(** A clock for the examples: every day is the first of June 2024. *)
Definition fixed_clock (n : nat) : string := "2024-06-01".

(** An expense in dollars of the 15th of June 2024, and a budget in dollars
    made on the first, for the examples. *)
Definition expense (category : string) (amount : Q) : Transaction :=
  mkTransaction "2024-06-15" "expense" amount category "USD" "".

Definition budget_of (income : Q) (cats : dict Q) : Budget :=
  mkBudget income "USD" cats "2024-06-01" "2024-06-01".

(* ================================================================= *)
(** ** Vocabulary of the statements *)

(** No allocation is negative and the total is within the income. *)
Definition allocation_ok (b : Budget) : Prop :=
  (forall k v, In (k, v) (categories b) -> 0 <= v) /\
  get_total_budget b <= monthly_income b.

Definition is_category_row (r : Row) : Prop :=
  match r with CategoryRow _ => True | SummaryRow _ => False end.

(** What every row of the first loop of the comparison is. *)
Definition budgeted_row_shape (r : Row) : Prop :=
  exists amt a, r = CategoryRow (budget_row amt a).

Definition status_eqb (a b : Status) : bool :=
  match a, b with
  | Over, Over | Under, Under | Exact, Exact | Unbudgeted, Unbudgeted => true
  | _, _ => false
  end.

(** The rows of a comparison with a given status, the summary apart. *)
Definition rows_with_status (st : Status) (comparison : dict Row)
  : list (string * Row) :=
  filter (fun kr =>
            negb (fst kr =? SUMMARY_KEY)%string &&
            match snd kr with
            | CategoryRow e => status_eqb (status e) st
            | SummaryRow _ => false
            end)
         comparison.

Definition count_status (st : Status) (comparison : dict Row) : nat :=
  List.length (rows_with_status st comparison).

Definition priority_eqb (a b : Priority) : bool :=
  match a, b with
  | High, High | Medium, Medium | Low, Low => true
  | _, _ => false
  end.

(** The suggestions of one priority, in the order of the list. *)
Definition with_priority (p : Priority) (l : list Suggestion)
  : list Suggestion :=
  filter (fun s => priority_eqb (s_priority s) p) l.

(** The suggestions the loop of [suggest_budget_adjustments] adds at one
    item of the comparison. *)
Definition row_suggestions (kr : string * Row) : list Suggestion :=
  if (fst kr =? SUMMARY_KEY)%string then []
  else match snd kr with
       | CategoryRow e => suggest_for (fst kr) e
       | SummaryRow _ => []
       end.

(** A number with at most one decimal. *)
Definition one_decimal (q : Q) : Prop := exists z : Z, q == z # 10.

(** The amount of a transaction in the target currency, as
    [get_expense_breakdown] takes it: converted when the currencies differ
    and the conversion succeeds. *)
Definition amount_in (convert_currency : Q -> string -> string -> option Q)
           (target_currency : string) (t : Transaction) : Q :=
  if (t_currency t =? target_currency)%string then t_amount t
  else match convert_currency (t_amount t) (t_currency t) target_currency with
       | Some converted_amount => converted_amount
       | None => t_amount t
       end.

(** The expenses of a category. *)
Definition is_expense_of (category : string) (t : Transaction) : bool :=
  (t_type t =? "expense")%string && (t_category t =? category)%string.

(** [l1] is [l2] with some elements left out. *)
Inductive subsequence {A : Type} : list A -> list A -> Prop :=
| subsequence_nil : subsequence [] []
| subsequence_skip x l1 l2 : subsequence l1 l2 -> subsequence l1 (x :: l2)
| subsequence_take x l1 l2 :
    subsequence l1 l2 -> subsequence (x :: l1) (x :: l2).

(* ================================================================= *)
(** ** modules/budget.py: the rest of the budget entity and of the engine *)

(** [Budget.get_category_percentage] *)
Definition get_category_percentage (b : Budget) (category : string) : Q :=
  if Qeqb (monthly_income b) 0 then 0
  else
    let amount := get_category_amount b category in
    py_round (amount / monthly_income b * 100) 1.

(** [RECOMMENDED_BUDGET_PERCENTAGES] of [config/settings.py]. *)
Definition RECOMMENDED_BUDGET_PERCENTAGES : dict Q :=
  [ ("Housing", 25); ("Food & Dining", 12); ("Transportation", 10);
    ("Healthcare", 5); ("Entertainment", 10); ("Shopping", 10);
    ("Utilities", 8); ("Insurance", 5); ("Savings", 20);
    ("Other", 5) ]%string.

(** The [add_category] statements of the template "50/30/20", in their
    order; the result of each call is dropped. *)
Definition template_50_30_20 (now : string) (monthly_income : Q) : list call :=
  let needs_amount := monthly_income * (5 # 10) in
  let wants_amount := monthly_income * (3 # 10) in
  let savings_amount := monthly_income * (2 # 10) in
  [ AddCategory now "Housing" (needs_amount * (5 # 10));
    AddCategory now "Food & Dining" (needs_amount * (24 # 100));
    AddCategory now "Transportation" (needs_amount * (2 # 10));
    AddCategory now "Utilities" (needs_amount * (16 # 100));
    AddCategory now "Healthcare" (needs_amount * (1 # 10));
    AddCategory now "Entertainment" (wants_amount * (33 # 100));
    AddCategory now "Shopping" (wants_amount * (33 # 100));
    AddCategory now "Other" (wants_amount * (33 # 100));
    AddCategory now "Savings" savings_amount ]%string.

(** The [add_category] statements of the template "zero_based": one per
    item of [RECOMMENDED_BUDGET_PERCENTAGES]. *)
Definition template_zero_based (now : string) (monthly_income : Q) : list call :=
  map (fun item : string * Q =>
         let (category, percentage) := item in
         let amount := monthly_income * percentage / 100 in
         AddCategory now category amount)
      RECOMMENDED_BUDGET_PERCENTAGES.

(** [create_budget_from_template] *)
Definition create_budget_from_template
           (validate_positive_number : Q -> option Q)
           (now : string) (monthly_income : Q) (template : string)
           (cur : string) : outcome Budget :=
  budget <- create_budget validate_positive_number now monthly_income cur ;;
  if (template =? "50/30/20")%string then
    Returned (run_calls validate_positive_number budget
                        (template_50_30_20 now monthly_income))
  else if (template =? "zero_based")%string then
    Returned (run_calls validate_positive_number budget
                        (template_zero_based now monthly_income))
  else Returned budget.

(** The status in a report of [calculate_budget_variance]: the status of
    the row, or ['no_spending']. *)
Inductive VarianceStatus : Type :=
| RowStatus (s : Status)
| NoSpending.

(** The two mappings [calculate_budget_variance] returns. *)
Inductive VarianceReport : Type :=
| CategoryVariance (category : string) (variance : Q)
                   (percentage_variance : xfloat) (status : VarianceStatus)
| OverallVariance (total_variance : Q) (budget_utilization : Q)
                  (over_budget : bool).

(** [calculate_budget_variance]; the category is [None] by default, and an
    empty name counts as none. *)
Definition calculate_budget_variance
           (convert_currency : Q -> string -> string -> option Q)
           (normalize_to_base_currency :
              list Transaction -> string -> list Transaction)
           (days_ago : nat -> string)
           (budget : Budget) (transactions : list Transaction)
           (category : option string) : outcome VarianceReport :=
  let spending_comparison :=
    track_spending_vs_budget convert_currency normalize_to_base_currency
                             days_ago budget transactions "month" in
  match category with
  | Some (String c rest as name) =>
      match dict_get name spending_comparison with
      | Some (CategoryRow e) =>
          Returned (CategoryVariance name (variance e)
                      (x_minus_100 (percentage_used e))
                      (RowStatus (status e)))
      | Some (SummaryRow _) => Raised (KeyError "variance")
      | None =>
          Returned (CategoryVariance name 0 (Finite (-100)) NoSpending)
      end
  | _ =>
      summary <- summary_of spending_comparison ;;
      Returned (OverallVariance (total_variance summary)
                                (budget_utilization summary)
                                (Qltb 0 (total_variance summary)))
  end.

(* ================================================================= *)
(** ** modules/calculator.py: the transactions and their totals *)

(** The body of the loops of [calculate_total_income] and
    [calculate_total_expenses], which differ in the type they keep. *)
Definition add_amount_of (kind : string)
           (convert_currency : Q -> string -> string -> option Q)
           (start_date end_date : option string) (target_currency : string)
           (total : Q) (transaction : Transaction) : Q :=
  if negb (t_type transaction =? kind)%string then total
  else if before (t_date transaction) start_date then total
  else if after (t_date transaction) end_date then total
  else total + amount_in convert_currency target_currency transaction.

(** [calculate_total_income] *)
Definition calculate_total_income
           (convert_currency : Q -> string -> string -> option Q)
           (transactions : list Transaction)
           (start_date end_date : option string) (target_currency : string)
  : Q :=
  let total_income :=
    fold_left (add_amount_of "income" convert_currency start_date end_date
                             target_currency) transactions 0 in
  py_round total_income DECIMAL_PRECISION.

(** [calculate_total_expenses] *)
Definition calculate_total_expenses
           (convert_currency : Q -> string -> string -> option Q)
           (transactions : list Transaction)
           (start_date end_date : option string) (target_currency : string)
  : Q :=
  let total_expenses :=
    fold_left (add_amount_of "expense" convert_currency start_date end_date
                             target_currency) transactions 0 in
  py_round total_expenses DECIMAL_PRECISION.

(** [calculate_savings] *)
Definition calculate_savings
           (convert_currency : Q -> string -> string -> option Q)
           (transactions : list Transaction)
           (start_date end_date : option string) (target_currency : string)
  : Q :=
  let total_income :=
    calculate_total_income convert_currency transactions start_date end_date
                           target_currency in
  let total_expenses :=
    calculate_total_expenses convert_currency transactions start_date
                             end_date target_currency in
  let savings := total_income - total_expenses in
  py_round savings DECIMAL_PRECISION.

(** [calculate_savings_rate] *)
Definition calculate_savings_rate
           (convert_currency : Q -> string -> string -> option Q)
           (transactions : list Transaction)
           (start_date end_date : option string) (target_currency : string)
  : Q :=
  let total_income :=
    calculate_total_income convert_currency transactions start_date end_date
                           target_currency in
  if Qeqb total_income 0 then 0
  else
    let savings :=
      calculate_savings convert_currency transactions start_date end_date
                        target_currency in
    let savings_rate := savings / total_income * 100 in
    py_round savings_rate 1.

(** The body of the loop of [get_income_breakdown]. *)
Definition add_income_to
           (convert_currency : Q -> string -> string -> option Q)
           (start_date end_date : option string) (target_currency : string)
           (category_totals : dict Q) (transaction : Transaction) : dict Q :=
  if negb (t_type transaction =? "income")%string then category_totals
  else if before (t_date transaction) start_date then category_totals
  else if after (t_date transaction) end_date then category_totals
  else
    dict_set (t_category transaction)
             (dict_get_default (t_category transaction) category_totals 0
              + amount_in convert_currency target_currency transaction)
             category_totals.

(** [get_income_breakdown] *)
Definition get_income_breakdown
           (convert_currency : Q -> string -> string -> option Q)
           (transactions : list Transaction)
           (start_date end_date : option string) (target_currency : string)
  : dict Q :=
  let category_totals :=
    fold_left (add_income_to convert_currency start_date end_date
                             target_currency) transactions [] in
  map (fun '(category, amount) =>
         (category, py_round amount DECIMAL_PRECISION))
      category_totals.

(** [add_income] and [add_expense], which differ in the type they write.
    [validate_currency] is of [modules/data_handler.py], which is not at
    hand: a parameter.  The date is [None] by default. *)
Definition new_transaction (kind : string)
           (validate_positive_number : Q -> option Q)
           (validate_currency : string -> option string)
           (now : string) (amount : Q) (category : string)
           (date : option string) (cur : string) (description : string)
  : outcome Transaction :=
  match validate_positive_number amount with
  | None => Raised (ValueError "Invalid amount. Must be a positive number.")
  | Some validated_amount =>
      match validate_currency cur with
      | None => Raised (ValueError ("Invalid currency code: " ++ cur))
      | Some validated_currency =>
          let date := match date with None => now | Some d => d end in
          Returned
            (mkTransaction date kind
               (py_round validated_amount DECIMAL_PRECISION)
               (strip category) validated_currency (strip description))
      end
  end.

Definition add_income := new_transaction "income".
Definition add_expense := new_transaction "expense".

(** [min(dates)] and [max(dates)] on a non-empty list: the first of the
    smallest, the first of the largest. *)
Fixpoint py_min_string (best : string) (rest : list string) : string :=
  match rest with
  | [] => best
  | x :: rest' => py_min_string (if String.ltb x best then x else best) rest'
  end.

Fixpoint py_max_string (best : string) (rest : list string) : string :=
  match rest with
  | [] => best
  | x :: rest' => py_max_string (if String.ltb best x then x else best) rest'
  end.

(** [_get_date_range]: the values under ['start'] and ['end']. *)
Definition get_date_range (transactions : list Transaction)
  : option string * option string :=
  match map t_date transactions with
  | [] => (None, None)
  | d :: dates => (Some (py_min_string d dates), Some (py_max_string d dates))
  end.

(** Modelled from the spec: [validate_currency] of
    [modules/data_handler.py], which is missing; the specification names
    the failure "InvalidCurrency (unknown code)", the known codes being
    those of the rate table. *)
Definition validate_currency_spec (code : string) : option string :=
  if dict_mem code DEFAULT_EXCHANGE_RATES then Some code else None.

(** What a row of a category is: the row of a budgeted amount and an
    actual amount, or the row of an unbudgeted amount. *)
Definition row_shape (r : Row) : Prop :=
  (exists amt a, r = CategoryRow (budget_row amt a)) \/
  (exists a, r = CategoryRow (unbudgeted_row a)).

(** A number with at most two decimals. *)
Definition two_decimal (q : Q) : Prop := exists z : Z, q == z # 100.

(** The transactions a total or a breakdown of a type counts. *)
Definition counted (kind : string) (start_date end_date : option string)
           (t : Transaction) : bool :=
  (t_type t =? kind)%string && negb (before (t_date t) start_date)
  && negb (after (t_date t) end_date).

(** [r] is [x] rounded to [n] decimals, whichever way a tie goes: [r] has
    [n] decimals at most and lies half a unit of the last of them from [x]
    at most. *)
Definition rounds_to (n : nat) (x r : Q) : bool :=
  Qeqb (py_round r n) r && Qleb (Qabs (r - x)) (1 # (2 * pow10 n)).

(** [x] lies half-way between two numbers with [n] decimals. *)
Definition is_tie (n : nat) (x : Q) : bool :=
  let y := x * inject_Z (Zpos (pow10 n)) in
  Qeqb (y - inject_Z (Qfloor y)) (1 # 2).

(* ================================================================= *)
(** * Properties *)

(** ** Comparisons and rounding *)

Lemma Qltb_lt (a b : Q) : Qltb a b = true <-> a < b.
Proof.
  unfold Qltb. rewrite Qlt_alt.
  destruct (a ?= b); split; congruence.
Qed.

Lemma Qltb_ge (a b : Q) : Qltb a b = false <-> b <= a.
Proof.
  split.
  - intros H. apply Qnot_lt_le. intros Hlt. apply Qltb_lt in Hlt. congruence.
  - intros H. destruct (Qltb a b) eqn:E; [|reflexivity].
    apply Qltb_lt in E. exfalso. apply (Qlt_not_le _ _ E H).
Qed.

Lemma Qleb_le (a b : Q) : Qleb a b = true <-> a <= b.
Proof.
  unfold Qleb. rewrite negb_true_iff. apply Qltb_ge.
Qed.

Lemma Qleb_gt (a b : Q) : Qleb a b = false <-> b < a.
Proof.
  unfold Qleb. rewrite negb_false_iff. apply Qltb_lt.
Qed.

Lemma Qeqb_eq (a b : Q) : Qeqb a b = true <-> a == b.
Proof.
  unfold Qeqb. rewrite Qeq_alt.
  destruct (a ?= b); split; congruence.
Qed.

Lemma Qeqb_neq (a b : Q) : Qeqb a b = false <-> ~ a == b.
Proof.
  rewrite <- Qeqb_eq. destruct (Qeqb a b); split; congruence.
Qed.

Lemma round_half_even_bounds (x : Q) :
  (Qfloor x <= round_half_even x <= Qfloor x + 1)%Z.
Proof.
  unfold round_half_even.
  destruct (Qcompare _ _); [destruct (Z.even _)| |]; lia.
Qed.

Lemma round_half_even_comp (x y : Q) :
  x == y -> round_half_even x = round_half_even y.
Proof.
  intros H. unfold round_half_even.
  rewrite (Qfloor_comp _ _ H).
  assert (E : (x - inject_Z (Qfloor y)) == (y - inject_Z (Qfloor y)))
    by (rewrite H; reflexivity).
  rewrite (Qcompare_comp _ _ E (1 # 2) (1 # 2) (Qeq_refl _)).
  reflexivity.
Qed.

(** Turn a hypothesis on the outcome of a comparison into the order. *)
Ltac order_of_compare H :=
  first [ apply Qeq_alt in H | apply Qlt_alt in H | apply Qgt_alt in H ].

Lemma round_half_even_mono (x y : Q) :
  x <= y -> (round_half_even x <= round_half_even y)%Z.
Proof.
  intros Hxy.
  pose proof (Qfloor_resp_le _ _ Hxy) as Hf.
  pose proof (round_half_even_bounds x) as Bx.
  pose proof (round_half_even_bounds y) as By.
  destruct (Z.eq_dec (Qfloor x) (Qfloor y)) as [E | NE]; [| lia].
  clear Bx By. unfold round_half_even. rewrite <- E.
  destruct (Qcompare (x - inject_Z (Qfloor x)) (1 # 2)) eqn:Cx;
    destruct (Qcompare (y - inject_Z (Qfloor x)) (1 # 2)) eqn:Cy;
    try (destruct (Z.even (Qfloor x))); try lia;
    order_of_compare Cx; order_of_compare Cy; exfalso; lra.
Qed.

Lemma round_half_even_Z (z : Z) : round_half_even (inject_Z z) = z.
Proof.
  unfold round_half_even. rewrite Qfloor_Z.
  assert (E : inject_Z z - inject_Z z < 1 # 2) by lra.
  destruct (Qlt_alt (inject_Z z - inject_Z z) (1 # 2)) as [H _].
  rewrite (H E). reflexivity.
Qed.

Lemma py_round_comp (x y : Q) (n : nat) :
  x == y -> py_round x n = py_round y n.
Proof.
  intros H. unfold py_round. f_equal.
  apply round_half_even_comp. rewrite H. reflexivity.
Qed.

Lemma py_round_mono (x y : Q) (n : nat) :
  x <= y -> py_round x n <= py_round y n.
Proof.
  intros H. unfold py_round, Qle. simpl.
  apply Z.mul_le_mono_nonneg_r; [lia|].
  apply round_half_even_mono.
  apply Qmult_le_compat_r; [exact H|].
  unfold Qle. simpl. lia.
Qed.

(** A number with [n] decimals is its own rounding to [n] decimals. *)
Lemma py_round_decimal (z : Z) (n : nat) :
  py_round (z # pow10 n) n = (z # pow10 n).
Proof.
  unfold py_round. f_equal.
  rewrite <- (round_half_even_Z z) at 2.
  apply round_half_even_comp.
  unfold Qeq, Qmult, inject_Z. simpl. lia.
Qed.

Lemma py_round_idempotent (x : Q) (n : nat) :
  py_round (py_round x n) n = py_round x n.
Proof.
  unfold py_round at 2 3. apply py_round_decimal.
Qed.

Lemma py_round_0 (n : nat) : py_round 0 n == 0.
Proof.
  unfold py_round.
  rewrite (round_half_even_comp _ (inject_Z 0)) by (unfold Qeq; simpl; lia).
  rewrite round_half_even_Z. reflexivity.
Qed.

Lemma round_half_even_error (y : Q) :
  y - (1 # 2) <= inject_Z (round_half_even y) <= y + (1 # 2).
Proof.
  pose proof (Qfloor_le y) as Hlo. pose proof (Qlt_floor y) as Hhi.
  rewrite inject_Z_plus in Hhi.
  unfold round_half_even.
  destruct (Qcompare (y - inject_Z (Qfloor y)) (1 # 2)) eqn:C;
    order_of_compare C;
    try (destruct (Z.even (Qfloor y))); rewrite ?inject_Z_plus;
    change (inject_Z 1) with 1 in *; split; lra.
Qed.

(** Rounding to [n] decimals, up to ties. *)
Lemma Qabs_scaled (d : Q) (P : positive) :
  Qabs d <= 1 # (2 * P) <-> Qabs (d * inject_Z (Zpos P)) <= 1 # 2.
Proof.
  assert (Hp : 0 < inject_Z (Zpos P)) by (unfold Qlt; simpl; lia).
  assert (Hhalf : (1 # (2 * P)) * inject_Z (Zpos P) == 1 # 2)
    by (unfold Qeq, Qmult, inject_Z; simpl; lia).
  rewrite Qabs_Qmult, (Qabs_pos (inject_Z (Zpos P))) by now apply Qlt_le_weak.
  rewrite <- Hhalf. symmetry. apply Qmult_le_r. exact Hp.
Qed.

Lemma Qmake_scaled (z : Z) (P : positive) :
  (z # P) * inject_Z (Zpos P) == inject_Z z.
Proof.
  unfold Qeq, Qmult, inject_Z. simpl. lia.
Qed.

(** [round] gives a rounding. *)
Lemma rounds_to_py_round (n : nat) (x : Q) :
  rounds_to n x (py_round x n) = true.
Proof.
  unfold rounds_to. apply andb_true_intro. split.
  - apply Qeqb_eq. rewrite py_round_idempotent. reflexivity.
  - apply Qleb_le. apply Qabs_scaled.
    pose proof (round_half_even_error (x * inject_Z (Zpos (pow10 n)))) as H.
    assert (E : (py_round x n - x) * inject_Z (Zpos (pow10 n))
                == inject_Z (round_half_even (x * inject_Z (Zpos (pow10 n))))
                   - x * inject_Z (Zpos (pow10 n))).
    { unfold py_round.
      rewrite <- (Qmake_scaled
                    (round_half_even (x * inject_Z (Zpos (pow10 n))))
                    (pow10 n)).
      ring. }
    rewrite E. apply Qabs_Qle_condition. split; lra.
Qed.

Lemma rounds_to_py_round_of (n : nat) (x x' : Q) :
  x' == x -> rounds_to n x (py_round x' n) = true.
Proof.
  intros H. rewrite (py_round_comp _ _ n H). apply rounds_to_py_round.
Qed.

(** Away from a tie there is one rounding. *)
Lemma rounds_to_unique (n : nat) (x r : Q) :
  rounds_to n x r = true -> is_tie n x = false -> r == py_round x n.
Proof.
  unfold rounds_to, is_tie. cbv zeta. intros H Htie.
  apply andb_prop in H. destruct H as [Hdec Hnear].
  apply Qeqb_eq in Hdec. apply Qleb_le in Hnear. apply Qeqb_neq in Htie.
  apply Qabs_scaled in Hnear.
  set (p := inject_Z (Zpos (pow10 n))) in *.
  set (y := x * p) in *.
  set (zr := round_half_even (r * p)).
  assert (Hr : r * p == inject_Z zr).
  { rewrite <- Hdec at 1. unfold py_round. apply Qmake_scaled. }
  assert (Hzr : Qabs (inject_Z zr - y) <= 1 # 2).
  { rewrite <- Hr. unfold y.
    assert (E : r * p - x * p == (r - x) * p) by ring.
    now rewrite E. }
  apply Qabs_Qle_condition in Hzr. destruct Hzr as [Hlo Hhi].
  pose proof (Qfloor_le y) as Flo. pose proof (Qlt_floor y) as Fhi.
  rewrite inject_Z_plus in Fhi. change (inject_Z 1) with 1 in Fhi.
  assert (Hz : zr = round_half_even y).
  { unfold round_half_even.
    destruct (Qcompare (y - inject_Z (Qfloor y)) (1 # 2)) eqn:C;
      order_of_compare C.
    - contradiction.
    - assert (H1 : inject_Z zr < inject_Z (Qfloor y + 1))
        by (rewrite inject_Z_plus; change (inject_Z 1) with 1; lra).
      assert (H2 : inject_Z (Qfloor y) < inject_Z (zr + 1))
        by (rewrite inject_Z_plus; change (inject_Z 1) with 1; lra).
      rewrite <- Zlt_Qlt in H1, H2. lia.
    - assert (H1 : inject_Z zr < inject_Z (Qfloor y + 2))
        by (rewrite inject_Z_plus; change (inject_Z 2) with 2; lra).
      assert (H2 : inject_Z (Qfloor y) < inject_Z zr) by lra.
      rewrite <- Zlt_Qlt in H1, H2. lia. }
  rewrite <- Hdec. unfold py_round. fold p. fold zr. fold y.
  now rewrite Hz.
Qed.


Lemma fold_left_Qplus_acc (l : list Q) (a : Q) :
  fold_left Qplus l a == a + fold_left Qplus l 0.
Proof.
  revert a. induction l as [| x l IH]; intros a; simpl.
  - lra.
  - rewrite (IH (a + x)), (IH (0 + x)). lra.
Qed.

Lemma py_sum_cons (x : Q) (l : list Q) : py_sum (x :: l) == x + py_sum l.
Proof.
  unfold py_sum. simpl. rewrite fold_left_Qplus_acc. lra.
Qed.

(* ================================================================= *)
(** ** Dictionaries *)

Section DictFacts.
Context {V : Type}.
Implicit Types (d : dict V) (k : string) (v : V).

Lemma dict_get_set_same k v d : dict_get k (dict_set k v d) = Some v.
Proof.
  induction d as [| [k' v'] d IH]; simpl.
  - now rewrite String.eqb_refl.
  - destruct (k' =? k)%string eqn:E; simpl.
    + now rewrite String.eqb_refl.
    + now rewrite E.
Qed.

Lemma dict_get_set_other k k' v d :
  k' <> k -> dict_get k' (dict_set k v d) = dict_get k' d.
Proof.
  intros Hne. induction d as [| [k0 v0] d IH]; simpl.
  - destruct (k =? k')%string eqn:E; [|reflexivity].
    apply String.eqb_eq in E. congruence.
  - destruct (k0 =? k)%string eqn:E; simpl.
    + apply String.eqb_eq in E. subst k0.
      destruct (k =? k')%string eqn:E'; [|reflexivity].
      apply String.eqb_eq in E'. congruence.
    + destruct (k0 =? k')%string; [reflexivity | exact IH].
Qed.

(** Assigning the old value again undoes an assignment. *)
Lemma dict_set_restore k v old d :
  dict_get k d = Some old -> dict_set k old (dict_set k v d) = d.
Proof.
  induction d as [| [k' v'] d IH]; simpl; [discriminate|].
  destruct (k' =? k)%string eqn:E; simpl.
  - intros [= ->]. rewrite String.eqb_refl.
    apply String.eqb_eq in E. now subst.
  - intros H. rewrite E. now rewrite IH.
Qed.

(** Deleting a key that was absent undoes its assignment. *)
Lemma dict_del_set_absent k v d :
  dict_get k d = None -> dict_del k (dict_set k v d) = d.
Proof.
  induction d as [| [k' v'] d IH]; simpl.
  - now rewrite String.eqb_refl.
  - destruct (k' =? k)%string eqn:E; simpl; [discriminate|].
    intros H. rewrite E. now rewrite IH.
Qed.

(** Deleting a key after assigning to it is deleting it. *)
Lemma dict_del_set_present k v old d :
  dict_get k d = Some old -> dict_del k (dict_set k v d) = dict_del k d.
Proof.
  induction d as [| [k' v'] d IH]; simpl; [discriminate|].
  destruct (k' =? k)%string eqn:E; simpl.
  - intros _. now rewrite String.eqb_refl.
  - intros H. rewrite E. now rewrite IH.
Qed.

Lemma dict_get_In k v d : dict_get k d = Some v -> In (k, v) d.
Proof.
  induction d as [| [k' v'] d IH]; simpl; [discriminate|].
  destruct (k' =? k)%string eqn:E.
  - intros [= ->]. apply String.eqb_eq in E. subst. now left.
  - intros H. right. now apply IH.
Qed.

Lemma dict_get_None_keys k d :
  dict_get k d = None <-> ~ In k (dict_keys d).
Proof.
  induction d as [| [k' v'] d IH]; simpl.
  - tauto.
  - destruct (k' =? k)%string eqn:E.
    + apply String.eqb_eq in E. subst. split; [discriminate | tauto].
    + apply String.eqb_neq in E. tauto.
Qed.

Lemma In_dict_get k v d : dict_wf d -> In (k, v) d -> dict_get k d = Some v.
Proof.
  unfold dict_wf.
  induction d as [| [k' v'] d IH]; simpl; [tauto|].
  intros Hnd [[= -> ->] | Hin].
  - now rewrite String.eqb_refl.
  - inversion Hnd as [| ? ? Hnotin Hnd']; subst.
    destruct (k' =? k)%string eqn:E.
    + apply String.eqb_eq in E. subst. exfalso. apply Hnotin.
      change k with (fst (k, v)). now apply in_map.
    + now apply IH.
Qed.

Lemma In_dict_set k v d k' v' :
  In (k', v') (dict_set k v d) -> (k' = k /\ v' = v) \/ In (k', v') d.
Proof.
  induction d as [| [k0 v0] d IH]; simpl.
  - intros [[= <- <-] | []]. now left.
  - destruct (k0 =? k)%string.
    + intros [[= <- <-] | H]; [now left | right; now right].
    + intros [H | H]; [right; now left|].
      destruct (IH H) as [? | ?]; [now left | right; now right].
Qed.

Lemma In_dict_del k d x : In x (dict_del k d) -> In x d.
Proof.
  induction d as [| [k0 v0] d IH]; simpl; [tauto|].
  destruct (k0 =? k)%string.
  - now right.
  - intros [H | H]; [now left | right; now apply IH].
Qed.

Lemma dict_keys_set k v d :
  dict_keys (dict_set k v d) =
  if dict_mem k d then dict_keys d else dict_keys d ++ [k].
Proof.
  unfold dict_mem.
  induction d as [| [k0 v0] d IH]; simpl; [reflexivity|].
  destruct (k0 =? k)%string eqn:E; simpl.
  - apply String.eqb_eq in E. now subst.
  - rewrite IH. now destruct (dict_get k d).
Qed.

Lemma dict_wf_set k v d : dict_wf d -> dict_wf (dict_set k v d).
Proof.
  unfold dict_wf. intros H. rewrite dict_keys_set.
  unfold dict_mem. destruct (dict_get k d) eqn:E; [exact H|].
  apply dict_get_None_keys in E.
  apply NoDup_rev in H. rewrite <- (rev_involutive (_ ++ _)).
  apply NoDup_rev. rewrite rev_app_distr. simpl.
  constructor; [|exact H]. now rewrite <- in_rev.
Qed.



End DictFacts.

(** Deleting an entry of a dictionary of non-negative amounts does not
    increase their sum. *)
Lemma py_sum_del_le (k : string) (d : dict Q) :
  (forall k' v, In (k', v) d -> 0 <= v) ->
  py_sum (dict_values (dict_del k d)) <= py_sum (dict_values d).
Proof.
  induction d as [| [k0 v0] d IH]; simpl; intros Hpos.
  - apply Qle_refl.
  - assert (H0 : 0 <= v0) by (apply (Hpos k0); now left).
    destruct (k0 =? k)%string.
    + change (py_sum (dict_values d) <= py_sum (v0 :: dict_values d)).
      rewrite py_sum_cons. lra.
    + change (py_sum (v0 :: dict_values (dict_del k d))
              <= py_sum (v0 :: dict_values d)).
      rewrite !py_sum_cons.
      assert (py_sum (dict_values (dict_del k d)) <= py_sum (dict_values d)).
      { apply IH. intros k' v Hin. apply (Hpos k'). now right. }
      lra.
Qed.

(* ================================================================= *)
(** ** The budget entity *)

Lemma validate_positive_number_spec_nonnegative (x v : Q) :
  validate_positive_number_spec x = Some v -> 0 <= v.
Proof.
  unfold validate_positive_number_spec.
  destruct (Qltb 0 x) eqn:E; simpl; [|discriminate].
  destruct (_ && _); [|discriminate].
  intros [= <-]. apply Qlt_le_weak. now apply Qltb_lt.
Qed.

Section BudgetFacts.

Variable validate_positive_number : Q -> option Q.

Notation add_category := (add_category validate_positive_number).
Notation create_budget := (create_budget validate_positive_number).
Notation update_budget_income :=
  (update_budget_income validate_positive_number).
Notation run_calls := (run_calls validate_positive_number).
Notation do_call := (do_call validate_positive_number).

(** A failed [add_category] on a category that is absent, or present
    with a positive amount, gives the budget back as it was. *)
Lemma add_category_rollback now b category amount b' :
  (forall v, dict_get category (categories b) = Some v -> 0 < v) ->
  add_category now b category amount = (false, b') ->
  b' = b.
Proof.
  intros Hold. unfold add_category.
  destruct (negb (truthy category) || negb (truthy (strip category)));
    [now intros [= <-]|].
  destruct (validate_positive_number amount) as [validated|];
    [|now intros [= <-]].
  cbv zeta.
  destruct (Qltb _ (get_total_budget _)); [|discriminate].
  unfold dict_get_default.
  destruct (dict_get category (categories b)) as [old|] eqn:Hget.
  - assert (Hlt : Qltb 0 old = true) by (apply Qltb_lt; now apply Hold).
    rewrite Hlt. intros [= <-].
    unfold set_categories. simpl.
    rewrite (dict_set_restore _ _ _ _ Hget). now destruct b.
  - assert (Hlt : Qltb 0 0 = false) by reflexivity.
    rewrite Hlt. intros [= <-].
    unfold set_categories. simpl.
    rewrite (dict_del_set_absent _ _ _ Hget). now destruct b.
Qed.

Hypothesis validated_nonnegative :
  forall x v, validate_positive_number x = Some v -> 0 <= v.

Lemma allocation_ok_init now income cur b :
  create_budget now income cur = Returned b -> allocation_ok b.
Proof.
  unfold create_budget.
  destruct (validate_positive_number income) as [v|] eqn:Hv; [|discriminate].
  intros [= <-]. split; simpl; [tauto|].
  unfold get_total_budget. simpl.
  apply py_round_mono. unfold py_sum. simpl. eauto.
Qed.

Lemma allocation_ok_delete b category :
  allocation_ok b ->
  allocation_ok (set_categories b (dict_del category (categories b))).
Proof.
  intros [Hpos Htot]. split; simpl.
  - intros k v Hin. apply In_dict_del in Hin. eauto.
  - unfold get_total_budget in *. simpl.
    eapply Qle_trans; [|exact Htot].
    apply py_round_mono. apply py_sum_del_le. exact Hpos.
Qed.

Lemma allocation_ok_add now b category amount :
  allocation_ok b -> allocation_ok (snd (add_category now b category amount)).
Proof.
  intros Hb. pose proof Hb as [Hpos Htot]. unfold add_category.
  destruct (_ || _); [exact Hb|].
  destruct (validate_positive_number amount) as [validated|] eqn:Hv;
    [|exact Hb].
  cbv zeta.
  destruct (Qltb _ (get_total_budget _)) eqn:Hcmp.
  - unfold dict_get_default.
    destruct (dict_get category (categories b)) as [old|] eqn:Hget.
    + destruct (Qltb 0 old); simpl.
      * unfold set_categories. simpl.
        rewrite (dict_set_restore _ _ _ _ Hget). now destruct b.
      * unfold set_categories at 1. simpl.
        rewrite (dict_del_set_present _ _ _ _ Hget).
        now apply allocation_ok_delete.
    + change (Qltb 0 0) with false. simpl.
      unfold set_categories. simpl.
      rewrite (dict_del_set_absent _ _ _ Hget). now destruct b.
  - simpl. split.
    + simpl. intros k v Hin.
      apply In_dict_set in Hin. destruct Hin as [[_ ->] | Hin]; eauto.
    + apply Qltb_ge in Hcmp. exact Hcmp.
Qed.

Lemma allocation_ok_remove now b category :
  allocation_ok b -> allocation_ok (snd (remove_category now b category)).
Proof.
  intros Hb. unfold remove_category.
  destruct (dict_mem category (categories b)); simpl; [|exact Hb].
  destruct (allocation_ok_delete b category Hb) as [Hpos Htot].
  now split.
Qed.

Lemma allocation_ok_run calls :
  forall b, allocation_ok b -> allocation_ok (run_calls b calls).
Proof.
  induction calls as [| c calls IH]; intros b Hb; simpl; [exact Hb|].
  apply IH. destruct c; simpl.
  - now apply allocation_ok_add.
  - now apply allocation_ok_remove.
Qed.

(** C1.  On a budget made by [create_budget], after each call of a
    sequence of [add_category] and [remove_category] calls (that is,
    after every prefix of the sequence), [get_total_budget()] is at most
    [monthly_income].  The validation is any function that lets no
    negative amount through. *)
Theorem total_budget_within_income now income cur b calls n :
  create_budget now income cur = Returned b ->
  get_total_budget (run_calls b (firstn n calls))
  <= monthly_income (run_calls b (firstn n calls)).
Proof.
  intros Hcreate.
  apply allocation_ok_run. eapply allocation_ok_init. exact Hcreate.
Qed.

(** C3, as the code has it.  An amount the validation rejects makes
    [add_category] and [update_budget_income] return [False] with the
    budget untouched, and makes [create_budget] raise [ValueError]. *)
Theorem rejected_amount_signals now b category amount cur :
  validate_positive_number amount = None ->
  add_category now b category amount = (false, b) /\
  update_budget_income now b amount = (false, b) /\
  create_budget now amount cur =
    Raised (ValueError "Invalid monthly income. Must be a positive number.").
Proof.
  intros H. unfold add_category, update_budget_income, create_budget.
  rewrite H. repeat split. now destruct (_ || _).
Qed.

End BudgetFacts.



(** [add_category] and [remove_category] leave the income as it is, so a
    session on a budget keeps the precision of its income. *)
Lemma run_calls_income validate calls :
  forall b, monthly_income (run_calls validate b calls) = monthly_income b.
Proof.
  induction calls as [| c calls IH]; intros b; simpl; [reflexivity|].
  rewrite IH. destruct c as [now category amount | now category]; simpl.
  - unfold add_category.
    destruct (_ || _); [reflexivity|].
    destruct (validate amount); [|reflexivity].
    cbv zeta. destruct (Qltb _ (get_total_budget _)); [|reflexivity].
    destruct (Qltb 0 _); reflexivity.
  - unfold remove_category. now destruct (dict_mem _ _).
Qed.


(** The constructor leaves the income at that precision, and on such a
    budget the round trip is the identity. *)
Lemma Budget_init_income_rounded now income cur :
  py_round (monthly_income (Budget_init now income cur)) DECIMAL_PRECISION
  = monthly_income (Budget_init now income cur).
Proof.
  simpl. apply py_round_idempotent.
Qed.

Lemma from_dict_to_dict_identity now b :
  py_round (monthly_income b) DECIMAL_PRECISION = monthly_income b ->
  from_dict now (to_dict b) = Returned b.
Proof.
  intros H. unfold from_dict, to_dict. simpl. rewrite H. now destruct b.
Qed.

(** Where the precision matters: [update_budget_income] stores the income
    as the validation returns it, so with a validation that returns the
    amount as given the income 1234.567 is stored, and the round trip
    rounds it to 1234.57. *)
Example round_trip_rounds_unrounded_income :
  exists b b',
    update_budget_income validate_positive_number_spec "2024-06-02"
      (Budget_init "2024-06-01" 1000 "USD") (1234567 # 1000) = (true, b) /\
    monthly_income b = 1234567 # 1000 /\
    from_dict "2024-06-03" (to_dict b) = Returned b' /\
    monthly_income b' = 123457 # 100.
Proof.
  do 2 eexists. repeat split.
Qed.


(** C2, where the code departs from it.  A category can reach the amount 0:
    on a budget of 1000 with [Food] = 1, [update_budget_income] to the
    income 1 rounds 1 * 1 / 1000 to 0.  A rejected [add_category] on that
    category then deletes it, where the claim keeps it with its old
    amount. *)
Theorem add_category_rollback_drops_zero_category :
  exists b0 b1 b2 b3,
    create_budget validate_positive_number_spec "2024-06-01" 1000 "USD"
    = Returned b0 /\
    add_category validate_positive_number_spec "2024-06-01" b0 "Food" 1
    = (true, b1) /\
    update_budget_income validate_positive_number_spec "2024-06-02" b1 1
    = (true, b2) /\
    dict_get "Food" (categories b2) = Some (0 # 100) /\
    add_category validate_positive_number_spec "2024-06-03" b2 "Food" 5
    = (false, b3) /\
    dict_get "Food" (categories b3) = None /\
    categories b3 <> categories b2.
Proof.
  do 4 eexists.
  split; [reflexivity|]. split; [reflexivity|]. split; [reflexivity|].
  split; [reflexivity|]. split; [reflexivity|]. split; [reflexivity|].
  discriminate.
Qed.

(** C3 as claimed fails: [create_budget] with the income 0 raises
    [ValueError] and returns no value. *)
Lemma create_budget_raises_on_invalid_income :
  create_budget validate_positive_number_spec "2024-06-01" 0 "USD"
  = Raised (ValueError "Invalid monthly income. Must be a positive number.")
  /\ ~ (exists r : Budget,
          create_budget validate_positive_number_spec "2024-06-01" 0 "USD"
          = Returned r).
Proof.
  split; [reflexivity|]. intros [r H]. discriminate H.
Qed.


(* ================================================================= *)
(** ** The reconciliation engine *)

Lemma Forall_dict_set {V} (P : V -> Prop) k v (d : dict V) :
  Forall (fun kv => P (snd kv)) d -> P v ->
  Forall (fun kv => P (snd kv)) (dict_set k v d).
Proof.
  intros Hd Hv. induction d as [| [k0 v0] d IH]; simpl.
  - now repeat constructor.
  - inversion Hd; subst. destruct (k0 =? k)%string; constructor; auto.
Qed.

(** *** The loops over the rows of a comparison *)

Lemma count_status_cons st k r items :
  count_status st ((k, r) :: items) =
  ((if negb (k =? SUMMARY_KEY)%string &&
       match r with
       | CategoryRow e => status_eqb (status e) st
       | SummaryRow _ => false
       end
    then 1 else 0) + count_status st items)%nat.
Proof.
  unfold count_status, rows_with_status. simpl.
  now destruct (_ && _).
Qed.

(** On rows that are category rows wherever the key is not the summary's,
    the loop of [get_budget_status] ends, and lists one item per row that is
    over budget and one per row that is unbudgeted. *)
Lemma classify_counts items :
  forall acc,
    (forall k r, In (k, r) items -> k <> SUMMARY_KEY -> is_category_row r) ->
    exists lists,
      classify items acc = Returned lists /\
      List.length (sl_over lists)
      = (List.length (sl_over acc) + count_status Over items)%nat /\
      List.length (sl_unbudgeted lists)
      = (List.length (sl_unbudgeted acc) + count_status Unbudgeted items)%nat.
Proof.
  induction items as [| [k r] items IH]; intros acc Hrows.
  - exists acc. simpl. unfold count_status. simpl. repeat split; lia.
  - assert (Hrest : forall k' r', In (k', r') items ->
                      k' <> SUMMARY_KEY -> is_category_row r')
      by (intros; apply (Hrows k' r'); [now right | assumption]).
    rewrite !count_status_cons. cbn [classify].
    destruct (k =? SUMMARY_KEY)%string eqn:E.
    + destruct (IH acc Hrest) as (lists & Hc & Ho & Hu).
      exists lists. simpl. repeat split; assumption.
    + apply String.eqb_neq in E.
      pose proof (Hrows k r (or_introl eq_refl) E) as Hcat.
      destruct r as [e | s0]; [| contradiction].
      destruct (status e) eqn:St;
        match goal with
        | |- context [classify items ?acc'] =>
            destruct (IH acc' Hrest) as (lists & Hc & Ho & Hu)
        end;
        exists lists; simpl in *; rewrite ?length_app in *; simpl in *;
        repeat split; try assumption; lia.
Qed.

(** On such rows the loop of [suggest_budget_adjustments] ends too, with
    the suggestions of the rows in their order. *)
Lemma collect_suggestions_flat_map items :
  forall acc,
    (forall k r, In (k, r) items -> k <> SUMMARY_KEY -> is_category_row r) ->
    collect_suggestions items acc
    = Returned (acc ++ flat_map row_suggestions items).
Proof.
  induction items as [| [k r] items IH]; intros acc Hrows.
  - simpl. now rewrite app_nil_r.
  - assert (Hrest : forall k' r', In (k', r') items ->
                      k' <> SUMMARY_KEY -> is_category_row r')
      by (intros; apply (Hrows k' r'); [now right | assumption]).
    cbn [collect_suggestions flat_map]. unfold row_suggestions at 1.
    cbn [fst snd].
    destruct (k =? SUMMARY_KEY)%string eqn:E.
    + now apply IH.
    + apply String.eqb_neq in E.
      pose proof (Hrows k r (or_introl eq_refl) E) as Hcat.
      destruct r as [e | s0]; [| contradiction].
      rewrite (IH _ Hrest). now rewrite app_assoc.
Qed.

(** *** Numbers with one decimal *)

Lemma one_decimal_Z (z : Z) : one_decimal (inject_Z z).
Proof.
  exists (z * 10)%Z. unfold Qeq. simpl. lia.
Qed.

Lemma one_decimal_plus a b : one_decimal a -> one_decimal b -> one_decimal (a + b).
Proof.
  intros [za Ha] [zb Hb]. exists (za + zb)%Z. rewrite Ha, Hb.
  unfold Qeq. simpl. lia.
Qed.

Lemma one_decimal_minus a b :
  one_decimal a -> one_decimal b -> one_decimal (a - b).
Proof.
  intros [za Ha] [zb Hb]. exists (za - zb)%Z. rewrite Ha, Hb.
  unfold Qeq. simpl. lia.
Qed.

Lemma one_decimal_mult_Z a (z : Z) :
  one_decimal a -> one_decimal (a * inject_Z z).
Proof.
  intros [za Ha]. exists (za * z)%Z. rewrite Ha.
  unfold Qeq. simpl. lia.
Qed.

Lemma py_round_one_decimal q : one_decimal q -> py_round q 1 == q.
Proof.
  intros [z Hz]. rewrite (py_round_comp _ _ 1 Hz).
  change (z # 10) with (z # pow10 1) at 1.
  rewrite py_round_decimal. simpl. now rewrite Hz.
Qed.

Lemma raw_health_score_one_decimal n m u :
  one_decimal u -> one_decimal (raw_health_score n m u).
Proof.
  intros Hu. unfold raw_health_score, of_nat.
  assert (H0 : one_decimal
                 (100 - inject_Z (Z.of_nat n) * 10 - inject_Z (Z.of_nat m) * 5)).
  { repeat apply one_decimal_minus.
    - apply (one_decimal_Z 100).
    - apply (one_decimal_mult_Z _ 10), one_decimal_Z.
    - apply (one_decimal_mult_Z _ 5), one_decimal_Z. }
  assert (H1 : forall x, one_decimal x ->
                 one_decimal (if Qltb 95 u then x - (u - 95) * 2 else x)).
  { intros x Hx. destruct (Qltb 95 u); [|exact Hx].
    apply one_decimal_minus; [exact Hx|].
    apply (one_decimal_mult_Z _ 2), one_decimal_minus;
      [exact Hu | apply (one_decimal_Z 95)]. }
  destruct (Qleb 80 u && Qleb u 90).
  - apply one_decimal_plus; [now apply H1 | apply (one_decimal_Z 10)].
  - now apply H1.
Qed.

Lemma clamp_score_one_decimal q : one_decimal q -> one_decimal (clamp_score q).
Proof.
  intros Hq. unfold clamp_score, py_max, py_min.
  destruct (Qltb q 100).
  - destruct (Qltb 0 q); [exact Hq | apply (one_decimal_Z 0)].
  - destruct (Qltb 0 100); [apply (one_decimal_Z 100) | apply (one_decimal_Z 0)].
Qed.

(** Decide every comparison of the goal and hand the facts to [lra]. *)
Ltac by_comparisons :=
  repeat match goal with
    | |- context [Qltb ?a ?b] =>
        let E := fresh "E" in
        destruct (Qltb a b) eqn:E;
        [apply Qltb_lt in E | apply Qltb_ge in E]
    | |- context [Qleb ?a ?b] =>
        let E := fresh "E" in
        destruct (Qleb a b) eqn:E;
        [apply Qleb_le in E | apply Qleb_gt in E]
    end.

Lemma clamp_score_cases r r' :
  r == r' ->
  (r' < 0 -> clamp_score r == 0) /\
  (0 <= r' <= 100 -> clamp_score r == r') /\
  (100 < r' -> clamp_score r == 100).
Proof.
  intros H. unfold clamp_score, py_max, py_min.
  destruct (Qltb r 100) eqn:E0;
    [apply Qltb_lt in E0 | apply Qltb_ge in E0];
    repeat split; intros; by_comparisons; lra.
Qed.

Lemma health_level_cases score q :
  q == score ->
  (80 <= q -> health_level_of score = "Excellent"%string) /\
  (60 <= q < 80 -> health_level_of score = "Good"%string) /\
  (40 <= q < 60 -> health_level_of score = "Fair"%string) /\
  (q < 40 -> health_level_of score = "Poor"%string).
Proof.
  intros H. unfold health_level_of.
  repeat split; intros; by_comparisons; try reflexivity; exfalso; lra.
Qed.

Lemma raw_health_score_formula n m u :
  raw_health_score n m u ==
  100 - 10 * of_nat n - 5 * of_nat m
  - (if Qltb 95 u then (u - 95) * 2 else 0)
  + (if Qleb 80 u && Qleb u 90 then 10 else 0).
Proof.
  unfold raw_health_score.
  destruct (Qltb 95 u); destruct (Qleb 80 u && Qleb u 90); ring.
Qed.

(** *** Sorting by priority *)

Lemma insert_by_priority_skip x front rest :
  Forall (fun y => (priority_order (s_priority x)
                    < priority_order (s_priority y))%nat) front ->
  insert_by_priority x (front ++ rest) = front ++ insert_by_priority x rest.
Proof.
  induction 1 as [| y front Hy _ IH]; simpl; [reflexivity|].
  apply Nat.ltb_lt in Hy. now rewrite Hy, IH.
Qed.

Lemma insert_by_priority_head x rest :
  Forall (fun y => (priority_order (s_priority y)
                    <= priority_order (s_priority x))%nat) rest ->
  insert_by_priority x rest = x :: rest.
Proof.
  destruct 1 as [| y rest Hy _]; simpl; [reflexivity|].
  apply Nat.ltb_ge in Hy. now rewrite Hy.
Qed.

Lemma with_priority_all p l :
  Forall (fun y => s_priority y = p) (with_priority p l).
Proof.
  apply Forall_forall. intros y Hy. apply filter_In in Hy.
  destruct Hy as [_ Hy]. destruct (s_priority y), p; now try discriminate.
Qed.

(** A stable sort on three priorities puts the [high] suggestions first,
    then the [medium] ones, then the [low] ones, each group in the order it
    had. *)
Lemma sort_by_priority_groups l :
  sort_by_priority l =
  with_priority High l ++ with_priority Medium l ++ with_priority Low l.
Proof.
  induction l as [| x l IH]; [reflexivity|].
  change (sort_by_priority (x :: l))
    with (insert_by_priority x (sort_by_priority l)).
  rewrite IH. unfold with_priority at 4 5 6. cbn [filter].
  fold (with_priority High l) (with_priority Medium l) (with_priority Low l).
  pose proof (with_priority_all High l) as HH.
  pose proof (with_priority_all Medium l) as HM.
  pose proof (with_priority_all Low l) as HL.
  destruct (s_priority x) eqn:Px; cbn [priority_eqb].
  - apply insert_by_priority_head. rewrite Px.
    apply Forall_forall. intros y _. destruct (s_priority y); simpl; lia.
  - rewrite insert_by_priority_skip.
    + rewrite insert_by_priority_head; [reflexivity|].
      rewrite Px. apply Forall_app. split;
        [eapply Forall_impl; [| exact HM] | eapply Forall_impl; [| exact HL]];
        intros y ->; simpl; lia.
    + rewrite Px. eapply Forall_impl; [| exact HH]. intros y ->. simpl. lia.
  - rewrite insert_by_priority_skip.
    + rewrite insert_by_priority_skip.
      * rewrite insert_by_priority_head; [reflexivity|].
        rewrite Px. eapply Forall_impl; [| exact HL]. intros y ->. simpl. lia.
      * rewrite Px. eapply Forall_impl; [| exact HM]. intros y ->. simpl. lia.
    + rewrite Px. eapply Forall_impl; [| exact HH]. intros y ->. simpl. lia.
Qed.

(** *** The suggestions of a row *)

Lemma suggest_for_category c e s : In s (suggest_for c e) -> s_category s = c.
Proof.
  unfold suggest_for.
  destruct (status e); repeat match goal with
                         | |- context [if ?x then _ else _] => destruct x
                         end; simpl; intros H; try contradiction;
    destruct H as [<- | []]; reflexivity.
Qed.

Lemma suggest_for_at_most_one c e :
  suggest_for c e = [] \/ exists s, suggest_for c e = [s].
Proof.
  unfold suggest_for.
  destruct (status e); repeat match goal with
                         | |- context [if ?x then _ else _] => destruct x
                         end; eauto.
Qed.

(** The suggestions come in the order of the rows, one at most per row. *)
Lemma row_suggestions_in_order (items : dict Row) :
  subsequence (map s_category (flat_map row_suggestions items))
              (dict_keys items).
Proof.
  induction items as [| [k r] items IH]; simpl; [constructor|].
  unfold row_suggestions at 1. cbn [fst snd].
  destruct (k =? SUMMARY_KEY)%string; [now constructor|].
  destruct r as [e | s0]; [| now constructor].
  destruct (suggest_for_at_most_one k e) as [-> | [s Hs]]; [now constructor|].
  rewrite Hs. simpl.
  rewrite (suggest_for_category k e s) by (rewrite Hs; now left).
  now constructor.
Qed.

Lemma py_abs_Qabs v : py_abs v == Qabs v.
Proof.
  unfold py_abs. apply Qabs_case; intros; by_comparisons; lra.
Qed.

Lemma py_max_Qmax a b : py_max a b == Qmax a b.
Proof.
  unfold py_max. by_comparisons.
  - symmetry. apply Q.max_r. now apply Qlt_le_weak.
  - symmetry. now apply Q.max_l.
Qed.

Section EngineFacts.

Variable convert_currency : Q -> string -> string -> option Q.
Variable normalize_to_base_currency :
  list Transaction -> string -> list Transaction.
Variable days_ago : nat -> string.

Local Notation breakdown := (get_expense_breakdown convert_currency).
Local Notation spending :=
  (actual_spending_of convert_currency normalize_to_base_currency days_ago).
Local Notation track :=
  (track_spending_vs_budget convert_currency normalize_to_base_currency
                            days_ago).
Local Notation budget_status :=
  (get_budget_status convert_currency normalize_to_base_currency days_ago).
Local Notation suggest :=
  (suggest_budget_adjustments convert_currency normalize_to_base_currency
                              days_ago).
Local Notation health_score :=
  (get_budget_health_score convert_currency normalize_to_base_currency
                           days_ago).

(** *** The spending per category *)

Lemma add_expense_to_wf sd ed cur totals t :
  dict_wf totals -> dict_wf (add_expense_to convert_currency sd ed cur totals t).
Proof.
  intros H. unfold add_expense_to.
  destruct (negb _); [exact H|].
  destruct (before _ _); [exact H|].
  destruct (after _ _); [exact H|].
  now apply dict_wf_set.
Qed.

Lemma get_expense_breakdown_wf txs sd ed cur :
  dict_wf (breakdown txs sd ed cur).
Proof.
  unfold get_expense_breakdown.
  assert (G : forall acc, dict_wf acc ->
              dict_wf (fold_left (add_expense_to convert_currency sd ed cur)
                                 txs acc)).
  { induction txs as [| t txs IH]; intros acc Hacc; simpl; [exact Hacc|].
    apply IH. now apply add_expense_to_wf. }
  specialize (G [] (NoDup_nil _)).
  unfold dict_wf, dict_keys in *. rewrite map_map.
  erewrite map_ext; [exact G|]. now intros [k v].
Qed.

Lemma dict_get_map_round c (d : dict Q) :
  dict_get c (map (fun '(category, amount) =>
                     (category, py_round amount DECIMAL_PRECISION)) d)
  = option_map (fun amount => py_round amount DECIMAL_PRECISION)
               (dict_get c d).
Proof.
  induction d as [| [k v] d IH]; simpl; [reflexivity|].
  now destruct (k =? c)%string.
Qed.

(** Without date limits, the breakdown holds for a category the rounded
    sum of its expenses, taken in the order of the transactions, and
    nothing for a category without expense. *)
Lemma get_expense_breakdown_total txs cur c :
  dict_get c (breakdown txs None None cur) =
  match map (amount_in convert_currency cur) (filter (is_expense_of c) txs) with
  | [] => None
  | amounts => Some (py_round (py_sum amounts) DECIMAL_PRECISION)
  end.
Proof.
  unfold get_expense_breakdown. rewrite dict_get_map_round.
  assert (G : forall acc,
             dict_get c (fold_left (add_expense_to convert_currency None None
                                                   cur) txs acc)
             = match map (amount_in convert_currency cur)
                         (filter (is_expense_of c) txs) with
               | [] => dict_get c acc
               | amounts =>
                   Some (fold_left Qplus amounts (dict_get_default c acc 0))
               end).
  { induction txs as [| t txs IH]; intros acc; [reflexivity|].
    cbn [fold_left filter]. rewrite IH. clear IH.
    unfold add_expense_to, is_expense_of, before, after. cbn [negb].
    destruct (t_type t =? "expense")%string; cbn [negb andb];
      [| reflexivity].
    fold (amount_in convert_currency cur t).
    assert (Hconv :
              (if negb (t_currency t =? cur)%string
               then match convert_currency (t_amount t) (t_currency t) cur with
                    | Some converted_amount => converted_amount
                    | None => t_amount t
                    end
               else t_amount t) = amount_in convert_currency cur t).
    { unfold amount_in. now destruct (t_currency t =? cur)%string. }
    rewrite Hconv. clear Hconv.
    destruct (t_category t =? c)%string eqn:E.
    - apply String.eqb_eq in E. rewrite E. cbn [map].
      assert (Hnew : forall v, dict_get_default c (dict_set c v acc) 0 = v)
        by (intros v; unfold dict_get_default; now rewrite dict_get_set_same).
      rewrite Hnew, dict_get_set_same.
      destruct (map _ (filter _ txs)); reflexivity.
    - apply String.eqb_neq in E.
      assert (Hold : forall v,
                 dict_get_default c (dict_set (t_category t) v acc) 0
                 = dict_get_default c acc 0)
        by (intros v; unfold dict_get_default;
            now rewrite (dict_get_set_other _ _ _ _ (not_eq_sym E))).
      rewrite Hold, (dict_get_set_other _ _ _ _ (not_eq_sym E)).
      reflexivity. }
  rewrite G. simpl.
  destruct (map _ (filter _ txs)); reflexivity.
Qed.

Lemma actual_spending_wf b txs period :
  dict_wf (spending b txs period).
Proof.
  apply get_expense_breakdown_wf.
Qed.

(** *** The two loops of the comparison *)

Lemma track_budgeted_get spend (l : dict Q) :
  forall st c,
    dict_wf l ->
    dict_get c (fst (fst (fold_left (track_budgeted spend) l st))) =
    match dict_get c l with
    | Some amt =>
        Some (CategoryRow (budget_row amt (dict_get_default c spend 0)))
    | None => dict_get c (fst (fst st))
    end.
Proof.
  induction l as [| [k amt] l IH]; intros [[cmp tb] ts] c Hwf; simpl;
    [reflexivity|].
  inversion Hwf as [| ? ? Hnotin Hwf']; subst.
  rewrite (IH _ c Hwf'). simpl.
  destruct (k =? c)%string eqn:E.
  - apply String.eqb_eq in E. subst k.
    apply dict_get_None_keys in Hnotin. rewrite Hnotin.
    apply dict_get_set_same.
  - destruct (dict_get c l); [reflexivity|].
    apply dict_get_set_other. apply String.eqb_neq in E. congruence.
Qed.

Lemma track_unbudgeted_get b (l : dict Q) :
  forall st c,
    dict_wf l ->
    dict_get c (fst (fold_left (track_unbudgeted b) l st)) =
    match dict_get c l with
    | Some a =>
        if dict_mem c (categories b) then dict_get c (fst st)
        else Some (CategoryRow (unbudgeted_row a))
    | None => dict_get c (fst st)
    end.
Proof.
  induction l as [| [k a] l IH]; intros [cmp ts] c Hwf; [reflexivity|].
  cbn [fold_left]. inversion Hwf as [| ? ? Hnotin Hwf']; subst.
  rewrite (IH _ c Hwf'). cbn [dict_get].
  destruct (k =? c)%string eqn:E.
  - apply String.eqb_eq in E. subst k.
    apply dict_get_None_keys in Hnotin. rewrite Hnotin.
    unfold track_unbudgeted.
    destruct (dict_mem c (categories b)); simpl; [reflexivity|].
    apply dict_get_set_same.
  - apply String.eqb_neq in E.
    assert (Hother :
              dict_get c (fst (track_unbudgeted b (cmp, ts) (k, a)))
              = dict_get c cmp).
    { simpl. destruct (dict_mem k (categories b)); simpl; [reflexivity|].
      apply dict_get_set_other. congruence. }
    rewrite Hother. reflexivity.
Qed.

Lemma track_budgeted_rows spend (l : dict Q) :
  forall st,
    Forall (fun kr => budgeted_row_shape (snd kr)) (fst (fst st)) ->
    Forall (fun kr => budgeted_row_shape (snd kr))
           (fst (fst (fold_left (track_budgeted spend) l st))).
Proof.
  induction l as [| [k amt] l IH]; intros [[cmp tb] ts] H; simpl; [exact H|].
  apply IH. simpl. apply Forall_dict_set; [exact H|].
  now exists amt, (dict_get_default k spend 0).
Qed.

Lemma track_budgeted_wf spend (l : dict Q) :
  forall st,
    dict_wf (fst (fst st)) ->
    dict_wf (fst (fst (fold_left (track_budgeted spend) l st))).
Proof.
  induction l as [| [k amt] l IH]; intros [[cmp tb] ts] H; simpl; [exact H|].
  apply IH. simpl. now apply dict_wf_set.
Qed.

Lemma track_unbudgeted_rows b (l : dict Q) :
  forall st,
    Forall (fun kr => is_category_row (snd kr)) (fst st) ->
    Forall (fun kr => is_category_row (snd kr))
           (fst (fold_left (track_unbudgeted b) l st)).
Proof.
  induction l as [| [k a] l IH]; intros [cmp ts] H; simpl; [exact H|].
  apply IH. destruct (negb _); simpl; [|exact H].
  now apply Forall_dict_set.
Qed.

Lemma track_unbudgeted_wf b (l : dict Q) :
  forall st,
    dict_wf (fst st) ->
    dict_wf (fst (fold_left (track_unbudgeted b) l st)).
Proof.
  induction l as [| [k a] l IH]; intros [cmp ts] H; simpl; [exact H|].
  apply IH. destruct (negb _); simpl; [|exact H].
  now apply dict_wf_set.
Qed.

(** The comparison is the rows of the two loops with the summary assigned
    last. *)
Lemma compare_to_budget_shape b spend :
  exists rows1 tb ts1 rows2 ts2 s,
    fold_left (track_budgeted spend) (categories b) ([], 0, 0)
    = (rows1, tb, ts1) /\
    fold_left (track_unbudgeted b) spend (rows1, ts1) = (rows2, ts2) /\
    compare_to_budget b spend = dict_set SUMMARY_KEY (SummaryRow s) rows2 /\
    budget_utilization s =
      (if Qltb 0 tb then py_round (ts2 / tb * 100) 1 else 0).
Proof.
  unfold compare_to_budget.
  destruct (fold_left (track_budgeted spend) (categories b) ([], 0, 0))
    as [[rows1 tb] ts1] eqn:E1.
  destruct (fold_left (track_unbudgeted b) spend (rows1, ts1))
    as [rows2 ts2] eqn:E2.
  exists rows1, tb, ts1, rows2, ts2. eexists.
  split; [reflexivity|]. split; [exact E2|]. split; reflexivity.
Qed.

Lemma budget_row_status_budgeted amt a : status (budget_row amt a) <> Unbudgeted.
Proof.
  unfold budget_row. simpl.
  destruct (Qltb 0 (a - amt)); [discriminate|].
  destruct (Qltb (a - amt) 0); discriminate.
Qed.

(** The row of a key other than the summary's is the row the loops left
    there. *)
Lemma track_get_category b txs period c :
  c <> SUMMARY_KEY ->
  let spend := spending b txs period in
  dict_get c (track b txs period) =
  match dict_get c spend with
  | Some a =>
      if dict_mem c (categories b)
      then dict_get c (fst (fst (fold_left (track_budgeted spend)
                                           (categories b) ([], 0, 0))))
      else Some (CategoryRow (unbudgeted_row a))
  | None =>
      dict_get c (fst (fst (fold_left (track_budgeted spend)
                                      (categories b) ([], 0, 0))))
  end.
Proof.
  intros Hne spend. unfold track_spending_vs_budget. fold spend.
  destruct (compare_to_budget_shape b spend)
    as (rows1 & tb & ts1 & rows2 & ts2 & s & E1 & E2 & Ecmp & _).
  rewrite Ecmp, dict_get_set_other by congruence.
  replace rows2 with (fst (fold_left (track_unbudgeted b) spend (rows1, ts1)))
    by now rewrite E2.
  rewrite track_unbudgeted_get by apply actual_spending_wf.
  rewrite E1. reflexivity.
Qed.

(** C4, as the code has it.  A category of the budget other than
    ['_summary'] has a row in the comparison: the budgeted amount, the
    actual amount and their difference [actual - budgeted], each rounded
    to 2 decimals; the percentage used, which is [actual / budgeted * 100]
    rounded to 1 decimal for a positive budgeted amount, else 0 when the
    actual amount is 0 and infinite otherwise; the status [over], [under]
    or [exact] by the sign of the unrounded difference. *)
Theorem budgeted_category_row b txs period c amt :
  dict_wf (categories b) ->
  In (c, amt) (categories b) ->
  c <> SUMMARY_KEY ->
  let a := dict_get_default c (spending b txs period) 0 in
  exists e,
    dict_get c (track b txs period) = Some (CategoryRow e) /\
    rounds_to 2 amt (budgeted e) = true /\
    rounds_to 2 a (actual e) = true /\
    rounds_to 2 (a - amt) (variance e) = true /\
    (0 < amt ->
     exists q, percentage_used e = Finite q /\
               rounds_to 1 (a / amt * 100) q = true) /\
    (amt <= 0 -> a == 0 -> percentage_used e = Finite (py_round 0 1)) /\
    (amt <= 0 -> ~ a == 0 -> percentage_used e = Infinity) /\
    (0 < a - amt -> status e = Over) /\
    (a - amt < 0 -> status e = Under) /\
    (a - amt == 0 -> status e = Exact).
Proof.
  intros Hwf Hin Hne a.
  pose proof (In_dict_get _ _ _ Hwf Hin) as Hget.
  exists (budget_row amt a). split.
  - rewrite track_get_category by exact Hne. cbv zeta.
    assert (Hmem : dict_mem c (categories b) = true)
      by (unfold dict_mem; now rewrite Hget).
    rewrite Hmem, (track_budgeted_get _ _ _ _ Hwf), Hget.
    unfold a. destruct (dict_get c (spending b txs period)); reflexivity.
  - unfold budget_row.
    cbn [budgeted actual variance percentage_used status].
    split; [apply rounds_to_py_round|].
    split; [apply rounds_to_py_round|].
    split; [apply rounds_to_py_round|].
    split; [| split; [| split; [| split; [| split]]]].
    + intros H. apply Qltb_lt in H. rewrite H. cbn [x_round].
      eexists. split; [reflexivity | apply rounds_to_py_round].
    + intros H1 H2. apply Qltb_ge in H1. apply Qeqb_eq in H2.
      now rewrite H1, H2.
    + intros H1 H2. apply Qltb_ge in H1. apply Qeqb_neq in H2.
      now rewrite H1, H2.
    + intros H. apply Qltb_lt in H. now rewrite H.
    + intros H.
      assert (H' : Qltb 0 (a - amt) = false)
        by (apply Qltb_ge; now apply Qlt_le_weak).
      apply Qltb_lt in H. now rewrite H', H.
    + intros H.
      assert (H1 : Qltb 0 (a - amt) = false)
        by (apply Qltb_ge; rewrite H; apply Qle_refl).
      assert (H2 : Qltb (a - amt) 0 = false)
        by (apply Qltb_ge; rewrite H; apply Qle_refl).
      now rewrite H1, H2.
Qed.

(** C5, as the code has it.  A category other than ['_summary'] with an
    entry in the spending of the period and none in the budget has a row
    with budgeted amount 0, status [unbudgeted] and an infinite percentage;
    and a category without spending in the period has no [unbudgeted] row,
    whatever it is budgeted. *)
Theorem unbudgeted_category_row b txs period :
  let spend := spending b txs period in
  let comparison := track b txs period in
  (forall c a,
      In (c, a) spend ->
      dict_mem c (categories b) = false ->
      c <> SUMMARY_KEY ->
      dict_get c comparison =
      Some (CategoryRow
              (mkCategoryEntry 0 (py_round a 2) (py_round a 2)
                               Infinity Unbudgeted))) /\
  (forall c e,
      get_category_amount b c == 0 ->
      ~ In c (dict_keys spend) ->
      dict_get c comparison = Some (CategoryRow e) ->
      status e <> Unbudgeted).
Proof.
  intros spend comparison. subst spend comparison. split.
  - intros c a Hin Hmem Hne.
    rewrite track_get_category by exact Hne. cbv zeta.
    rewrite (In_dict_get _ _ _ (actual_spending_wf b txs period) Hin), Hmem.
    reflexivity.
  - intros c e _ Hnot Hget.
    destruct (String.eqb_spec c SUMMARY_KEY) as [-> | Hne].
    + unfold track_spending_vs_budget in Hget.
      destruct (compare_to_budget_shape b (spending b txs period))
        as (rows1 & tb & ts1 & rows2 & ts2 & s & E1 & E2 & Ecmp & _).
      rewrite Ecmp, dict_get_set_same in Hget.
      discriminate.
    + rewrite track_get_category in Hget by exact Hne. cbv zeta in Hget.
      apply dict_get_None_keys in Hnot. rewrite Hnot in Hget.
      apply dict_get_In in Hget.
      pose proof (track_budgeted_rows (spending b txs period) (categories b)
                    ([], 0, 0) (Forall_nil _)) as Hrows.
      rewrite Forall_forall in Hrows.
      destruct (Hrows _ Hget) as (amt & a & Hrow). simpl in Hrow.
      injection Hrow as ->. apply budget_row_status_budgeted.
Qed.

(** *** The shape of the comparison *)

Lemma track_shape b txs period :
  exists rows s,
    track b txs period = dict_set SUMMARY_KEY (SummaryRow s) rows /\
    Forall (fun kr => is_category_row (snd kr)) rows /\
    dict_wf rows /\
    one_decimal (budget_utilization s).
Proof.
  unfold track_spending_vs_budget.
  destruct (compare_to_budget_shape b (spending b txs period))
    as (rows1 & tb & ts1 & rows2 & ts2 & s & E1 & E2 & Ecmp & Hu).
  exists rows2, s. split; [exact Ecmp|].
  assert (H1 : rows1 = fst (fst (fold_left
                                   (track_budgeted (spending b txs period))
                                   (categories b) ([], 0, 0))))
    by now rewrite E1.
  assert (H2 : rows2 = fst (fold_left (track_unbudgeted b)
                                      (spending b txs period) (rows1, ts1)))
    by now rewrite E2.
  repeat split.
  - rewrite H2. apply track_unbudgeted_rows. simpl. rewrite H1.
    eapply Forall_impl;
      [| apply track_budgeted_rows; simpl; apply Forall_nil].
    intros [k r] (amt & a & ->). exact I.
  - rewrite H2. apply track_unbudgeted_wf. simpl. rewrite H1.
    apply track_budgeted_wf. simpl. apply NoDup_nil.
  - rewrite Hu. destruct (Qltb 0 tb).
    + eexists. unfold py_round. reflexivity.
    + exists 0%Z. reflexivity.
Qed.

Lemma track_row_category b txs period k r :
  In (k, r) (track b txs period) -> k <> SUMMARY_KEY -> is_category_row r.
Proof.
  destruct (track_shape b txs period) as (rows & s & -> & Hrows & _ & _).
  intros Hin Hne. apply In_dict_set in Hin.
  destruct Hin as [[-> _] | Hin]; [congruence|].
  rewrite Forall_forall in Hrows. exact (Hrows _ Hin).
Qed.

Lemma track_wf b txs period : dict_wf (track b txs period).
Proof.
  destruct (track_shape b txs period) as (rows & s & -> & _ & Hwf & _).
  now apply dict_wf_set.
Qed.

Lemma track_summary b txs period :
  exists s,
    dict_get SUMMARY_KEY (track b txs period) = Some (SummaryRow s) /\
    one_decimal (budget_utilization s).
Proof.
  destruct (track_shape b txs period) as (rows & s & -> & _ & _ & Hu).
  exists s. split; [apply dict_get_set_same | exact Hu].
Qed.

(** *** The health score *)

(** Both loops end on a comparison, so the score is returned. *)
Lemma health_score_returns b txs :
  exists s lists,
    dict_get SUMMARY_KEY (track b txs "month") = Some (SummaryRow s) /\
    one_decimal (budget_utilization s) /\
    List.length (sl_over lists) = count_status Over (track b txs "month") /\
    List.length (sl_unbudgeted lists)
    = count_status Unbudgeted (track b txs "month") /\
    health_score b txs =
    Returned
      (let score :=
         clamp_score
           (raw_health_score (List.length (sl_over lists))
                             (List.length (sl_unbudgeted lists))
                             (budget_utilization s)) in
       mkHealthScore (py_round score 1) (health_level_of score)
         (budget_utilization s)
         (List.length (sl_over lists)) (List.length (sl_unbudgeted lists))
         (List.length
            (sort_by_priority
               (flat_map row_suggestions (track b txs "month"))))).
Proof.
  destruct (track_summary b txs "month") as (s & Hs & Hu).
  destruct (classify_counts (track b txs "month") (mkStatusLists [] [] [])
              (track_row_category b txs "month"))
    as (lists & Hc & Ho & Hub).
  exists s, lists. simpl in Ho, Hub.
  repeat split; try assumption.
  unfold get_budget_health_score, get_budget_status,
    suggest_budget_adjustments, summary_of.
  rewrite Hs, Hc. cbn [bind].
  rewrite (collect_suggestions_flat_map _ []
             (track_row_category b txs "month")).
  reflexivity.
Qed.

(** C6.  [get_budget_health_score] returns the score 100 minus 10 for each
    row that is over budget, minus 5 for each unbudgeted row, minus
    [(utilization - 95) * 2] when the utilization of the summary is above
    95, plus 10 when it is between 80 and 90, brought into the range from 0
    to 100; and the level [Excellent] from 80, [Good] from 60, [Fair] from
    40, [Poor] below. *)
Theorem health_score_formula b txs :
  let comparison := track b txs "month" in
  exists s hs,
    dict_get SUMMARY_KEY comparison = Some (SummaryRow s) /\
    health_score b txs = Returned hs /\
    let u := budget_utilization s in
    let n_over := of_nat (count_status Over comparison) in
    let n_unbudgeted := of_nat (count_status Unbudgeted comparison) in
    exists penalty bonus,
      (95 < u -> penalty == (u - 95) * 2) /\
      (u <= 95 -> penalty == 0) /\
      (80 <= u <= 90 -> bonus == 10) /\
      (~ 80 <= u <= 90 -> bonus == 0) /\
      let raw := 100 - 10 * n_over - 5 * n_unbudgeted - penalty + bonus in
      (raw < 0 -> hs_score hs == 0) /\
      (0 <= raw <= 100 -> hs_score hs == raw) /\
      (100 < raw -> hs_score hs == 100) /\
      (80 <= hs_score hs -> hs_health_level hs = "Excellent"%string) /\
      (60 <= hs_score hs < 80 -> hs_health_level hs = "Good"%string) /\
      (40 <= hs_score hs < 60 -> hs_health_level hs = "Fair"%string) /\
      (hs_score hs < 40 -> hs_health_level hs = "Poor"%string).
Proof.
  intros comparison. subst comparison.
  destruct (health_score_returns b txs)
    as (s & lists & Hs & Hu & Ho & Hub & Hhs).
  exists s. eexists. split; [exact Hs|]. split; [exact Hhs|].
  cbv zeta. rewrite Ho, Hub.
  set (u := budget_utilization s).
  set (n := count_status Over _). set (m := count_status Unbudgeted _).
  exists (if Qltb 95 u then (u - 95) * 2 else 0),
         (if Qleb 80 u && Qleb u 90 then 10 else 0).
  assert (Hround : py_round (clamp_score (raw_health_score n m u)) 1
                   == clamp_score (raw_health_score n m u)).
  { apply py_round_one_decimal, clamp_score_one_decimal,
      raw_health_score_one_decimal. exact Hu. }
  pose proof (clamp_score_cases _ _ (raw_health_score_formula n m u))
    as (Hlow & Hmid & Hhigh).
  pose proof (health_level_cases _ _ Hround) as (Hl1 & Hl2 & Hl3 & Hl4).
  cbn [hs_score hs_health_level].
  repeat split; try assumption.
  - intros H. apply Qltb_lt in H. now rewrite H.
  - intros H. apply Qltb_ge in H. now rewrite H.
  - intros [H1 H2]. apply Qleb_le in H1, H2. now rewrite H1, H2.
  - intros H. destruct (Qleb 80 u) eqn:E1; [|reflexivity].
    destruct (Qleb u 90) eqn:E2; [|reflexivity].
    apply Qleb_le in E1, E2. tauto.
  - intros H. rewrite Hround. now apply Hlow.
  - intros H. rewrite Hround. now apply Hmid.
  - intros H. rewrite Hround. now apply Hhigh.
Qed.

(** *** The suggestions *)

(** C7, as the code has it.  The loop of [suggest_budget_adjustments]
    meets the rows of the comparison in their order and adds at most one
    suggestion per row, computed from the rounded amounts of the row: for a
    row over budget with [variance > 0.10 * budgeted], an increase to
    [budgeted + variance * 1.2] rounded to 2 decimals, with priority [high]
    when [variance > 0.25 * budgeted] and [medium] otherwise, and nothing
    when [variance < 0.10 * budgeted]; for a row under budget with
    [abs(variance) > 0.30 * budgeted], a decrease to
    [max(budgeted - 0.5 * abs(variance), 1.1 * actual)] rounded to 2
    decimals, with priority [low], and nothing when
    [abs(variance) < 0.30 * budgeted]; for an unbudgeted row with
    [actual > 0], an addition of [actual * 1.2] rounded to 2 decimals, with
    priority [medium], and nothing otherwise; nothing for a row on budget.
    A variance of 0.10 or 0.30 times the budgeted amount to the cent is
    left open: there the code compares with a binary product.  The list
    returned has the [high] suggestions first, then the [medium] ones, then
    the [low] ones, each group in the order in which the loop met them. *)
Theorem suggestions_by_priority b txs :
  let comparison := track b txs "month" in
  exists encounter,
    suggest b txs =
    Returned (with_priority High encounter ++ with_priority Medium encounter
              ++ with_priority Low encounter) /\
    subsequence (map s_category encounter) (dict_keys comparison) /\
    forall c e,
      dict_get c comparison = Some (CategoryRow e) ->
      (status e = Over ->
       budgeted e * (1 # 10) < variance e ->
       exists s,
         In s encounter /\ s_category s = c /\ s_type s = SIncrease /\
         s_current_amount s = budgeted e /\
         rounds_to 2 (budgeted e + variance e * (12 # 10))
                   (s_suggested_amount s) = true /\
         (budgeted e * (25 # 100) < variance e -> s_priority s = High) /\
         (variance e <= budgeted e * (25 # 100) -> s_priority s = Medium)) /\
      (status e = Over ->
       variance e < budgeted e * (1 # 10) ->
       forall s, In s encounter -> s_category s <> c) /\
      (status e = Under ->
       budgeted e * (3 # 10) < Qabs (variance e) ->
       exists s,
         In s encounter /\ s_category s = c /\ s_type s = SDecrease /\
         s_current_amount s = budgeted e /\
         rounds_to 2 (Qmax (budgeted e - Qabs (variance e) * (5 # 10))
                           (actual e * (11 # 10)))
                   (s_suggested_amount s) = true /\
         s_priority s = Low) /\
      (status e = Under ->
       Qabs (variance e) < budgeted e * (3 # 10) ->
       forall s, In s encounter -> s_category s <> c) /\
      (status e = Unbudgeted ->
       0 < actual e ->
       exists s,
         In s encounter /\ s_category s = c /\ s_type s = SAdd /\
         s_current_amount s = 0 /\
         rounds_to 2 (actual e * (12 # 10)) (s_suggested_amount s) = true /\
         s_priority s = Medium) /\
      (status e = Unbudgeted ->
       actual e <= 0 ->
       forall s, In s encounter -> s_category s <> c) /\
      (status e = Exact ->
       forall s, In s encounter -> s_category s <> c).
Proof.
  intros comparison. subst comparison.
  exists (flat_map row_suggestions (track b txs "month")).
  split; [| split].
  - unfold suggest_budget_adjustments.
    rewrite (collect_suggestions_flat_map _ []
               (track_row_category b txs "month")).
    cbn [bind app]. now rewrite sort_by_priority_groups.
  - apply row_suggestions_in_order.
  - intros c e Hget.
    assert (Hne : c <> SUMMARY_KEY).
    { intros ->. destruct (track_summary b txs "month") as (s & Hs & _).
      congruence. }
    assert (Hrow : row_suggestions (c, CategoryRow e) = suggest_for c e).
    { unfold row_suggestions. cbn [fst snd].
      apply String.eqb_neq in Hne. now rewrite Hne. }
    assert (Hsub : forall s, In s (suggest_for c e) ->
                     In s (flat_map row_suggestions (track b txs "month"))).
    { intros s Hs. apply in_flat_map. exists (c, CategoryRow e).
      split; [now apply dict_get_In | now rewrite Hrow]. }
    assert (Honly : forall s,
               In s (flat_map row_suggestions (track b txs "month")) ->
               s_category s = c -> In s (suggest_for c e)).
    { intros s Hs Hc. apply in_flat_map in Hs.
      destruct Hs as ([k r] & Hin & Hs).
      unfold row_suggestions in Hs. cbn [fst snd] in Hs.
      destruct (k =? SUMMARY_KEY)%string; [contradiction|].
      destruct r as [e' | s0]; [| contradiction].
      pose proof (suggest_for_category _ _ _ Hs) as Hk.
      rewrite Hc in Hk. subst k.
      rewrite (In_dict_get _ _ _ (track_wf b txs "month") Hin) in Hget.
      now injection Hget as ->. }
    split; [| split; [| split; [| split; [| split; [| split]]]]].
    + intros St Hlt. apply Qltb_lt in Hlt.
      eexists. split.
      * apply Hsub. unfold suggest_for. rewrite St, Hlt. now left.
      * cbn [s_category s_type s_current_amount s_suggested_amount
             s_priority].
        split; [reflexivity|]. split; [reflexivity|].
        split; [reflexivity|]. split; [apply rounds_to_py_round|].
        split.
        -- intros H. apply Qltb_lt in H. now rewrite H.
        -- intros H. apply Qltb_ge in H. now rewrite H.
    + intros St Hlt s Hs Hc.
      assert (Hle : Qltb (budgeted e * (1 # 10)) (variance e) = false)
        by (apply Qltb_ge; now apply Qlt_le_weak).
      pose proof (Honly s Hs Hc) as Hin.
      unfold suggest_for in Hin. now rewrite St, Hle in Hin.
    + intros St Hlt.
      assert (Hlt' : Qltb (budgeted e * (3 # 10)) (py_abs (variance e)) = true)
        by (apply Qltb_lt; now rewrite py_abs_Qabs).
      eexists. split.
      * apply Hsub. unfold suggest_for. rewrite St, Hlt'. now left.
      * cbn [s_category s_type s_current_amount s_suggested_amount
             s_priority].
        split; [reflexivity|]. split; [reflexivity|].
        split; [reflexivity|]. split; [| reflexivity].
        apply rounds_to_py_round_of.
        rewrite py_max_Qmax. now rewrite py_abs_Qabs.
    + intros St Hlt s Hs Hc.
      assert (Hle : Qltb (budgeted e * (3 # 10)) (py_abs (variance e)) = false)
        by (apply Qltb_ge; rewrite py_abs_Qabs; now apply Qlt_le_weak).
      pose proof (Honly s Hs Hc) as Hin.
      unfold suggest_for in Hin. now rewrite St, Hle in Hin.
    + intros St Hpos. apply Qltb_lt in Hpos.
      eexists. split.
      * apply Hsub. unfold suggest_for. rewrite St, Hpos. now left.
      * cbn [s_category s_type s_current_amount s_suggested_amount
             s_priority].
        split; [reflexivity|]. split; [reflexivity|].
        split; [reflexivity|]. split; [apply rounds_to_py_round|].
        reflexivity.
    + intros St Hle s Hs Hc. apply Qltb_ge in Hle.
      pose proof (Honly s Hs Hc) as Hin.
      unfold suggest_for in Hin. now rewrite St, Hle in Hin.
    + intros St s Hs Hc.
      pose proof (Honly s Hs Hc) as Hin.
      unfold suggest_for in Hin. now rewrite St in Hin.
Qed.

End EngineFacts.


(* ================================================================= *)
(** ** The statements at concrete budgets *)

(** The examples run the engine with the collaborators of the
    specification and the clock stopped on the first of June 2024. *)
Local Notation track_ex :=
  (track_spending_vs_budget convert_currency_spec
                            normalize_to_base_currency_spec fixed_clock).
Local Notation spending_ex :=
  (actual_spending_of convert_currency_spec
                      normalize_to_base_currency_spec fixed_clock).
Local Notation suggest_ex :=
  (suggest_budget_adjustments convert_currency_spec
                              normalize_to_base_currency_spec fixed_clock).
Local Notation health_score_ex :=
  (get_budget_health_score convert_currency_spec
                           normalize_to_base_currency_spec fixed_clock).

(** C4 as claimed fails.  With the categories ['_summary'] = 50 and
    [Food] = 3 and one expense of 1 on [Food]: the key ['_summary'] holds
    the totals, not a row of the category; and the percentage of [Food] is
    33.3, not 1 / 3 * 100. *)
Lemma budgeted_category_row_counterexample :
  let b := budget_of 100 [("_summary", 50); ("Food", 3)]%string in
  let comparison := track_ex b [expense "Food" 1] "month" in
  In ("_summary"%string, 50) (categories b) /\
  (forall e, dict_get "_summary" comparison <> Some (CategoryRow e)) /\
  (exists e,
      dict_get "Food" comparison = Some (CategoryRow e) /\
      percentage_used e = Finite (333 # 10) /\
      ~ (333 # 10 == 1 / 3 * 100)).
Proof.
  cbv zeta. split; [now left|]. split.
  - intros e H. vm_compute in H. discriminate H.
  - eexists. split; [vm_compute; reflexivity|]. split; [reflexivity|].
    intros H. vm_compute in H. discriminate H.
Qed.

(** C4 at the budget [Food] = 500 with expenses of 600 on [Food]: the
    variance is 100, the status [over], the percentage used 120. *)
Lemma budgeted_category_row_witness :
  let b := budget_of 1000 [("Food"%string, 500)] in
  let txs := [expense "Food" 350; expense "Food" 250] in
  dict_wf (categories b) /\
  In ("Food"%string, 500) (categories b) /\
  "Food"%string <> SUMMARY_KEY /\
  exists e q,
    dict_get "Food" (track_ex b txs "month") = Some (CategoryRow e) /\
    variance e == 100 /\ status e = Over /\
    percentage_used e = Finite q /\ q == 120.
Proof.
  cbv zeta.
  assert (Hwf : dict_wf (categories (budget_of 1000 [("Food"%string, 500)]))).
  { unfold dict_wf. simpl. constructor; [simpl; tauto | constructor]. }
  assert (Hin : In ("Food"%string, 500)
                   (categories (budget_of 1000 [("Food"%string, 500)])))
    by (now left).
  assert (Hne : "Food"%string <> SUMMARY_KEY) by discriminate.
  split; [exact Hwf|]. split; [exact Hin|]. split; [exact Hne|].
  destruct (budgeted_category_row convert_currency_spec
              normalize_to_base_currency_spec fixed_clock
              _ [expense "Food" 350; expense "Food" 250] "month" _ _
              Hwf Hin Hne)
    as (e & Hget & _ & _ & Hv & Hp & _ & _ & Ho & _ & _).
  destruct Hp as (q & Hq & Hr); [vm_compute; reflexivity|].
  exists e, q. split; [exact Hget|]. split; [|split; [|split]].
  - eapply Qeq_trans.
    + apply (rounds_to_unique _ _ _ Hv). vm_compute. reflexivity.
    + vm_compute. reflexivity.
  - apply Ho. vm_compute. reflexivity.
  - exact Hq.
  - eapply Qeq_trans.
    + apply (rounds_to_unique _ _ _ Hr). vm_compute. reflexivity.
    + vm_compute. reflexivity.
Defined.

(** C5 as claimed fails.  An expense in a category named ['_summary'],
    which the budget does not have, leaves no [unbudgeted] row: the key
    holds the totals. *)
Lemma unbudgeted_category_row_counterexample :
  let b := budget_of 1000 [("Food"%string, 100)] in
  let txs := [expense "_summary" 20] in
  In ("_summary"%string, 2000 # 100) (spending_ex b txs "month") /\
  dict_mem "_summary" (categories b) = false /\
  forall k e,
    In (k, CategoryRow e) (track_ex b txs "month") -> status e <> Unbudgeted.
Proof.
  cbv zeta. split; [vm_compute; now left|]. split; [reflexivity|].
  intros k e H. vm_compute in H.
  destruct H as [H | [H | []]]; [| discriminate H].
  injection H as _ <-. discriminate.
Qed.

(** C5 at a budget with [Food] only and an expense of 20 on [Pets]. *)
Lemma unbudgeted_category_row_witness :
  let b := budget_of 1000 [("Food"%string, 100)] in
  let txs := [expense "Pets" 20] in
  In ("Pets"%string, 2000 # 100) (spending_ex b txs "month") /\
  dict_mem "Pets" (categories b) = false /\
  "Pets"%string <> SUMMARY_KEY /\
  dict_get "Pets" (track_ex b txs "month") =
  Some (CategoryRow (mkCategoryEntry 0 (2000 # 100) (2000 # 100)
                                     Infinity Unbudgeted)).
Proof.
  cbv zeta.
  assert (Hin : In ("Pets"%string, 2000 # 100)
                   (spending_ex (budget_of 1000 [("Food"%string, 100)])
                                [expense "Pets" 20] "month"))
    by (vm_compute; now left).
  assert (Hne : "Pets"%string <> SUMMARY_KEY) by discriminate.
  split; [exact Hin|]. split; [reflexivity|]. split; [exact Hne|].
  exact (proj1 (unbudgeted_category_row convert_currency_spec
                  normalize_to_base_currency_spec fixed_clock
                  (budget_of 1000 [("Food"%string, 100)])
                  [expense "Pets" 20] "month")
               "Pets"%string (2000 # 100) Hin eq_refl Hne).
Defined.

(** C7 as claimed fails.  With [Food] = 100 and an expense of 150.01 the
    row has the variance 50.01 and the suggestion is 160.01, where
    [budgeted + variance * 1.2] is 160.012. *)
Lemma suggestions_by_priority_counterexample :
  let b := budget_of 1000 [("Food"%string, 100)] in
  let txs := [expense "Food" (15001 # 100)] in
  exists e s,
    dict_get "Food" (track_ex b txs "month") = Some (CategoryRow e) /\
    status e = Over /\ budgeted e == 100 /\ variance e == 5001 # 100 /\
    suggest_ex b txs = Returned [s] /\
    s_type s = SIncrease /\
    s_suggested_amount s == 16001 # 100 /\
    ~ (s_suggested_amount s == budgeted e + variance e * (12 # 10)).
Proof.
  cbv zeta. do 2 eexists.
  split; [vm_compute; reflexivity|].
  split; [reflexivity|]. split; [reflexivity|]. split; [reflexivity|].
  split; [vm_compute; reflexivity|].
  split; [reflexivity|]. split; [reflexivity|].
  intros H. vm_compute in H. discriminate H.
Qed.

(** C7 at that budget: the row of [Food] is over budget by more than 10%
    and more than 25%, and the list holds an increase to 160.01 with
    priority [high]. *)
Lemma suggestions_by_priority_witness :
  let b := budget_of 1000 [("Food"%string, 100)] in
  let txs := [expense "Food" (15001 # 100)] in
  exists l s,
    suggest_ex b txs = Returned l /\ In s l /\
    s_category s = "Food"%string /\ s_type s = SIncrease /\
    s_suggested_amount s == 16001 # 100 /\ s_priority s = High.
Proof.
  cbv zeta.
  destruct (suggestions_by_priority convert_currency_spec
              normalize_to_base_currency_spec fixed_clock
              (budget_of 1000 [("Food"%string, 100)])
              [expense "Food" (15001 # 100)])
    as (encounter & Hs & _ & Hrows).
  destruct (Hrows "Food"%string
                  (mkCategoryEntry (10000 # 100) (15001 # 100) (5001 # 100)
                                   (Finite (1500 # 10)) Over))
    as (Hover & _); [vm_compute; reflexivity|].
  destruct Hover as (s & Hin & Hc & Ht & _ & Ha & Hhigh & _);
    [reflexivity | vm_compute; reflexivity |].
  eexists. exists s. split; [exact Hs|].
  split; [| split; [exact Hc | split; [exact Ht | split]]].
  - apply in_or_app. left.
    apply filter_In. split; [exact Hin|].
    rewrite Hhigh; [reflexivity | vm_compute; reflexivity].
  - eapply Qeq_trans.
    + apply (rounds_to_unique _ _ _ Ha). vm_compute. reflexivity.
    + vm_compute. reflexivity.
  - apply Hhigh. vm_compute. reflexivity.
Defined.

(** One [high], one [low] and one [medium] suggestion come out in the
    order [high], [medium], [low]; the category [Fun], over its budget of
    100 by 10, gets none. *)
Example suggestions_order :
  let b := budget_of 1000
             [("Rent", 500); ("Food", 100); ("Fun", 100)]%string in
  let txs := [expense "Rent" 100; expense "Pets" 10;
              expense "Food" 150; expense "Fun" 110] in
  exists l,
    suggest_ex b txs = Returned l /\
    map (fun s => (s_category s, s_priority s)) l
    = [("Food", High); ("Pets", Medium); ("Rent", Low)]%string.
Proof.
  cbv zeta. eexists. split; vm_compute; reflexivity.
Qed.

(** C6 at a budget with [Food] = 100 and an expense of 85: no row is over
    budget or unbudgeted, the utilization is 85, the score before clamping
    is 110, the score 100 and the level [Excellent]. *)
Lemma health_score_formula_witness :
  let b := budget_of 1000 [("Food"%string, 100)] in
  let txs := [expense "Food" 85] in
  exists s hs,
    dict_get SUMMARY_KEY (track_ex b txs "month") = Some (SummaryRow s) /\
    budget_utilization s == 85 /\
    count_status Over (track_ex b txs "month") = 0%nat /\
    count_status Unbudgeted (track_ex b txs "month") = 0%nat /\
    raw_health_score 0 0 (budget_utilization s) == 110 /\
    health_score_ex b txs = Returned hs /\
    hs_score hs == 100 /\ hs_health_level hs = "Excellent"%string.
Proof.
  cbv zeta.
  destruct (health_score_formula convert_currency_spec
              normalize_to_base_currency_spec fixed_clock
              (budget_of 1000 [("Food"%string, 100)]) [expense "Food" 85])
    as (s & hs & Hs & Hhs & penalty & bonus
        & _ & Hpen & Hbonus & _ & _ & _ & Hhigh & Hlevel & _).
  assert (Es : s = mkSummaryEntry (10000 # 100) (8500 # 100)
                                  (-1500 # 100) (850 # 10)).
  { vm_compute in Hs. now injection Hs as <-. }
  subst s. cbn [budget_utilization] in *.
  assert (Hb : bonus == 10) by (apply Hbonus; split; vm_compute; discriminate).
  assert (Hp : penalty == 0) by (apply Hpen; vm_compute; discriminate).
  assert (Hscore : hs_score hs == 100).
  { apply Hhigh. rewrite Hb, Hp. vm_compute. reflexivity. }
  eexists. exists hs.
  split; [vm_compute; reflexivity|].
  split; [vm_compute; reflexivity|].
  split; [vm_compute; reflexivity|].
  split; [vm_compute; reflexivity|].
  split; [vm_compute; reflexivity|].
  split; [exact Hhs|]. split; [exact Hscore|].
  apply Hlevel. rewrite Hscore. vm_compute. discriminate.
Defined.

(** C1 on a budget of 1000: two categories are added, a third is refused,
    one is removed. *)
Lemma total_budget_within_income_witness :
  let calls := [AddCategory "2024-06-02" "Rent" 600;
                AddCategory "2024-06-02" "Food" 300;
                AddCategory "2024-06-03" "Fun" 200;
                RemoveCategory "2024-06-04" "Rent"]%string in
  let b := Budget_init "2024-06-01" 1000 "USD" in
  create_budget validate_positive_number_spec "2024-06-01" 1000 "USD"
  = Returned b /\
  get_total_budget
    (run_calls validate_positive_number_spec b (firstn 3 calls))
  <= monthly_income
       (run_calls validate_positive_number_spec b (firstn 3 calls)).
Proof.
  cbv zeta. split; [reflexivity|].
  apply (total_budget_within_income validate_positive_number_spec
           validate_positive_number_spec_nonnegative
           "2024-06-01" 1000 "USD").
  reflexivity.
Defined.

(** C3 at the income 0, which the validation rejects. *)
Lemma rejected_amount_signals_witness :
  let b := budget_of 1000 [("Food"%string, 100)] in
  validate_positive_number_spec 0 = None /\
  add_category validate_positive_number_spec "2024-06-02" b "Rent" 0
  = (false, b) /\
  update_budget_income validate_positive_number_spec "2024-06-02" b 0
  = (false, b) /\
  create_budget validate_positive_number_spec "2024-06-02" 0 "USD"
  = Raised (ValueError "Invalid monthly income. Must be a positive number.").
Proof.
  cbv zeta. split; [reflexivity|].
  apply (rejected_amount_signals validate_positive_number_spec).
  reflexivity.
Defined.





(* ================================================================= *)
(** * Further properties of the code *)

(** ** Rounding and sums *)

(** Rounding to two decimals moves a number by half a cent at most. *)
Lemma py_round_error (x : Q) :
  x - (1 # 200) <= py_round x DECIMAL_PRECISION <= x + (1 # 200).
Proof.
  unfold py_round, DECIMAL_PRECISION.
  pose proof (round_half_even_error (x * inject_Z (Zpos (pow10 2)))) as H.
  rewrite (Qmake_Qdiv (round_half_even _) (pow10 2)).
  set (r := inject_Z (round_half_even _)) in *.
  change (inject_Z (Zpos (pow10 2))) with 100 in *.
  unfold Qdiv. change (/ 100) with (1 # 100).
  split; lra.
Qed.

Lemma py_sum_nonneg (l : list Q) : (forall x, In x l -> 0 <= x) -> 0 <= py_sum l.
Proof.
  induction l as [| x l IH]; intros H.
  - apply Qle_refl.
  - rewrite py_sum_cons.
    assert (0 <= x) by (apply H; now left).
    assert (0 <= py_sum l) by (apply IH; intros; apply H; now right).
    lra.
Qed.


Section DictMoreFacts.
Context {V : Type}.
Implicit Types (d : dict V) (k : string) (v : V).

Lemma dict_get_del_other k k' d :
  k' <> k -> dict_get k' (dict_del k d) = dict_get k' d.
Proof.
  intros Hne. induction d as [| [k0 v0] d IH]; simpl; [reflexivity|].
  destruct (k0 =? k)%string eqn:E; simpl.
  - apply String.eqb_eq in E. subst k0.
    destruct (k =? k')%string eqn:E'; [|reflexivity].
    apply String.eqb_eq in E'. congruence.
  - now rewrite IH.
Qed.

Lemma dict_get_del_same k d :
  dict_wf d -> dict_get k (dict_del k d) = None.
Proof.
  unfold dict_wf.
  induction d as [| [k0 v0] d IH]; simpl; intros Hwf; [reflexivity|].
  inversion Hwf as [| ? ? Hnotin Hwf']; subst.
  destruct (k0 =? k)%string eqn:E; simpl.
  - apply String.eqb_eq in E. subst k0. now apply dict_get_None_keys.
  - rewrite E. now apply IH.
Qed.

End DictMoreFacts.

(** ** The budget entity *)

Section BudgetMoreFacts.

Variable validate_positive_number : Q -> option Q.

Local Notation add_category' := (add_category validate_positive_number).
Local Notation create_budget' := (create_budget validate_positive_number).
Local Notation update_budget_income' :=
  (update_budget_income validate_positive_number).
Local Notation run_calls' := (run_calls validate_positive_number).

(** X2.  A successful [add_category] stores the validated amount under the
    name, leaves every other category and the income as they were, dates
    the budget, and leaves the total within the income. *)
Theorem add_category_sets_amount now b category amount b' :
  add_category' now b category amount = (true, b') ->
  exists validated,
    validate_positive_number amount = Some validated /\
    get_category_amount b' category = validated /\
    (forall other, other <> category ->
                   get_category_amount b' other = get_category_amount b other) /\
    monthly_income b' = monthly_income b /\
    last_updated b' = now /\
    get_total_budget b' <= monthly_income b'.
Proof.
  unfold add_category.
  destruct (_ || _); [discriminate|].
  destruct (validate_positive_number amount) as [validated|]; [|discriminate].
  cbv zeta.
  destruct (Qltb _ (get_total_budget _)) eqn:Hcmp.
  - destruct (Qltb 0 _); discriminate.
  - intros [= <-]. exists validated. split; [reflexivity|].
    unfold get_category_amount, dict_get_default. simpl.
    split; [now rewrite dict_get_set_same|].
    split; [intros other Hne; now rewrite dict_get_set_other|].
    split; [reflexivity|]. split; [reflexivity|].
    apply Qltb_ge in Hcmp. exact Hcmp.
Qed.

(** X3.  Removing a category that a successful [add_category] has just
    created gives the categories back as they were before it. *)
Theorem add_then_remove_category now now' b category amount b1 :
  dict_get category (categories b) = None ->
  add_category' now b category amount = (true, b1) ->
  exists b2,
    remove_category now' b1 category = (true, b2) /\
    categories b2 = categories b /\
    monthly_income b2 = monthly_income b.
Proof.
  intros Habsent. unfold add_category.
  destruct (_ || _); [discriminate|].
  destruct (validate_positive_number amount) as [validated|]; [|discriminate].
  cbv zeta.
  destruct (Qltb _ (get_total_budget _)).
  - destruct (Qltb 0 _); discriminate.
  - intros [= <-]. unfold remove_category, dict_mem. simpl.
    rewrite dict_get_set_same. eexists. split; [reflexivity|]. simpl.
    split; [now apply dict_del_set_absent | reflexivity].
Qed.


Hypothesis validated_nonnegative :
  forall x v, validate_positive_number x = Some v -> 0 <= v.

(** X1.  On a budget made by [create_budget], after any sequence of
    [add_category] and [remove_category] calls, the remaining budget is not
    negative and the utilization is between 0 and 100. *)
Theorem remaining_and_utilization_in_range now income cur b calls :
  create_budget' now income cur = Returned b ->
  0 <= get_remaining_budget (run_calls' b calls) /\
  0 <= get_budget_utilization (run_calls' b calls) <= 100.
Proof.
  intros Hcreate.
  pose proof (allocation_ok_run _ validated_nonnegative calls b
                (allocation_ok_init _ validated_nonnegative _ _ _ _ Hcreate))
    as [Hpos Htot].
  set (b' := run_calls' b calls) in *.
  assert (Hsum : 0 <= get_total_budget b').
  { unfold get_total_budget. rewrite <- (py_round_0 DECIMAL_PRECISION).
    apply py_round_mono. apply py_sum_nonneg.
    intros x Hx. apply in_map_iff in Hx. destruct Hx as ([k v] & <- & Hin).
    exact (Hpos _ _ Hin). }
  split.
  - unfold get_remaining_budget. rewrite <- (py_round_0 DECIMAL_PRECISION).
    apply py_round_mono. lra.
  - unfold get_budget_utilization.
    destruct (Qeqb (monthly_income b') 0) eqn:E; [split; lra|].
    apply Qeqb_neq in E.
    assert (Hinc : 0 < monthly_income b').
    { apply Qle_lt_or_eq in Hsum. destruct Hsum as [Hlt | Heq].
      - eapply Qlt_le_trans; eassumption.
      - apply Qle_lt_or_eq in Htot. rewrite <- Heq in Htot.
        destruct Htot as [Hlt | Heq']; [exact Hlt|].
        exfalso. apply E. now symmetry. }
    assert (Hlo : 0 <= get_total_budget b' / monthly_income b').
    { apply Qle_shift_div_l; [exact Hinc | lra]. }
    assert (Hhi : get_total_budget b' / monthly_income b' <= 1).
    { apply Qle_shift_div_r; [exact Hinc | lra]. }
    split.
    + rewrite <- (py_round_0 1). apply py_round_mono. lra.
    + apply Qle_trans with (py_round 100 1).
      * apply py_round_mono. lra.
      * rewrite (py_round_one_decimal 100 (one_decimal_Z 100)).
        apply Qle_refl.
Qed.

End BudgetMoreFacts.

(** X4.  [remove_category] answers whether the category was there; its
    amount is 0 afterwards, every other category keeps its amount, the
    income is untouched, and nothing changes when the category was
    absent. *)
Theorem remove_category_effect now b category r b' :
  dict_wf (categories b) ->
  remove_category now b category = (r, b') ->
  r = dict_mem category (categories b) /\
  (r = false -> b' = b) /\
  dict_get category (categories b') = None /\
  (forall other, other <> category ->
                 dict_get other (categories b') = dict_get other (categories b)) /\
  monthly_income b' = monthly_income b.
Proof.
  intros Hwf. unfold remove_category, dict_mem.
  destruct (dict_get category (categories b)) eqn:Hget; intros [= <- <-].
  - simpl. split; [reflexivity|]. split; [discriminate|].
    split; [now apply dict_get_del_same|].
    split; [intros; now apply dict_get_del_other | reflexivity].
  - repeat split; assumption.
Qed.

(** X6.  [update_budget_income] does not keep the total within the income:
    on the budget made by [create_budget(100)] and four accepted categories
    of 25, the update to the income 0.03 rounds every amount up to 0.01 and
    leaves a total of 0.04. *)
Theorem update_budget_income_can_exceed_income :
  exists b0 b b',
    create_budget validate_positive_number_spec "2024-06-01" 100 "USD"
    = Returned b0 /\
    b = run_calls validate_positive_number_spec b0
          [AddCategory "2024-06-01" "Rent" 25;
           AddCategory "2024-06-01" "Food" 25;
           AddCategory "2024-06-01" "Fun" 25;
           AddCategory "2024-06-01" "Savings" 25]%string /\
    get_total_budget b == monthly_income b /\
    update_budget_income validate_positive_number_spec "2024-06-02" b (3 # 100)
    = (true, b') /\
    monthly_income b' == 3 # 100 /\
    get_total_budget b' == 4 # 100 /\
    monthly_income b' < get_total_budget b'.
Proof.
  do 3 eexists. split; [reflexivity|]. split; [reflexivity|].
  split; [vm_compute; reflexivity|]. split; [vm_compute; reflexivity|].
  split; [vm_compute; reflexivity|]. split; vm_compute; reflexivity.
Qed.

(** ** The budget templates *)

Lemma dict_set_absent_app {V} (k : string) (v : V) (d : dict V) :
  dict_get k d = None -> dict_set k v d = d ++ [(k, v)].
Proof.
  induction d as [| [k0 v0] d IH]; simpl; [reflexivity|].
  destruct (k0 =? k)%string; [discriminate|].
  intros H. now rewrite IH.
Qed.

Section TemplateFacts.

Variable validate_positive_number : Q -> option Q.

Local Notation run_calls' := (run_calls validate_positive_number).
Local Notation from_template :=
  (create_budget_from_template validate_positive_number).

(** An [add_category] of a new name whose amount fits is the budget with
    the name appended. *)
Lemma run_calls_add_accepted now b name amount v rest :
  negb (truthy name) || negb (truthy (strip name)) = false ->
  validate_positive_number amount = Some v ->
  dict_get name (categories b) = None ->
  py_round (py_sum (dict_values (categories b ++ [(name, v)])))
           DECIMAL_PRECISION <= monthly_income b ->
  run_calls' b (AddCategory now name amount :: rest) =
  run_calls' (mkBudget (monthly_income b) (currency b)
                       (categories b ++ [(name, v)]) (created_date b) now)
             rest.
Proof.
  intros Hname Hv Hget Hfit. cbn [run_calls fold_left do_call].
  unfold add_category. rewrite Hname, Hv. cbv zeta.
  unfold get_total_budget, set_categories. cbn [categories monthly_income].
  rewrite (dict_set_absent_app _ _ _ Hget).
  apply Qltb_ge in Hfit. rewrite Hfit. reflexivity.
Qed.

(** An [add_category] of a new name whose amount does not fit changes
    nothing. *)
Lemma run_calls_add_rejected now b name amount v rest :
  validate_positive_number amount = Some v ->
  dict_get name (categories b) = None ->
  monthly_income b <
  py_round (py_sum (dict_values (categories b ++ [(name, v)])))
           DECIMAL_PRECISION ->
  run_calls' b (AddCategory now name amount :: rest) = run_calls' b rest.
Proof.
  intros Hv Hget Hover. cbn [run_calls fold_left do_call].
  unfold add_category. destruct (_ || _); [reflexivity|].
  rewrite Hv. cbv zeta.
  unfold get_total_budget, set_categories, dict_get_default.
  cbn [categories monthly_income].
  rewrite Hget, (dict_set_absent_app _ _ _ Hget).
  apply Qltb_lt in Hover. rewrite Hover.
  change (Qltb 0 0) with false. cbn [snd categories].
  rewrite <- (dict_set_absent_app _ _ _ Hget), (dict_del_set_absent _ _ _ Hget).
  now destruct b.
Qed.

(** X7.  [create_budget_from_template] raises [ValueError] for an income
    the validation rejects; otherwise it returns a budget with the rounded
    validated income whose total is within the income, whatever the
    template, and without any category for a template it does not know. *)
Theorem template_budget_within_income now income template cur :
  (forall x v, validate_positive_number x = Some v -> 0 <= v) ->
  match validate_positive_number income with
  | None =>
      from_template now income template cur =
      Raised (ValueError "Invalid monthly income. Must be a positive number.")
  | Some validated =>
      exists b,
        from_template now income template cur = Returned b /\
        monthly_income b = py_round validated DECIMAL_PRECISION /\
        get_total_budget b <= monthly_income b /\
        (template <> "50/30/20"%string -> template <> "zero_based"%string ->
         categories b = [])
  end.
Proof.
  intros Hnn. unfold create_budget_from_template.
  destruct (validate_positive_number income) as [validated|] eqn:Hv.
  - assert (Hcreate : create_budget validate_positive_number now income cur
                      = Returned (Budget_init now validated cur))
      by (unfold create_budget; now rewrite Hv).
    rewrite Hcreate. cbn [bind].
    pose proof (allocation_ok_init _ Hnn _ _ _ _ Hcreate) as Hok.
    destruct (template =? "50/30/20")%string eqn:E1;
      [| destruct (template =? "zero_based")%string eqn:E2];
      eexists; (split; [reflexivity|]).
    + split; [now rewrite run_calls_income|].
      split; [| intros H; apply String.eqb_eq in E1; contradiction].
      now apply allocation_ok_run.
    + split; [now rewrite run_calls_income|].
      split; [| intros _ H; apply String.eqb_eq in E2; contradiction].
      now apply allocation_ok_run.
    + split; [reflexivity|]. split; [apply Hok | reflexivity].
  - unfold create_budget. now rewrite Hv.
Qed.

(** The validation lets an amount within the limits through, moved by half
    a cent at most. *)
Hypothesis validates_within_limits :
  forall x, 1 # 100 <= x <= 1000000 ->
            exists v, validate_positive_number x = Some v /\
                      x - (1 # 200) <= v <= x + (1 # 200).

(** Each accepted step: the amount is within the limits, the name is new,
    and the sum stays under the validated income. *)
Ltac template_accept Hval :=
  match goal with
  | |- context [run_calls _ ?b (AddCategory ?n ?name ?x :: ?rest)] =>
      let v := fresh "v" in
      let Hv := fresh "Hv" in
      let Hb := fresh "Hb" in
      destruct (Hval x) as (v & Hv & Hb);
      [ split; lra
      | rewrite (run_calls_add_accepted n b name x v rest eq_refl Hv eq_refl);
        [ cbn [monthly_income currency categories created_date app]
        | cbn [monthly_income categories app];
          apply py_round_mono;
          unfold py_sum, dict_values; cbn [map fold_left snd]; lra ] ]
  end.

Ltac template_reject Hval :=
  match goal with
  | |- context [run_calls _ ?b (AddCategory ?n ?name ?x :: ?rest)] =>
      let v := fresh "v" in
      let Hv := fresh "Hv" in
      let Hb := fresh "Hb" in
      destruct (Hval x) as (v & Hv & Hb);
      [ split; lra
      | rewrite (run_calls_add_rejected n b name x v rest Hv eq_refl);
        [ idtac
        | cbn [monthly_income categories app];
          match goal with
          | |- py_round ?a _ < py_round ?b _ =>
              pose proof (py_round_error a); pose proof (py_round_error b);
              unfold py_sum, dict_values in *;
              cbn [map fold_left snd] in *; lra
          end ] ]
  end.

(** X8.  With an income from 2 to 1000000, the template "50/30/20" gives
    eight categories and no [Savings]: the needs take 60% and the wants
    29.7% of the income, so the 20% of the savings do not fit and that
    [add_category] is refused. *)
Theorem template_50_30_20_has_no_savings now income cur :
  2 <= income <= 1000000 ->
  exists b,
    from_template now income "50/30/20" cur = Returned b /\
    dict_keys (categories b) =
    ["Housing"; "Food & Dining"; "Transportation"; "Utilities";
     "Healthcare"; "Entertainment"; "Shopping"; "Other"]%string /\
    dict_mem "Savings" (categories b) = false.
Proof.
  intros Hincome. unfold create_budget_from_template, create_budget.
  destruct (validates_within_limits income) as (vi & Hvi & Hbi);
    [split; lra|].
  rewrite Hvi. cbn [bind String.eqb Ascii.eqb Bool.eqb].
  unfold template_50_30_20, Budget_init.
  do 8 template_accept validates_within_limits.
  template_reject validates_within_limits.
  cbn [run_calls fold_left].
  eexists. split; [reflexivity|]. split; reflexivity.
Qed.

(** X9.  With an income from 2 to 1000000, the template "zero_based" gives
    nine categories and no [Savings]: the recommended percentages add up to
    110, the 20% of [Savings] are refused after 85% are allocated, and the
    5% of [Other] are accepted after it. *)
Theorem template_zero_based_has_no_savings now income cur :
  2 <= income <= 1000000 ->
  exists b,
    from_template now income "zero_based" cur = Returned b /\
    dict_keys (categories b) =
    ["Housing"; "Food & Dining"; "Transportation"; "Healthcare";
     "Entertainment"; "Shopping"; "Utilities"; "Insurance"; "Other"]%string /\
    dict_mem "Savings" (categories b) = false.
Proof.
  intros Hincome. unfold create_budget_from_template, create_budget.
  destruct (validates_within_limits income) as (vi & Hvi & Hbi);
    [split; lra|].
  rewrite Hvi. cbn [bind String.eqb Ascii.eqb Bool.eqb].
  unfold template_zero_based, RECOMMENDED_BUDGET_PERCENTAGES, Budget_init.
  cbn [map]. unfold Qdiv. change (/ 100) with (1 # 100).
  do 8 template_accept validates_within_limits.
  template_reject validates_within_limits.
  template_accept validates_within_limits.
  cbn [run_calls fold_left].
  eexists. split; [reflexivity|]. split; reflexivity.
Qed.

End TemplateFacts.

(** ** The comparison and what is derived from it *)

(** The three lists of [get_budget_status] hold the categories of the rows
    of each status, in the order of the rows. *)
Lemma classify_categories items :
  forall acc,
    (forall k r, In (k, r) items -> k <> SUMMARY_KEY -> is_category_row r) ->
    exists lists,
      classify items acc = Returned lists /\
      map oi_category (sl_over lists)
      = map oi_category (sl_over acc) ++ map fst (rows_with_status Over items) /\
      map ui_category (sl_under lists)
      = map ui_category (sl_under acc)
        ++ map fst (rows_with_status Under items) /\
      map ub_category (sl_unbudgeted lists)
      = map ub_category (sl_unbudgeted acc)
        ++ map fst (rows_with_status Unbudgeted items).
Proof.
  induction items as [| [k r] items IH]; intros acc Hrows.
  - exists acc. simpl. now rewrite !app_nil_r.
  - assert (Hrest : forall k' r', In (k', r') items ->
                      k' <> SUMMARY_KEY -> is_category_row r')
      by (intros; apply (Hrows k' r'); [now right | assumption]).
    unfold rows_with_status. cbn [classify filter fst snd].
    fold (rows_with_status Over items) (rows_with_status Under items)
         (rows_with_status Unbudgeted items).
    destruct (k =? SUMMARY_KEY)%string eqn:E; cbn [negb andb].
    + apply (IH acc Hrest).
    + apply String.eqb_neq in E.
      pose proof (Hrows k r (or_introl eq_refl) E) as Hcat.
      destruct r as [e | s0]; [| contradiction].
      destruct (status e) eqn:St; cbn [status_eqb];
        match goal with
        | |- context [classify items ?acc'] =>
            destruct (IH acc' Hrest) as (lists & Hc & Ho & Hu & Hb)
        end;
        exists lists; cbn [sl_over sl_under sl_unbudgeted] in *;
        rewrite ?map_app in *; cbn [map oi_category ui_category ub_category
                                    fst] in *;
        rewrite <- ?app_assoc in *; cbn [app] in *;
        repeat split; assumption.
Qed.

(** Every item of the lists comes from a row of its status. *)
Lemma classify_items items :
  forall acc lists,
    classify items acc = Returned lists ->
    (forall item, In item (sl_over lists) ->
                  In item (sl_over acc) \/
                  exists k e, In (k, CategoryRow e) items /\ k <> SUMMARY_KEY /\
                              status e = Over /\
                              oi_variance item = variance e) /\
    (forall item, In item (sl_under lists) ->
                  In item (sl_under acc) \/
                  exists k e, In (k, CategoryRow e) items /\ k <> SUMMARY_KEY /\
                              status e = Under /\
                              ui_remaining item = - variance e) /\
    (forall item, In item (sl_unbudgeted lists) ->
                  In item (sl_unbudgeted acc) \/
                  exists k e, In (k, CategoryRow e) items /\ k <> SUMMARY_KEY /\
                              status e = Unbudgeted /\
                              ub_amount item = actual e).
Proof.
  induction items as [| [k r] items IH]; intros acc lists.
  - simpl. intros [= <-]. repeat split; intros; now left.
  - cbn [classify].
    destruct (k =? SUMMARY_KEY)%string eqn:E.
    + intros H. destruct (IH _ _ H) as (Ho & Hu & Hb).
      split; [| split]; intros item Hin;
        first [ destruct (Ho _ Hin) as [Hacc | (k' & e' & Hin' & Hrest)]
              | destruct (Hu _ Hin) as [Hacc | (k' & e' & Hin' & Hrest)]
              | destruct (Hb _ Hin) as [Hacc | (k' & e' & Hin' & Hrest)] ];
        try (now left);
        right; exists k', e'; (split; [now right | exact Hrest]).
    + apply String.eqb_neq in E.
      destruct r as [e | s0]; [| discriminate].
      destruct (status e) eqn:St; intros H;
        destruct (IH _ _ H) as (Ho & Hu & Hb);
        cbn [sl_over sl_under sl_unbudgeted] in Ho, Hu, Hb;
        (split; [| split]); intros item Hin;
        first [ destruct (Ho _ Hin) as [Hacc | (k' & e' & Hin' & Hrest)]
              | destruct (Hu _ Hin) as [Hacc | (k' & e' & Hin' & Hrest)]
              | destruct (Hb _ Hin) as [Hacc | (k' & e' & Hin' & Hrest)] ];
        try (right; exists k', e'; split; [now right | exact Hrest]);
        try (now left);
        apply in_app_or in Hacc; destruct Hacc as [Hacc | [<- | []]];
        try (now left);
        right; exists k, e; (split; [now left|]);
        repeat split; assumption.
Qed.

Lemma Forall_track_unbudgeted (P : Row -> Prop) b (l : dict Q) :
  (forall a, P (CategoryRow (unbudgeted_row a))) ->
  forall st,
    Forall (fun kr => P (snd kr)) (fst st) ->
    Forall (fun kr => P (snd kr)) (fst (fold_left (track_unbudgeted b) l st)).
Proof.
  intros HP. induction l as [| [k a] l IH]; intros [cmp ts] H; simpl;
    [exact H|].
  apply IH. destruct (negb _); simpl; [|exact H].
  now apply Forall_dict_set.
Qed.

Lemma fold_track_budgeted_totals spend (l : dict Q) :
  forall cmp tb ts,
    snd (fst (fold_left (track_budgeted spend) l (cmp, tb, ts)))
    = fold_left Qplus (dict_values l) tb /\
    snd (fold_left (track_budgeted spend) l (cmp, tb, ts))
    = fold_left Qplus
        (map (fun kv => dict_get_default (fst kv) spend 0) l) ts.
Proof.
  induction l as [| [k amt] l IH]; intros cmp tb ts; simpl; [now split|].
  apply IH.
Qed.

Lemma fold_track_unbudgeted_total b (l : dict Q) :
  forall cmp ts,
    snd (fold_left (track_unbudgeted b) l (cmp, ts))
    = fold_left Qplus
        (dict_values
           (filter (fun kv => negb (dict_mem (fst kv) (categories b))) l))
        ts.
Proof.
  induction l as [| [k a] l IH]; intros cmp ts; [reflexivity|].
  cbn [fold_left filter fst]. unfold track_unbudgeted at 2.
  destruct (negb (dict_mem k (categories b))); cbn [dict_values map snd
                                                      fold_left];
    apply IH.
Qed.

Lemma clamp_score_range (q : Q) : 0 <= clamp_score q <= 100.
Proof.
  unfold clamp_score, py_max, py_min.
  destruct (Qltb q 100) eqn:E0;
    [apply Qltb_lt in E0 | apply Qltb_ge in E0];
    by_comparisons; split; lra.
Qed.

Lemma with_priority_permutation (l : list Suggestion) :
  Permutation l (with_priority High l ++ with_priority Medium l
                 ++ with_priority Low l).
Proof.
  induction l as [| x l IH]; [constructor|].
  unfold with_priority. cbn [filter].
  fold (with_priority High l) (with_priority Medium l) (with_priority Low l).
  destruct (s_priority x); cbn [priority_eqb].
  - now constructor.
  - apply Permutation_cons_app. exact IH.
  - rewrite app_assoc. apply Permutation_cons_app.
    rewrite <- app_assoc. exact IH.
Qed.

Lemma subsequence_In {A} (l1 l2 : list A) x :
  subsequence l1 l2 -> In x l1 -> In x l2.
Proof.
  induction 1; simpl; intuition.
Qed.

Lemma subsequence_NoDup {A} (l1 l2 : list A) :
  subsequence l1 l2 -> NoDup l2 -> NoDup l1.
Proof.
  induction 1 as [| x l1 l2 Hsub IH | x l1 l2 Hsub IH]; intros Hnd.
  - constructor.
  - inversion Hnd; subst. now apply IH.
  - inversion Hnd as [| ? ? Hnotin Hnd']; subst. constructor.
    + intros Hin. apply Hnotin. eapply subsequence_In; eassumption.
    + now apply IH.
Qed.

Section EngineMoreFacts.

Variable convert_currency : Q -> string -> string -> option Q.
Variable normalize_to_base_currency :
  list Transaction -> string -> list Transaction.
Variable days_ago : nat -> string.

Local Notation spending :=
  (actual_spending_of convert_currency normalize_to_base_currency days_ago).
Local Notation track :=
  (track_spending_vs_budget convert_currency normalize_to_base_currency
                            days_ago).
Local Notation budget_status :=
  (get_budget_status convert_currency normalize_to_base_currency days_ago).
Local Notation suggest :=
  (suggest_budget_adjustments convert_currency normalize_to_base_currency
                              days_ago).
Local Notation health_score :=
  (get_budget_health_score convert_currency normalize_to_base_currency
                           days_ago).
Local Notation variance_report :=
  (calculate_budget_variance convert_currency normalize_to_base_currency
                             days_ago).

Lemma track_summary_row b txs period :
  exists s,
    dict_get SUMMARY_KEY (track b txs period) = Some (SummaryRow s).
Proof.
  destruct (track_summary convert_currency normalize_to_base_currency
              days_ago b txs period) as (s & Hs & _).
  now exists s.
Qed.

Lemma track_rows_are_categories b txs period k r :
  In (k, r) (track b txs period) -> k <> SUMMARY_KEY -> is_category_row r.
Proof.
  apply track_row_category.
Qed.

(** Every row of a category is one of the two rows the loops write. *)
Lemma track_row_shape b txs period k r :
  In (k, r) (track b txs period) -> k <> SUMMARY_KEY -> row_shape r.
Proof.
  unfold track_spending_vs_budget.
  destruct (compare_to_budget_shape b (spending b txs period))
    as (rows1 & tb & ts1 & rows2 & ts2 & s & E1 & E2 & -> & _).
  intros Hin Hne. apply In_dict_set in Hin.
  destruct Hin as [[-> _] | Hin]; [congruence|].
  assert (Hall : Forall (fun kr => row_shape (snd kr)) rows2).
  { replace rows2
      with (fst (fold_left (track_unbudgeted b) (spending b txs period)
                           (rows1, ts1))) by now rewrite E2.
    apply Forall_track_unbudgeted; [intros a; right; now exists a|].
    simpl.
    replace rows1
      with (fst (fst (fold_left (track_budgeted (spending b txs period))
                                (categories b) ([], 0, 0))))
      by now rewrite E1.
    eapply Forall_impl; [| apply track_budgeted_rows; simpl; constructor].
    intros kr H. now left. }
  rewrite Forall_forall in Hall. exact (Hall _ Hin).
Qed.

(** [get_budget_status] returns, with the lists the loop builds. *)
Lemma budget_status_returns b txs :
  exists s lists,
    dict_get SUMMARY_KEY (track b txs "month") = Some (SummaryRow s) /\
    classify (track b txs "month") (mkStatusLists [] [] []) = Returned lists /\
    budget_status b txs =
    Returned
      (mkBudgetStatus
         (if Qleb (total_variance s) 0 then "healthy" else "over_budget")
         (total_budgeted s) (total_spent s) (get_remaining_budget b)
         (budget_utilization s)
         (sl_over lists) (sl_under lists) (sl_unbudgeted lists)
         (List.length (categories b)) (currency b)).
Proof.
  destruct (track_summary_row b txs "month") as (s & Hs).
  destruct (classify_counts (track b txs "month") (mkStatusLists [] [] [])
              (track_rows_are_categories b txs "month"))
    as (lists & Hc & _).
  exists s, lists. split; [exact Hs|]. split; [exact Hc|].
  unfold get_budget_status, summary_of. now rewrite Hs, Hc.
Qed.

(** X10.  Asked for the category ['_summary'], [calculate_budget_variance]
    raises [KeyError]: the key holds the totals, which have no
    ['variance']. *)
Theorem variance_of_summary_key_raises b txs :
  calculate_budget_variance convert_currency normalize_to_base_currency
                            days_ago b txs (Some "_summary"%string)
  = Raised (KeyError "variance").
Proof.
  destruct (track_summary_row b txs "month") as (s & Hs).
  unfold calculate_budget_variance. unfold SUMMARY_KEY in Hs.
  now rewrite Hs.
Qed.

(** X11.  For a name that is not empty and not ['_summary'],
    [calculate_budget_variance] returns: ['no_spending'] with the variance
    0 and the percentage -100 when the category is neither in the budget
    nor in the spending of the month; otherwise the variance and the status
    of its row, and its percentage used minus 100. *)
Theorem variance_of_category b txs c :
  dict_wf (categories b) ->
  c <> ""%string ->
  c <> SUMMARY_KEY ->
  (dict_mem c (categories b) = false ->
   dict_mem c (spending b txs "month") = false ->
   variance_report b txs (Some c)
   = Returned (CategoryVariance c 0 (Finite (-100)) NoSpending)) /\
  (dict_mem c (categories b) = true \/
   dict_mem c (spending b txs "month") = true ->
   exists e,
     dict_get c (track b txs "month") = Some (CategoryRow e) /\
     variance_report b txs (Some c)
     = Returned (CategoryVariance c (variance e)
                   (x_minus_100 (percentage_used e))
                   (RowStatus (status e)))).
Proof.
  intros Hwf Hne Hsum.
  pose proof (track_get_category convert_currency normalize_to_base_currency
                days_ago b txs "month" c Hsum) as Hget.
  cbv zeta in Hget.
  rewrite (track_budgeted_get _ _ _ _ Hwf) in Hget. cbn [fst dict_get] in Hget.
  unfold calculate_budget_variance, dict_mem.
  destruct c as [| ch rest]; [congruence|].
  set (c := String ch rest) in *.
  destruct (dict_get c (categories b)) as [amt|] eqn:Hcat;
    destruct (dict_get c (spending b txs "month")) as [a|] eqn:Hsp;
    unfold dict_mem in Hget; rewrite ?Hcat in Hget; rewrite Hget;
    split; intros H1; try intros H2; try discriminate;
    try (destruct H1; discriminate);
    try reflexivity; eexists; split; reflexivity.
Qed.

(** X12.  Asked for no category, or for the empty name,
    [calculate_budget_variance] returns the total variance and the
    utilization of the summary, and its ['over_budget'] is [True] exactly
    when [get_budget_status] calls the budget ['over_budget']. *)
Theorem variance_overall_agrees_with_status b txs :
  exists s st,
    dict_get SUMMARY_KEY (track b txs "month") = Some (SummaryRow s) /\
    variance_report b txs None
    = Returned (OverallVariance (total_variance s) (budget_utilization s)
                                (Qltb 0 (total_variance s))) /\
    variance_report b txs (Some ""%string) = variance_report b txs None /\
    budget_status b txs = Returned st /\
    bs_budget_utilization st = budget_utilization s /\
    (Qltb 0 (total_variance s) = true <->
     bs_budget_health st = "over_budget"%string) /\
    (Qltb 0 (total_variance s) = false <->
     bs_budget_health st = "healthy"%string).
Proof.
  destruct (budget_status_returns b txs) as (s & lists & Hs & _ & Hst).
  exists s. eexists. split; [exact Hs|].
  split; [unfold calculate_budget_variance, summary_of; now rewrite Hs|].
  split; [reflexivity|]. split; [exact Hst|].
  cbn [bs_budget_utilization bs_budget_health]. split; [reflexivity|].
  unfold Qleb. destruct (Qltb 0 (total_variance s)); cbn [negb];
    repeat split; intros; congruence.
Qed.

(** X13.  [get_budget_status] returns; its three lists hold the categories
    of the rows that are over budget, under budget and unbudgeted, each in
    the order of the comparison, and it counts the categories of the
    budget. *)
Theorem budget_status_lists_by_status b txs :
  exists st,
    budget_status b txs = Returned st /\
    map oi_category (over_budget_categories st)
    = map fst (rows_with_status Over (track b txs "month")) /\
    map ui_category (under_budget_categories st)
    = map fst (rows_with_status Under (track b txs "month")) /\
    map ub_category (unbudgeted_categories st)
    = map fst (rows_with_status Unbudgeted (track b txs "month")) /\
    bs_categories_count st = List.length (categories b) /\
    bs_remaining_budget st = get_remaining_budget b.
Proof.
  destruct (budget_status_returns b txs) as (s & lists & Hs & Hc & Hst).
  destruct (classify_categories (track b txs "month") (mkStatusLists [] [] [])
              (track_rows_are_categories b txs "month"))
    as (lists' & Hc' & Ho & Hu & Hb).
  rewrite Hc in Hc'. injection Hc' as <-.
  eexists. split; [exact Hst|].
  cbn [over_budget_categories under_budget_categories unbudgeted_categories
       bs_categories_count bs_remaining_budget].
  repeat split; assumption.
Qed.

(** X14.  No item of [over_budget_categories] has a negative variance and
    no item of [under_budget_categories] a negative remaining amount. *)
Theorem budget_status_items_not_negative b txs :
  exists st,
    get_budget_status convert_currency normalize_to_base_currency days_ago
                      b txs = Returned st /\
    (forall item, In item (over_budget_categories st) ->
                  0 <= oi_variance item) /\
    (forall item, In item (under_budget_categories st) ->
                  0 <= ui_remaining item).
Proof.
  destruct (budget_status_returns b txs) as (s & lists & Hs & Hc & Hst).
  destruct (classify_items _ _ _ Hc) as (Ho & Hu & _).
  eexists. split; [exact Hst|].
  cbn [over_budget_categories under_budget_categories].
  split; intros item Hin.
  - destruct (Ho _ Hin) as [[] | (k & e & Hrow & Hne & St & ->)].
    destruct (track_row_shape _ _ _ _ _ Hrow Hne)
      as [(amt & a & [= ->]) | (a & [= ->])]; [| discriminate St].
    revert St. unfold budget_row. cbn [status variance].
    destruct (Qltb 0 (a - amt)) eqn:E.
    + intros _. apply Qltb_lt in E.
      apply Qle_trans with (py_round 0 DECIMAL_PRECISION).
      * rewrite py_round_0. apply Qle_refl.
      * apply py_round_mono. lra.
    + destruct (Qltb (a - amt) 0); discriminate.
  - destruct (Hu _ Hin) as [[] | (k & e & Hrow & Hne & St & ->)].
    destruct (track_row_shape _ _ _ _ _ Hrow Hne)
      as [(amt & a & [= ->]) | (a & [= ->])]; [| discriminate St].
    revert St. unfold budget_row. cbn [status variance].
    destruct (Qltb 0 (a - amt)) eqn:E; [discriminate|].
    destruct (Qltb (a - amt) 0) eqn:E'; [| discriminate].
    intros _. apply Qltb_lt in E'.
    assert (H : py_round (a - amt) DECIMAL_PRECISION
                <= py_round 0 DECIMAL_PRECISION)
      by (apply py_round_mono; lra).
    rewrite py_round_0 in H. lra.
Qed.

(** X17.  [get_budget_health_score] returns a score between 0 and 100, the
    number of over-budget and unbudgeted rows of the comparison, and as
    number of recommendations the length of the list
    [suggest_budget_adjustments] returns. *)
Theorem health_score_in_range b txs :
  exists hs suggestions,
    health_score b txs = Returned hs /\
    suggest b txs = Returned suggestions /\
    0 <= hs_score hs <= 100 /\
    hs_over_budget_count hs = count_status Over (track b txs "month") /\
    hs_unbudgeted_count hs = count_status Unbudgeted (track b txs "month") /\
    hs_recommendations_count hs = List.length suggestions.
Proof.
  destruct (health_score_returns convert_currency normalize_to_base_currency
              days_ago b txs)
    as (s & lists & Hs & Hu & Ho & Hub & Hhs).
  eexists. exists (sort_by_priority
                     (flat_map row_suggestions (track b txs "month"))).
  split; [exact Hhs|]. split.
  - unfold suggest_budget_adjustments.
    now rewrite (collect_suggestions_flat_map _ []
                   (track_rows_are_categories b txs "month")).
  - cbv zeta.
    cbn [hs_score hs_over_budget_count hs_unbudgeted_count
         hs_recommendations_count].
    split; [| now repeat split].
    rewrite py_round_one_decimal.
    + apply clamp_score_range.
    + apply clamp_score_one_decimal, raw_health_score_one_decimal. exact Hu.
Qed.

End EngineMoreFacts.

(** ** The totals and the order of the comparison *)

Lemma py_sum_fold (l : list Q) (a : Q) : fold_left Qplus l a == a + py_sum l.
Proof.
  apply fold_left_Qplus_acc.
Qed.

(** Looking every budget category up in the spending and adding what is
    left over counts every entry of the spending once. *)
Lemma spending_split (cats spend : dict Q) :
  dict_wf cats -> dict_wf spend ->
  py_sum (map (fun kv => dict_get_default (fst kv) spend 0) cats)
  + py_sum (dict_values
              (filter (fun kv => negb (dict_mem (fst kv) cats)) spend))
  == py_sum (dict_values spend).
Proof.
  intros Hcats. induction spend as [| [k a] spend IH]; intros Hspend.
  - cbn [filter dict_values map]. unfold dict_get_default. cbn [dict_get].
    assert (H : py_sum (map (fun _ : string * Q => 0) cats) == 0).
    { clear. induction cats as [| x cats IH]; [reflexivity|].
      cbn [map]. rewrite py_sum_cons, IH. lra. }
    rewrite H. unfold py_sum. simpl. lra.
  - inversion Hspend as [| ? ? Hk Hspend']; subst.
    specialize (IH Hspend').
    assert (Hhead :
              py_sum (map (fun kv => dict_get_default (fst kv)
                                       ((k, a) :: spend) 0) cats)
              == (if dict_mem k cats then a else 0)
                 + py_sum (map (fun kv => dict_get_default (fst kv) spend 0)
                               cats)).
    { clear IH Hspend Hspend'. revert Hcats. unfold dict_wf.
      induction cats as [| [c amt] cats IHc]; intros Hnd.
      - unfold py_sum. simpl. lra.
      - inversion Hnd as [| ? ? Hc Hnd']; subst.
        cbn [map fst]. rewrite !py_sum_cons, (IHc Hnd').
        unfold dict_get_default at 1. unfold dict_mem. cbn [dict_get].
        destruct (k =? c)%string eqn:E.
        + apply String.eqb_eq in E. subst c.
          rewrite String.eqb_refl.
          apply dict_get_None_keys in Hc. rewrite Hc.
          apply dict_get_None_keys in Hk.
          unfold dict_get_default. rewrite Hk. lra.
        + rewrite String.eqb_sym, E.
          fold (dict_get_default c spend 0).
          destruct (dict_get k cats); lra. }
    rewrite Hhead. cbn [filter fst dict_values map snd].
    fold (dict_values spend).
    destruct (dict_mem k cats); cbn [negb map snd];
      rewrite ?py_sum_cons;
      fold (dict_values
              (filter (fun kv => negb (dict_mem (fst kv) cats)) spend));
      lra.
Qed.

Lemma dict_keys_track_budgeted spend (l : dict Q) :
  forall cmp tb ts,
    NoDup (dict_keys cmp ++ dict_keys l) ->
    dict_keys (fst (fst (fold_left (track_budgeted spend) l (cmp, tb, ts))))
    = dict_keys cmp ++ dict_keys l.
Proof.
  induction l as [| [k amt] l IH]; intros cmp tb ts Hnd.
  - simpl. now rewrite app_nil_r.
  - cbn [fold_left]. unfold track_budgeted at 2.
    rewrite IH.
    + rewrite dict_keys_set.
      assert (Hk : dict_mem k cmp = false).
      { unfold dict_mem.
        destruct (dict_get k cmp) eqn:E; [|reflexivity].
        exfalso. cbn [dict_keys map fst] in Hnd.
        apply NoDup_remove_2 in Hnd. apply Hnd.
        apply in_or_app. left.
        destruct (in_dec string_dec k (dict_keys cmp)) as [? | Hnot];
          [assumption|].
        apply dict_get_None_keys in Hnot. congruence. }
      rewrite Hk. cbn [dict_keys map fst]. now rewrite <- app_assoc.
    + rewrite dict_keys_set.
      replace (if dict_mem k cmp then dict_keys cmp else dict_keys cmp ++ [k])
        with (dict_keys cmp ++ [k]).
      * rewrite <- app_assoc. exact Hnd.
      * destruct (dict_mem k cmp) eqn:E; [|reflexivity].
        exfalso. cbn [dict_keys map fst] in Hnd.
        apply NoDup_remove_2 in Hnd. apply Hnd.
        apply in_or_app. left. unfold dict_mem in E.
        destruct (in_dec string_dec k (dict_keys cmp)) as [? | Hnot];
          [assumption|].
        apply dict_get_None_keys in Hnot. rewrite Hnot in E. discriminate.
Qed.

Lemma dict_keys_track_unbudgeted b (l : dict Q) :
  forall cmp ts,
    dict_wf l ->
    (forall k, In k (dict_keys cmp) -> In k (dict_keys l) ->
               dict_mem k (categories b) = true) ->
    dict_keys (fst (fold_left (track_unbudgeted b) l (cmp, ts)))
    = dict_keys cmp
      ++ dict_keys (filter (fun kv => negb (dict_mem (fst kv) (categories b)))
                           l).
Proof.
  induction l as [| [k a] l IH]; intros cmp ts Hwf Hold.
  - simpl. now rewrite app_nil_r.
  - inversion Hwf as [| ? ? Hk Hwf']; subst.
    cbn [fold_left filter fst]. unfold track_unbudgeted at 2.
    destruct (dict_mem k (categories b)) eqn:Hmem; cbn [negb].
    + apply IH; [exact Hwf'|].
      intros k' H1 H2. apply Hold; [exact H1 | now right].
    + rewrite IH; [| exact Hwf' |].
      * rewrite dict_keys_set.
        assert (Hnew : dict_mem k cmp = false).
        { destruct (dict_mem k cmp) eqn:E; [|reflexivity].
          assert (Hin : In k (dict_keys cmp)).
          { destruct (in_dec string_dec k (dict_keys cmp)) as [? | Hnot];
              [assumption|].
            apply dict_get_None_keys in Hnot. unfold dict_mem in E.
            rewrite Hnot in E. discriminate. }
          rewrite (Hold k Hin (or_introl eq_refl)) in Hmem. discriminate. }
        rewrite Hnew. cbn [dict_keys map fst]. now rewrite <- app_assoc.
      * intros k' H1 H2. rewrite dict_keys_set in H1.
        assert (Hin : In k' (dict_keys cmp ++ [k])).
        { destruct (dict_mem k cmp); [apply in_or_app; now left | exact H1]. }
        apply in_app_or in Hin. destruct Hin as [Hin | [<- | []]].
        -- apply Hold; [exact Hin | now right].
        -- contradiction.
Qed.

Section ComparisonTotals.

Variable convert_currency : Q -> string -> string -> option Q.
Variable normalize_to_base_currency :
  list Transaction -> string -> list Transaction.
Variable days_ago : nat -> string.

Local Notation spending :=
  (actual_spending_of convert_currency normalize_to_base_currency days_ago).
Local Notation track :=
  (track_spending_vs_budget convert_currency normalize_to_base_currency
                            days_ago).
Local Notation suggest :=
  (suggest_budget_adjustments convert_currency normalize_to_base_currency
                              days_ago).

(** X15.  In the summary of the comparison, [total_budgeted] is
    [get_total_budget()], and [total_spent] is the rounded sum of the whole
    breakdown of the period: every category with spending is counted once,
    budgeted or not. *)
Theorem summary_totals b txs period :
  exists s,
    dict_get SUMMARY_KEY (track b txs period) = Some (SummaryRow s) /\
    total_budgeted s = get_total_budget b /\
    (dict_wf (categories b) ->
     total_spent s
     = py_round (py_sum (dict_values (spending b txs period)))
                DECIMAL_PRECISION /\
     total_variance s
     = py_round (py_sum (dict_values (spending b txs period))
                 - py_sum (dict_values (categories b)))
                DECIMAL_PRECISION).
Proof.
  unfold track_spending_vs_budget, compare_to_budget.
  set (spend := spending b txs period).
  destruct (fold_left (track_budgeted spend) (categories b) ([], 0, 0))
    as [[rows1 tb] ts1] eqn:E1.
  destruct (fold_left (track_unbudgeted b) spend (rows1, ts1))
    as [rows2 ts2] eqn:E2.
  assert (Htb : tb = fold_left Qplus (dict_values (categories b)) 0)
    by exact (eq_trans (f_equal (fun st => snd (fst st)) (eq_sym E1))
                (proj1 (fold_track_budgeted_totals spend (categories b)
                                                   [] 0 0))).
  assert (Hts1 : ts1 = fold_left Qplus
                         (map (fun kv => dict_get_default (fst kv) spend 0)
                              (categories b)) 0)
    by exact (eq_trans (f_equal snd (eq_sym E1))
                (proj2 (fold_track_budgeted_totals spend (categories b)
                                                   [] 0 0))).
  assert (Hts2 : ts2 = fold_left Qplus
                         (dict_values
                            (filter (fun kv => negb (dict_mem (fst kv)
                                                       (categories b)))
                                    spend)) ts1)
    by exact (eq_trans (f_equal snd (eq_sym E2))
                (fold_track_unbudgeted_total b spend rows1 ts1)).
  eexists. split; [apply dict_get_set_same|].
  cbn [total_budgeted total_spent total_variance].
  split; [now rewrite Htb|].
  intros Hwf.
  assert (Hspent : ts2 == py_sum (dict_values spend)).
  { rewrite Hts2, py_sum_fold, Hts1.
    apply (spending_split _ _ Hwf).
    apply actual_spending_wf. }
  split; apply py_round_comp; [exact Hspent|].
  rewrite Hspent, Htb. reflexivity.
Qed.

(** X16.  When ['_summary'] names no category of the budget or of the
    spending, the keys of the comparison are the categories of the budget
    in their order, then the categories with spending only in the order of
    the breakdown, then ['_summary']. *)
Theorem comparison_key_order b txs period :
  dict_wf (categories b) ->
  ~ In SUMMARY_KEY (dict_keys (categories b)) ->
  ~ In SUMMARY_KEY (dict_keys (spending b txs period)) ->
  dict_keys (track b txs period)
  = dict_keys (categories b)
    ++ dict_keys (filter (fun kv => negb (dict_mem (fst kv) (categories b)))
                         (spending b txs period))
    ++ [SUMMARY_KEY].
Proof.
  intros Hwf Hs1 Hs2.
  unfold track_spending_vs_budget, compare_to_budget.
  set (spend := spending b txs period) in *.
  destruct (fold_left (track_budgeted spend) (categories b) ([], 0, 0))
    as [[rows1 tb] ts1] eqn:E1.
  assert (Hk1 : dict_keys rows1 = dict_keys (categories b))
    by exact (eq_trans
                (f_equal (fun st => dict_keys (fst (fst st))) (eq_sym E1))
                (dict_keys_track_budgeted spend (categories b) [] 0 0 Hwf)).
  assert (Hold : forall k, In k (dict_keys rows1) -> In k (dict_keys spend) ->
                           dict_mem k (categories b) = true).
  { intros k Hin _. rewrite Hk1 in Hin. unfold dict_mem.
    destruct (dict_get k (categories b)) eqn:E; [reflexivity|].
    apply dict_get_None_keys in E. contradiction. }
  destruct (fold_left (track_unbudgeted b) spend (rows1, ts1))
    as [rows2 ts2] eqn:E2.
  assert (Hk2 : dict_keys rows2
                = dict_keys rows1
                  ++ dict_keys
                       (filter (fun kv => negb (dict_mem (fst kv)
                                                  (categories b))) spend))
    by exact (eq_trans
                (f_equal (fun st => dict_keys (fst st)) (eq_sym E2))
                (dict_keys_track_unbudgeted b spend rows1 ts1
                   (actual_spending_wf _ _ _ b txs period) Hold)).
  rewrite dict_keys_set, Hk2, Hk1.
  assert (Hnew : dict_mem SUMMARY_KEY rows2 = false).
  { unfold dict_mem. destruct (dict_get SUMMARY_KEY rows2) eqn:E;
      [|reflexivity].
    exfalso. apply dict_get_In in E.
    apply (in_map fst) in E. fold (dict_keys rows2) in E.
    rewrite Hk2, Hk1 in E. cbn [fst] in E.
    apply in_app_or in E. destruct E as [E | E]; [contradiction|].
    apply Hs2. unfold dict_keys in *. apply in_map_iff in E.
    destruct E as (kv & Hkv & Hin). apply filter_In in Hin.
    apply in_map_iff. exists kv. tauto. }
  rewrite Hnew. now rewrite <- app_assoc.
Qed.

(** X18.  [suggest_budget_adjustments] returns at most one suggestion per
    category, each for a key of the comparison other than ['_summary'];
    and an increase or an addition never suggests less than the current
    amount. *)
Theorem suggestions_are_per_category b txs :
  exists l,
    suggest b txs = Returned l /\
    NoDup (map s_category l) /\
    (forall s, In s l ->
               In (s_category s) (dict_keys (track b txs "month")) /\
               s_category s <> SUMMARY_KEY) /\
    (forall s, In s l ->
               s_type s = SIncrease \/ s_type s = SAdd ->
               s_current_amount s <= s_suggested_amount s).
Proof.
  set (comparison := track b txs "month").
  set (encounter := flat_map row_suggestions comparison).
  assert (Hrows : forall k r, In (k, r) comparison -> k <> SUMMARY_KEY ->
                              is_category_row r)
    by apply track_row_category.
  assert (Hperm : Permutation encounter (sort_by_priority encounter))
    by (rewrite sort_by_priority_groups; apply with_priority_permutation).
  assert (Hfrom : forall s, In s encounter ->
                    exists k e, In (k, CategoryRow e) comparison /\
                                k <> SUMMARY_KEY /\ In s (suggest_for k e)).
  { intros s Hs. apply in_flat_map in Hs. destruct Hs as ([k r] & Hin & Hs).
    unfold row_suggestions in Hs. cbn [fst snd] in Hs.
    destruct (k =? SUMMARY_KEY)%string eqn:E; [contradiction|].
    destruct r as [e | s0]; [| contradiction].
    apply String.eqb_neq in E. now exists k, e. }
  exists (sort_by_priority encounter). split; [| split; [| split]].
  - unfold suggest_budget_adjustments. fold comparison.
    now rewrite (collect_suggestions_flat_map _ [] Hrows).
  - eapply Permutation_NoDup; [apply Permutation_map; exact Hperm|].
    eapply subsequence_NoDup; [apply row_suggestions_in_order|].
    apply track_wf.
  - intros s Hs. apply (Permutation_in _ (Permutation_sym Hperm)) in Hs.
    destruct (Hfrom s Hs) as (k & e & Hin & Hne & Hs').
    rewrite (suggest_for_category _ _ _ Hs'). split; [| exact Hne].
    change k with (fst (k, CategoryRow e)). now apply in_map.
  - intros s Hs Htype.
    apply (Permutation_in _ (Permutation_sym Hperm)) in Hs.
    destruct (Hfrom s Hs) as (k & e & Hin & Hne & Hs').
    destruct (track_row_shape convert_currency normalize_to_base_currency
                days_ago b txs "month" k _ Hin Hne)
      as [(amt & a & [= ->]) | (a & [= ->])];
      revert Hs'; unfold suggest_for, budget_row, unbudgeted_row;
      cbn [status budgeted actual variance].
    + destruct (Qltb 0 (a - amt)) eqn:Eover.
      * match goal with
        | |- In _ (if ?c then _ else _) -> _ => destruct c; [| intros []]
        end.
        intros [<- | []]. cbn [s_current_amount s_suggested_amount].
        apply Qltb_lt in Eover.
        assert (Hv : 0 <= py_round (a - amt) DECIMAL_PRECISION).
        { apply Qle_trans with (py_round 0 DECIMAL_PRECISION).
          - rewrite py_round_0. apply Qle_refl.
          - apply py_round_mono. lra. }
        rewrite <- (py_round_idempotent amt DECIMAL_PRECISION) at 1.
        apply py_round_mono. lra.
      * destruct (Qltb (a - amt) 0); [| intros []].
        match goal with
        | |- In _ (if ?c then _ else _) -> _ => destruct c; [| intros []]
        end.
        intros [<- | []]. cbn [s_type] in Htype.
        destruct Htype; discriminate.
    + destruct (Qltb 0 (py_round a DECIMAL_PRECISION)) eqn:Epos;
        [| intros []].
      intros [<- | []]. cbn [s_current_amount s_suggested_amount].
      apply Qltb_lt in Epos.
      apply Qle_trans with (py_round 0 DECIMAL_PRECISION).
      * rewrite py_round_0. apply Qle_refl.
      * apply py_round_mono. lra.
Qed.

End ComparisonTotals.

(** ** The totals and the breakdowns of the transactions *)

Lemma two_decimal_0 : two_decimal 0.
Proof.
  exists 0%Z. reflexivity.
Qed.

Lemma two_decimal_plus a b : two_decimal a -> two_decimal b -> two_decimal (a + b).
Proof.
  intros [za Ha] [zb Hb]. exists (za + zb)%Z. rewrite Ha, Hb.
  unfold Qeq. simpl. lia.
Qed.

Lemma two_decimal_py_round x : two_decimal (py_round x DECIMAL_PRECISION).
Proof.
  eexists. unfold py_round. reflexivity.
Qed.

Lemma py_round_two_decimal q :
  two_decimal q -> py_round q DECIMAL_PRECISION == q.
Proof.
  intros [z Hz]. rewrite (py_round_comp _ _ _ Hz).
  change (z # 100) with (z # pow10 DECIMAL_PRECISION) at 1.
  rewrite py_round_decimal. simpl. now rewrite Hz.
Qed.

Lemma py_sum_dict_set (k : string) (a : Q) (d : dict Q) :
  py_sum (dict_values (dict_set k (dict_get_default k d 0 + a) d))
  == py_sum (dict_values d) + a.
Proof.
  unfold dict_get_default.
  induction d as [| [k0 v0] d IH]; cbn [dict_set dict_get dict_values map snd].
  - rewrite py_sum_cons. unfold py_sum. simpl. lra.
  - destruct (k0 =? k)%string; cbn [dict_values map snd].
    + fold (dict_values d). rewrite !py_sum_cons. lra.
    + fold (dict_values d).
      fold (dict_values
              (dict_set k (match dict_get k d with
                           | Some v => v
                           | None => 0
                           end + a) d)).
      rewrite !py_sum_cons, IH. lra.
Qed.

Lemma py_sum_rounded (l : list Q) :
  Forall two_decimal l ->
  py_sum (map (fun x => py_round x DECIMAL_PRECISION) l) == py_sum l.
Proof.
  induction 1 as [| x l Hx _ IH]; [reflexivity|].
  cbn [map]. rewrite !py_sum_cons, IH, (py_round_two_decimal _ Hx).
  reflexivity.
Qed.

Lemma Forall_values_dict_set (P : Q -> Prop) k v (d : dict Q) :
  Forall P (dict_values d) -> P v -> Forall P (dict_values (dict_set k v d)).
Proof.
  intros Hd Hv. induction d as [| [k0 v0] d IH]; simpl.
  - now repeat constructor.
  - inversion Hd; subst.
    destruct (k0 =? k)%string; simpl; constructor; auto.
Qed.

(** The loops of the totals and of the breakdowns, over the transactions
    they count. *)
Section Accumulation.

Variable convert_currency : Q -> string -> string -> option Q.
Variable kind : string.
Variables start_date end_date : option string.
Variable target_currency : string.

Local Notation amount := (amount_in convert_currency target_currency).
Local Notation counts := (counted kind start_date end_date).

(** A loop body that adds the amount of a counted transaction to the total
    of its category. *)
Variable add_to : dict Q -> Transaction -> dict Q.
Hypothesis add_to_counted :
  forall totals t,
    add_to totals t =
    if counts t
    then dict_set (t_category t)
                  (dict_get_default (t_category t) totals 0 + amount t) totals
    else totals.

Lemma add_amount_of_counted total t :
  add_amount_of kind convert_currency start_date end_date target_currency
                total t
  = if counts t then total + amount t else total.
Proof.
  unfold add_amount_of, counted.
  destruct (t_type t =? kind)%string; [|reflexivity].
  destruct (before _ _); [reflexivity|].
  now destruct (after _ _).
Qed.

Lemma fold_add_amount_of txs :
  forall total,
    fold_left (add_amount_of kind convert_currency start_date end_date
                             target_currency) txs total
    == total + py_sum (map amount (filter counts txs)).
Proof.
  induction txs as [| t txs IH]; intros total.
  - simpl. unfold py_sum. simpl. lra.
  - cbn [fold_left filter]. rewrite IH, add_amount_of_counted.
    destruct (counts t); [| reflexivity].
    cbn [map]. rewrite py_sum_cons. lra.
Qed.

Lemma fold_add_to_sum txs :
  forall totals,
    py_sum (dict_values (fold_left add_to txs totals))
    == py_sum (dict_values totals) + py_sum (map amount (filter counts txs)).
Proof.
  induction txs as [| t txs IH]; intros totals.
  - simpl. unfold py_sum at 3. simpl. lra.
  - cbn [fold_left filter]. rewrite IH, add_to_counted.
    destruct (counts t); [| reflexivity].
    cbn [map]. rewrite py_sum_cons, py_sum_dict_set. lra.
Qed.

Lemma fold_add_to_two_decimal txs :
  (forall t, In t txs -> counts t = true -> two_decimal (amount t)) ->
  forall totals,
    Forall two_decimal (dict_values totals) ->
    Forall two_decimal (dict_values (fold_left add_to txs totals)).
Proof.
  induction txs as [| t txs IH]; intros Hamounts totals Htotals;
    [exact Htotals|].
  cbn [fold_left]. apply IH; [intros; apply Hamounts; [now right | assumption]|].
  rewrite add_to_counted.
  destruct (counts t) eqn:E; [| exact Htotals].
  apply Forall_values_dict_set; [exact Htotals|].
  apply two_decimal_plus; [| apply Hamounts; [now left | exact E]].
  unfold dict_get_default.
  destruct (dict_get (t_category t) totals) eqn:G; [| apply two_decimal_0].
  rewrite Forall_forall in Htotals. apply Htotals.
  apply dict_get_In in G. change q with (snd (t_category t, q)).
  now apply in_map.
Qed.

Lemma fold_add_to_get txs c :
  forall totals,
    dict_get c (fold_left add_to txs totals) =
    match map amount
              (filter (fun t => counts t && (t_category t =? c)%string) txs)
    with
    | [] => dict_get c totals
    | amounts => Some (fold_left Qplus amounts (dict_get_default c totals 0))
    end.
Proof.
  induction txs as [| t txs IH]; intros totals; [reflexivity|].
  cbn [fold_left filter]. rewrite IH, add_to_counted. clear IH.
  destruct (counts t); cbn [andb]; [| reflexivity].
  destruct (t_category t =? c)%string eqn:E.
  - apply String.eqb_eq in E. rewrite E. cbn [map fold_left].
    assert (Hnew : forall v, dict_get_default c (dict_set c v totals) 0 = v)
      by (intros v; unfold dict_get_default; now rewrite dict_get_set_same).
    rewrite Hnew, dict_get_set_same.
    destruct (map _ (filter _ txs)); reflexivity.
  - apply String.eqb_neq in E.
    assert (Hold : forall v,
               dict_get_default c (dict_set (t_category t) v totals) 0
               = dict_get_default c totals 0)
      by (intros v; unfold dict_get_default;
          now rewrite (dict_get_set_other _ _ _ _ (not_eq_sym E))).
    now rewrite Hold, (dict_get_set_other _ _ _ _ (not_eq_sym E)).
Qed.

End Accumulation.

Lemma add_expense_to_counted convert_currency sd ed cur totals t :
  add_expense_to convert_currency sd ed cur totals t =
  if counted "expense" sd ed t
  then dict_set (t_category t)
                (dict_get_default (t_category t) totals 0
                 + amount_in convert_currency cur t) totals
  else totals.
Proof.
  unfold add_expense_to, counted, amount_in.
  destruct (t_type t =? "expense")%string; [|reflexivity].
  destruct (before _ _); [reflexivity|].
  destruct (after _ _); [reflexivity|].
  now destruct (t_currency t =? cur)%string.
Qed.

Lemma add_income_to_counted convert_currency sd ed cur totals t :
  add_income_to convert_currency sd ed cur totals t =
  if counted "income" sd ed t
  then dict_set (t_category t)
                (dict_get_default (t_category t) totals 0
                 + amount_in convert_currency cur t) totals
  else totals.
Proof.
  unfold add_income_to, counted.
  destruct (t_type t =? "income")%string; [|reflexivity].
  destruct (before _ _); [reflexivity|].
  now destruct (after _ _).
Qed.

Lemma dict_values_rounded (d : dict Q) :
  dict_values (map (fun '(category, amount) =>
                      (category, py_round amount DECIMAL_PRECISION)) d)
  = map (fun x => py_round x DECIMAL_PRECISION) (dict_values d).
Proof.
  unfold dict_values. rewrite !map_map. apply map_ext. now intros [k v].
Qed.

Section CalculatorFacts.

Variable convert_currency : Q -> string -> string -> option Q.

Local Notation amount := (amount_in convert_currency).
Local Notation expense_breakdown := (get_expense_breakdown convert_currency).
Local Notation income_breakdown := (get_income_breakdown convert_currency).
Local Notation total_expenses := (calculate_total_expenses convert_currency).
Local Notation total_income := (calculate_total_income convert_currency).
Local Notation savings_rate := (calculate_savings_rate convert_currency).

(** X19.  The breakdowns hold, for a category, the rounded sum of the
    amounts of the expenses (or incomes) counted in the date range, taken
    in the order of the transactions, and have no key for a category
    without such a transaction. *)
Theorem breakdown_per_category txs sd ed cur c :
  dict_get c (expense_breakdown txs sd ed cur) =
  match map (amount cur)
            (filter (fun t => counted "expense" sd ed t
                              && (t_category t =? c)%string) txs)
  with
  | [] => None
  | amounts => Some (py_round (py_sum amounts) DECIMAL_PRECISION)
  end /\
  dict_get c (income_breakdown txs sd ed cur) =
  match map (amount cur)
            (filter (fun t => counted "income" sd ed t
                              && (t_category t =? c)%string) txs)
  with
  | [] => None
  | amounts => Some (py_round (py_sum amounts) DECIMAL_PRECISION)
  end.
Proof.
  unfold get_expense_breakdown, get_income_breakdown.
  rewrite !dict_get_map_round.
  rewrite (fold_add_to_get convert_currency "expense" sd ed cur _
             (add_expense_to_counted convert_currency sd ed cur)).
  rewrite (fold_add_to_get convert_currency "income" sd ed cur _
             (add_income_to_counted convert_currency sd ed cur)).
  split; destruct (map _ (filter _ txs)); reflexivity.
Qed.

(** X20.  When the amounts counted have two decimals at most, the values
    of the expense breakdown add up to [calculate_total_expenses], and
    those of the income breakdown to [calculate_total_income]. *)
Theorem breakdown_adds_up_to_total txs sd ed cur :
  (forall t, In t txs -> two_decimal (amount cur t)) ->
  py_sum (dict_values (expense_breakdown txs sd ed cur))
  == total_expenses txs sd ed cur /\
  py_sum (dict_values (income_breakdown txs sd ed cur))
  == total_income txs sd ed cur.
Proof.
  intros Hamounts.
  assert (Hsum : forall kind,
             two_decimal (py_sum (map (amount cur)
                                      (filter (counted kind sd ed) txs)))).
  { intros kind. clear - Hamounts.
    induction txs as [| t txs IH]; [apply two_decimal_0|].
    cbn [filter].
    assert (IH' := IH (fun t' H => Hamounts t' (or_intror H))).
    destruct (counted kind sd ed t); [| exact IH'].
    cbn [map].
    destruct (two_decimal_plus _ _ (Hamounts t (or_introl eq_refl)) IH')
      as [z Hz].
    exists z. now rewrite py_sum_cons. }
  unfold get_expense_breakdown, get_income_breakdown,
    calculate_total_expenses, calculate_total_income.
  rewrite !dict_values_rounded. split.
  - rewrite py_sum_rounded.
    + rewrite (fold_add_to_sum convert_currency "expense" sd ed cur _
                 (add_expense_to_counted convert_currency sd ed cur)).
      rewrite (py_round_comp _ _ _ (fold_add_amount_of convert_currency
                                      "expense" sd ed cur txs 0)).
      rewrite py_round_two_decimal.
      * unfold py_sum at 1. simpl. reflexivity.
      * apply two_decimal_plus; [apply two_decimal_0 | apply Hsum].
    + apply (fold_add_to_two_decimal convert_currency "expense" sd ed cur _
               (add_expense_to_counted convert_currency sd ed cur));
        [intros; now apply Hamounts | constructor].
  - rewrite py_sum_rounded.
    + rewrite (fold_add_to_sum convert_currency "income" sd ed cur _
                 (add_income_to_counted convert_currency sd ed cur)).
      rewrite (py_round_comp _ _ _ (fold_add_amount_of convert_currency
                                      "income" sd ed cur txs 0)).
      rewrite py_round_two_decimal.
      * unfold py_sum at 1. simpl. reflexivity.
      * apply two_decimal_plus; [apply two_decimal_0 | apply Hsum].
    + apply (fold_add_to_two_decimal convert_currency "income" sd ed cur _
               (add_income_to_counted convert_currency sd ed cur));
        [intros; now apply Hamounts | constructor].
Qed.

(** X21.  The savings rate is 0 when the total income is 0, and when no
    amount is negative it is never above 100. *)
Theorem savings_rate_at_most_100 txs sd ed cur :
  (forall t, In t txs -> 0 <= amount_in convert_currency cur t) ->
  (calculate_total_income convert_currency txs sd ed cur == 0 ->
   calculate_savings_rate convert_currency txs sd ed cur = 0) /\
  calculate_savings_rate convert_currency txs sd ed cur <= 100.
Proof.
  intros Hamounts.
  assert (Hnn : forall kind,
             0 <= fold_left (add_amount_of kind convert_currency sd ed cur)
                            txs 0).
  { intros kind. rewrite fold_add_amount_of.
    assert (0 <= py_sum (map (amount cur) (filter (counted kind sd ed) txs))).
    { apply py_sum_nonneg. intros x Hx. apply in_map_iff in Hx.
      destruct Hx as (t & <- & Ht). apply filter_In in Ht.
      apply Hamounts. tauto. }
    lra. }
  assert (Hround : forall x, 0 <= x -> 0 <= py_round x DECIMAL_PRECISION).
  { intros x Hx. apply Qle_trans with (py_round 0 DECIMAL_PRECISION).
    - rewrite py_round_0. apply Qle_refl.
    - now apply py_round_mono. }
  unfold calculate_savings_rate, calculate_savings.
  set (inc := total_income txs sd ed cur).
  set (exp := total_expenses txs sd ed cur).
  assert (Hinc : 0 <= inc) by (apply Hround, Hnn).
  assert (Hexp : 0 <= exp) by (apply Hround, Hnn).
  split.
  - intros H. apply Qeqb_eq in H. now rewrite H.
  - destruct (Qeqb inc 0) eqn:E; [lra|]. apply Qeqb_neq in E.
    assert (Hpos : 0 < inc).
    { apply Qle_lt_or_eq in Hinc. destruct Hinc as [? | Heq]; [assumption|].
      exfalso. apply E. now symmetry. }
    assert (Hsav : py_round (inc - exp) DECIMAL_PRECISION <= inc).
    { assert (H : py_round inc DECIMAL_PRECISION = inc)
        by apply py_round_idempotent.
      rewrite <- H at 2. apply py_round_mono. lra. }
    assert (Hratio : py_round (inc - exp) DECIMAL_PRECISION / inc <= 1).
    { apply Qle_shift_div_r; [exact Hpos | lra]. }
    apply Qle_trans with (py_round 100 1).
    + apply py_round_mono. lra.
    + rewrite (py_round_one_decimal 100 (one_decimal_Z 100)). apply Qle_refl.
Qed.

End CalculatorFacts.

(** ** The order of dates *)

Lemma string_lt_trans a b c :
  String.compare a b = Lt -> String.compare b c = Lt ->
  String.compare a c = Lt.
Proof.
  intros H1 H2.
  apply OrderedTypeEx.String_as_OT.cmp_lt.
  apply OrderedTypeEx.String_as_OT.lt_trans with b;
    now apply OrderedTypeEx.String_as_OT.cmp_lt.
Qed.

Lemma string_leb_trans a b c :
  String.leb a b = true -> String.leb b c = true -> String.leb a c = true.
Proof.
  unfold String.leb. intros H1 H2.
  destruct (String.compare a b) eqn:E1; try discriminate;
    destruct (String.compare b c) eqn:E2; try discriminate.
  - apply String.compare_eq_iff in E1, E2. subst.
    match goal with
    | |- context [String.compare ?x ?x] =>
        assert (H : String.compare x x = Eq)
          by exact (proj2 (OrderedTypeEx.String_as_OT.cmp_eq x x) eq_refl);
        now rewrite H
    end.
  - apply String.compare_eq_iff in E1. subst. now rewrite E2.
  - apply String.compare_eq_iff in E2. subst. now rewrite E1.
  - now rewrite (string_lt_trans _ _ _ E1 E2).
Qed.

Lemma string_ltb_leb a b : String.ltb a b = true -> String.leb a b = true.
Proof.
  unfold String.ltb, String.leb. now destruct (String.compare a b).
Qed.

Lemma string_ltb_false_leb a b :
  String.ltb a b = false -> String.leb b a = true.
Proof.
  unfold String.ltb, String.leb. rewrite (String.compare_antisym a b).
  now destruct (String.compare b a).
Qed.

Lemma string_leb_refl a : String.leb a a = true.
Proof.
  destruct (String.leb_total a a); assumption.
Qed.

Lemma filter_subsequence {A} (f : A -> bool) (l : list A) :
  subsequence (filter f l) l.
Proof.
  induction l as [| x l IH]; simpl; [constructor|].
  destruct (f x); now constructor.
Qed.

Lemma subsequence_refl {A} (l : list A) : subsequence l l.
Proof.
  induction l; now constructor.
Qed.

Lemma filter_idempotent {A} (f : A -> bool) (l : list A) :
  filter f (filter f l) = filter f l.
Proof.
  induction l as [| x l IH]; simpl; [reflexivity|].
  destruct (f x) eqn:E; simpl; [rewrite E; now f_equal | exact IH].
Qed.

Lemma filter_narrower {A} (f g : A -> bool) (l : list A) :
  (forall x, f x = true -> g x = true) ->
  filter f (filter g l) = filter f l /\ filter g (filter f l) = filter f l.
Proof.
  intros Hfg. induction l as [| x l [IH1 IH2]]; simpl; [now split|].
  destruct (f x) eqn:Ef.
  - rewrite (Hfg _ Ef). simpl. rewrite Ef, (Hfg _ Ef). split; now f_equal.
  - destruct (g x); simpl; [rewrite Ef|]; now split.
Qed.

Section PeriodFacts.

Variable days_ago : nat -> string.

Local Notation by_period := (get_transactions_by_period days_ago).

(** X22.  [get_transactions_by_period] leaves transactions out and changes
    nothing else: the result is the list with some elements left out, in
    the same order; filtering it again by the same period changes nothing;
    and a period that is none of the four returns the list as it is. *)
Theorem transactions_by_period_filters txs period :
  subsequence (by_period txs period) txs /\
  by_period (by_period txs period) period = by_period txs period /\
  (period <> "week"%string -> period <> "month"%string ->
   period <> "quarter"%string -> period <> "year"%string ->
   by_period txs period = txs).
Proof.
  unfold get_transactions_by_period. repeat split.
  - repeat match goal with
           | |- context [if ?c then _ else _] => destruct c
           end; first [apply filter_subsequence | apply subsequence_refl].
  - repeat match goal with
           | |- context [if ?c then _ else _] => destruct c
           end; first [apply filter_idempotent | reflexivity].
  - intros Hw Hm Hq Hy.
    apply String.eqb_neq in Hw, Hm, Hq, Hy. now rewrite Hw, Hm, Hq, Hy.
Qed.

(** X23.  When the date of 30 days ago is not after the date of 7 days
    ago, the week is within the month: the week of the transactions of the
    month, and the month of the transactions of the week, are the
    transactions of the week. *)
Theorem week_within_month txs :
  String.leb (days_ago 30) (days_ago 7) = true ->
  get_transactions_by_period
    days_ago (get_transactions_by_period days_ago txs "month") "week"
  = get_transactions_by_period days_ago txs "week" /\
  get_transactions_by_period
    days_ago (get_transactions_by_period days_ago txs "week") "month"
  = get_transactions_by_period days_ago txs "week".
Proof.
  intros Hclock. unfold get_transactions_by_period.
  cbn [String.eqb Ascii.eqb Bool.eqb].
  apply filter_narrower. intros t Ht.
  now apply string_leb_trans with (days_ago 7).
Qed.

End PeriodFacts.

(** ** The range of dates *)

Lemma py_min_string_least rest :
  forall best,
    let m := py_min_string best rest in
    In m (best :: rest) /\
    forall d, In d (best :: rest) -> String.leb m d = true.
Proof.
  induction rest as [| x rest IH]; intros best; cbn [py_min_string].
  - split; [now left|]. intros d [<- | []]. apply string_leb_refl.
  - destruct (IH (if String.ltb x best then x else best)) as [Hin Hle].
    split.
    + destruct Hin as [Hin | Hin]; [| now right; right].
      rewrite <- Hin. destruct (String.ltb x best); [right|]; now left.
    + intros d Hd.
      assert (Hbest : String.leb (if String.ltb x best then x else best) best
                      = true /\
                      String.leb (if String.ltb x best then x else best) x
                      = true).
      { destruct (String.ltb x best) eqn:E.
        - split; [now apply string_ltb_leb | apply string_leb_refl].
        - split; [apply string_leb_refl | now apply string_ltb_false_leb]. }
      destruct Hd as [<- | [<- | Hd]].
      * eapply string_leb_trans; [apply Hle; now left | apply Hbest].
      * eapply string_leb_trans; [apply Hle; now left | apply Hbest].
      * apply Hle. now right.
Qed.

Lemma py_max_string_greatest rest :
  forall best,
    let m := py_max_string best rest in
    In m (best :: rest) /\
    forall d, In d (best :: rest) -> String.leb d m = true.
Proof.
  induction rest as [| x rest IH]; intros best; cbn [py_max_string].
  - split; [now left|]. intros d [<- | []]. apply string_leb_refl.
  - destruct (IH (if String.ltb best x then x else best)) as [Hin Hle].
    split.
    + destruct Hin as [Hin | Hin]; [| now right; right].
      rewrite <- Hin. destruct (String.ltb best x); [right|]; now left.
    + intros d Hd.
      assert (Hbest : String.leb best (if String.ltb best x then x else best)
                      = true /\
                      String.leb x (if String.ltb best x then x else best)
                      = true).
      { destruct (String.ltb best x) eqn:E.
        - split; [now apply string_ltb_leb | apply string_leb_refl].
        - split; [apply string_leb_refl | now apply string_ltb_false_leb]. }
      destruct Hd as [<- | [<- | Hd]].
      * eapply string_leb_trans; [apply Hbest | apply Hle; now left].
      * eapply string_leb_trans; [apply Hbest | apply Hle; now left].
      * apply Hle. now right.
Qed.

(** X24.  The range of dates of a list of transactions that is not empty
    has a start and an end, each the date of one of the transactions, and
    the date of every transaction lies between them; the range of no
    transaction has neither. *)
Theorem date_range_bounds txs :
  txs <> [] ->
  exists first_date last_date,
    get_date_range txs = (Some first_date, Some last_date) /\
    In first_date (map t_date txs) /\ In last_date (map t_date txs) /\
    forall t, In t txs ->
              String.leb first_date (t_date t) = true /\
              String.leb (t_date t) last_date = true.
Proof.
  intros Hne. unfold get_date_range.
  destruct txs as [| t0 txs]; [contradiction|].
  cbn [map].
  destruct (py_min_string_least (map t_date txs) (t_date t0)) as [Hmin Hle].
  destruct (py_max_string_greatest (map t_date txs) (t_date t0)) as [Hmax Hge].
  eexists _, _. split; [reflexivity|].
  split; [exact Hmin|]. split; [exact Hmax|].
  intros t Ht.
  assert (Hd : In (t_date t) (t_date t0 :: map t_date txs))
    by (change (In (t_date t) (map t_date (t0 :: txs))); now apply in_map).
  split; [now apply Hle | now apply Hge].
Qed.

(** ** New transactions *)

Section NewTransactionFacts.

Variable validate_positive_number : Q -> option Q.
Variable validate_currency : string -> option string.
Variable convert_currency : Q -> string -> string -> option Q.

(** X25.  An expense that [add_expense] returns has the validated amount
    rounded to two decimals, is an expense in the validated currency, and
    is counted as such: alone, its amount is the total of the expenses and
    the amount of its category in the breakdown, and the total income is
    0. *)
Theorem added_expense_is_counted now amount category date cur description t :
  add_expense validate_positive_number validate_currency now amount category
              date cur description = Returned t ->
  (exists v, validate_positive_number amount = Some v /\
             t_amount t = py_round v DECIMAL_PRECISION) /\
  validate_currency cur = Some (t_currency t) /\
  t_type t = "expense"%string /\
  t_category t = strip category /\
  calculate_total_expenses convert_currency [t] None None (t_currency t)
  = t_amount t /\
  get_expense_breakdown convert_currency [t] None None (t_currency t)
  = [(strip category, t_amount t)] /\
  calculate_total_income convert_currency [t] None None (t_currency t) == 0.
Proof.
  unfold add_expense, new_transaction. intros H.
  destruct (validate_positive_number amount) as [v |] eqn:Ev; [| discriminate].
  destruct (validate_currency cur) as [c |] eqn:Ec; [| discriminate].
  injection H as <-. cbn [t_amount t_currency t_type t_category].
  split; [now exists v|].
  split; [reflexivity|]. split; [reflexivity|]. split; [reflexivity|].
  split; [| split].
  - unfold calculate_total_expenses, add_amount_of, amount_in.
    cbn [fold_left t_type t_date t_currency t_amount before after negb
         String.eqb Ascii.eqb Bool.eqb].
    rewrite String.eqb_refl.
    rewrite (py_round_comp (0 + py_round v DECIMAL_PRECISION)
                           (py_round v DECIMAL_PRECISION))
      by apply Qplus_0_l.
    apply py_round_idempotent.
  - unfold get_expense_breakdown, add_expense_to.
    cbn [fold_left t_type t_date t_currency t_amount t_category before after
         negb String.eqb Ascii.eqb Bool.eqb dict_get dict_get_default
         dict_set map].
    rewrite String.eqb_refl.
    cbn [dict_set map].
    rewrite (py_round_comp (0 + py_round v DECIMAL_PRECISION)
                           (py_round v DECIMAL_PRECISION))
      by apply Qplus_0_l.
    now rewrite py_round_idempotent.
  - unfold calculate_total_income, add_amount_of.
    cbn [fold_left t_type negb String.eqb Ascii.eqb Bool.eqb].
    apply py_round_0.
Qed.

End NewTransactionFacts.

(** ** The share of a category *)

Lemma dict_value_le_sum (d : dict Q) k v :
  (forall k' v', In (k', v') d -> 0 <= v') ->
  In (k, v) d -> v <= py_sum (dict_values d).
Proof.
  induction d as [| [k0 v0] d IH]; intros Hpos Hin; [destruct Hin|].
  cbn [dict_values map snd]. fold (dict_values d). rewrite py_sum_cons.
  assert (Hrest : 0 <= py_sum (dict_values d)).
  { apply py_sum_nonneg. intros x Hx. apply in_map_iff in Hx.
    destruct Hx as ([k' v'] & <- & Hin'). apply (Hpos k' v'). now right. }
  destruct Hin as [Heq | Hin].
  - injection Heq as _ ->. lra.
  - assert (0 <= v0) by (apply (Hpos k0); now left).
    assert (v <= py_sum (dict_values d))
      by (apply IH; [intros k' v' H'; apply (Hpos k' v'); now right | exact Hin]).
    lra.
Qed.

Section CategoryShareFacts.

Variable validate_positive_number : Q -> option Q.
Hypothesis validated_nonnegative :
  forall x v, validate_positive_number x = Some v -> 0 <= v.

Local Notation create_budget' := (create_budget validate_positive_number).
Local Notation run_calls' := (run_calls validate_positive_number).

(** X26.  On a budget made by [create_budget], after any sequence of
    [add_category] and [remove_category] calls, the amount of a category
    is between 0 and the income plus half a cent, its percentage is not
    negative, and with an income of 10 at least the percentage is 100 at
    most. *)
Theorem category_share_in_range now income cur b calls category :
  create_budget' now income cur = Returned b ->
  let b' := run_calls' b calls in
  0 <= get_category_amount b' category <= monthly_income b' + (1 # 200) /\
  0 <= get_category_percentage b' category /\
  (10 <= monthly_income b' -> get_category_percentage b' category <= 100).
Proof.
  intros Hcreate b'.
  pose proof (allocation_ok_run _ validated_nonnegative calls b
                (allocation_ok_init _ validated_nonnegative _ _ _ _ Hcreate))
    as [Hpos Htot].
  fold b' in Hpos, Htot.
  assert (Hsum : 0 <= py_sum (dict_values (categories b'))).
  { apply py_sum_nonneg. intros x Hx. apply in_map_iff in Hx.
    destruct Hx as ([k v] & <- & Hin). exact (Hpos _ _ Hin). }
  assert (Hamount : 0 <= get_category_amount b' category
                    <= monthly_income b' + (1 # 200)).
  { unfold get_category_amount, dict_get_default.
    destruct (dict_get category (categories b')) as [v |] eqn:G.
    - apply dict_get_In in G. split; [exact (Hpos _ _ G)|].
      pose proof (dict_value_le_sum _ _ _ Hpos G) as Hle.
      pose proof (py_round_error (py_sum (dict_values (categories b')))) as He.
      unfold get_total_budget in Htot. lra.
    - pose proof (py_round_error (py_sum (dict_values (categories b')))) as He.
      unfold get_total_budget in Htot. lra. }
  split; [exact Hamount|].
  unfold get_category_percentage.
  destruct (Qeqb (monthly_income b') 0) eqn:E.
  - split; [apply Qle_refl | intros _; lra].
  - apply Qeqb_neq in E.
    assert (Hinc : 0 < monthly_income b').
    { assert (0 <= monthly_income b').
      { apply Qle_trans with (get_total_budget b'); [| exact Htot].
        unfold get_total_budget. rewrite <- (py_round_0 DECIMAL_PRECISION).
        now apply py_round_mono. }
      apply Qle_lt_or_eq in H. destruct H as [? | Heq]; [assumption|].
      exfalso. apply E. now symmetry. }
    split.
    + rewrite <- (py_round_0 1). apply py_round_mono.
      apply Qmult_le_0_compat; [| lra].
      apply Qle_shift_div_l; [exact Hinc | lra].
    + intros Hten.
      apply Qle_trans with (py_round (100 + (1 # 20)) 1);
        [| vm_compute; discriminate].
      apply py_round_mono.
      assert (Hratio : get_category_amount b' category / monthly_income b'
                       <= 1 + (1 # 2000)).
      { apply Qle_shift_div_r; [exact Hinc|]. lra. }
      lra.
Qed.

End CategoryShareFacts.

(** X27.  The bound of 100 needs the income of 10: if the validation
    returns the amounts 0.01 and 0.014 as they are given, then on the
    income 0.01 [add_category] accepts 0.014, whose total rounds to 0.01,
    and the percentage of the category is 140. *)
Theorem category_percentage_can_exceed_100 validate now cur :
  validate (1 # 100) = Some (1 # 100) ->
  validate (14 # 1000) = Some (14 # 1000) ->
  exists b b',
    create_budget validate now (1 # 100) cur = Returned b /\
    add_category validate now b "Food" (14 # 1000) = (true, b') /\
    get_category_percentage b' "Food" == 140.
Proof.
  intros Hincome Hamount. unfold create_budget. rewrite Hincome.
  eexists. eexists. split; [reflexivity|].
  unfold add_category.
  change (negb (truthy "Food") || negb (truthy (strip "Food"))) with false.
  cbv iota. rewrite Hamount.
  split; vm_compute; reflexivity.
Qed.

(* ================================================================= *)
(** ** The further properties at concrete inputs *)

(** The validation of the specification meets what the templates need of
    it: an amount within the limits passes unchanged. *)
Lemma validate_positive_number_spec_within_limits (x : Q) :
  1 # 100 <= x <= 1000000 ->
  exists v, validate_positive_number_spec x = Some v /\
            x - (1 # 200) <= v <= x + (1 # 200).
Proof.
  intros [Hlo Hhi]. exists x. unfold validate_positive_number_spec.
  assert (H0 : Qltb 0 x = true) by (apply Qltb_lt; lra).
  assert (H1 : Qleb MIN_TRANSACTION_AMOUNT x = true)
    by (apply Qleb_le; exact Hlo).
  assert (H2 : Qleb x MAX_TRANSACTION_AMOUNT = true)
    by (apply Qleb_le; exact Hhi).
  rewrite H0, H1, H2. split; [reflexivity | lra].
Qed.

(** The keys of a concrete dictionary differ. *)
Ltac wf_by_computation :=
  unfold dict_wf; simpl;
  repeat (constructor; [simpl; intuition discriminate |]); constructor.

(** X1 on a budget of 1000 with two categories added and one removed. *)
Lemma remaining_and_utilization_in_range_witness :
  let calls := [AddCategory "2024-06-02" "Rent" 600;
                AddCategory "2024-06-02" "Food" 300;
                RemoveCategory "2024-06-04" "Rent"]%string in
  let b := Budget_init "2024-06-01" 1000 "USD" in
  create_budget validate_positive_number_spec "2024-06-01" 1000 "USD"
  = Returned b /\
  0 <= get_remaining_budget (run_calls validate_positive_number_spec b calls)
  /\
  0 <= get_budget_utilization
         (run_calls validate_positive_number_spec b calls) <= 100.
Proof.
  cbv zeta. split; [reflexivity|].
  apply (remaining_and_utilization_in_range
           validate_positive_number_spec
           validate_positive_number_spec_nonnegative
           "2024-06-01" 1000 "USD").
  reflexivity.
Defined.

(** X2: [Rent] = 600 is added to a budget of 1000 that has [Food] = 100. *)
Lemma add_category_sets_amount_witness :
  let b := budget_of 1000 [("Food"%string, 100)] in
  let b' := mkBudget 1000 "USD"
                     [("Food"%string, 100); ("Rent"%string, 600)]
                     "2024-06-01" "2024-06-02" in
  add_category validate_positive_number_spec "2024-06-02" b "Rent" 600
  = (true, b') /\
  exists validated,
    validate_positive_number_spec 600 = Some validated /\
    get_category_amount b' "Rent" = validated /\
    get_category_amount b' "Food" = get_category_amount b "Food".
Proof.
  cbv zeta. split; [reflexivity|].
  destruct (add_category_sets_amount
              validate_positive_number_spec "2024-06-02"
              (budget_of 1000 [("Food"%string, 100)]) "Rent" 600
              (mkBudget 1000 "USD"
                        [("Food"%string, 100); ("Rent"%string, 600)]
                        "2024-06-01" "2024-06-02") eq_refl)
    as (v & Hv & Hamount & Hother & _).
  exists v. split; [exact Hv|]. split; [exact Hamount|].
  apply Hother. discriminate.
Defined.

(** X3: [Rent] is added to a budget that has no [Rent], then removed. *)
Lemma add_then_remove_category_witness :
  let b := budget_of 1000 [("Food"%string, 100)] in
  let b1 := mkBudget 1000 "USD"
                     [("Food"%string, 100); ("Rent"%string, 600)]
                     "2024-06-01" "2024-06-02" in
  dict_get "Rent" (categories b) = None /\
  add_category validate_positive_number_spec "2024-06-02" b "Rent" 600
  = (true, b1) /\
  exists b2,
    remove_category "2024-06-03" b1 "Rent" = (true, b2) /\
    categories b2 = categories b /\
    monthly_income b2 = monthly_income b.
Proof.
  cbv zeta. split; [reflexivity|]. split; [reflexivity|].
  apply (add_then_remove_category
           validate_positive_number_spec "2024-06-02" "2024-06-03"
           (budget_of 1000 [("Food"%string, 100)]) "Rent" 600);
    reflexivity.
Defined.

(** X4: [Food] is removed from a budget that has [Food] and [Rent]. *)
Lemma remove_category_effect_witness :
  let b := budget_of 1000 [("Food"%string, 100); ("Rent"%string, 600)] in
  let b' := mkBudget 1000 "USD" [("Rent"%string, 600)]
                     "2024-06-01" "2024-06-03" in
  dict_wf (categories b) /\
  remove_category "2024-06-03" b "Food" = (true, b') /\
  dict_get "Food" (categories b') = None /\
  dict_get "Rent" (categories b') = dict_get "Rent" (categories b).
Proof.
  cbv zeta.
  assert (Hwf : dict_wf (categories
                           (budget_of 1000 [("Food"%string, 100);
                                            ("Rent"%string, 600)])))
    by wf_by_computation.
  split; [exact Hwf|]. split; [reflexivity|].
  destruct (remove_category_effect
              "2024-06-03"
              (budget_of 1000 [("Food"%string, 100); ("Rent"%string, 600)])
              "Food" true
              (mkBudget 1000 "USD" [("Rent"%string, 600)]
                        "2024-06-01" "2024-06-03") Hwf eq_refl)
    as (_ & _ & Hgone & Hother & _).
  split; [exact Hgone|]. apply Hother. discriminate.
Defined.


(** X7 at the income 3000 and the template "50/30/20". *)
Lemma template_budget_within_income_witness :
  exists b,
    create_budget_from_template validate_positive_number_spec "2024-06-01"
                                3000 "50/30/20" "USD" = Returned b /\
    monthly_income b = py_round 3000 DECIMAL_PRECISION /\
    get_total_budget b <= monthly_income b /\
    ("50/30/20"%string <> "50/30/20"%string ->
     "50/30/20"%string <> "zero_based"%string -> categories b = []).
Proof.
  exact (template_budget_within_income
           validate_positive_number_spec "2024-06-01" 3000 "50/30/20" "USD"
           validate_positive_number_spec_nonnegative).
Defined.

(** X8 at the income 3000. *)
Lemma template_50_30_20_has_no_savings_witness :
  2 <= 3000 <= 1000000 /\
  exists b,
    create_budget_from_template validate_positive_number_spec "2024-06-01"
                                3000 "50/30/20" "USD" = Returned b /\
    dict_keys (categories b) =
    ["Housing"; "Food & Dining"; "Transportation"; "Utilities";
     "Healthcare"; "Entertainment"; "Shopping"; "Other"]%string /\
    dict_mem "Savings" (categories b) = false.
Proof.
  assert (H : 2 <= 3000 <= 1000000) by (split; vm_compute; discriminate).
  split; [exact H|].
  exact (template_50_30_20_has_no_savings
           validate_positive_number_spec
           validate_positive_number_spec_within_limits
           "2024-06-01" 3000 "USD" H).
Defined.

(** X9 at the income 3000. *)
Lemma template_zero_based_has_no_savings_witness :
  2 <= 3000 <= 1000000 /\
  exists b,
    create_budget_from_template validate_positive_number_spec "2024-06-01"
                                3000 "zero_based" "USD" = Returned b /\
    dict_keys (categories b) =
    ["Housing"; "Food & Dining"; "Transportation"; "Healthcare";
     "Entertainment"; "Shopping"; "Utilities"; "Insurance"; "Other"]%string /\
    dict_mem "Savings" (categories b) = false.
Proof.
  assert (H : 2 <= 3000 <= 1000000) by (split; vm_compute; discriminate).
  split; [exact H|].
  exact (template_zero_based_has_no_savings
           validate_positive_number_spec
           validate_positive_number_spec_within_limits
           "2024-06-01" 3000 "USD" H).
Defined.

(** X11 at the budget [Food] = 500 with expenses of 600 on [Food]. *)
Lemma variance_of_category_witness :
  let b := budget_of 1000 [("Food"%string, 500)] in
  let txs := [expense "Food" 350; expense "Food" 250] in
  dict_wf (categories b) /\
  "Food"%string <> ""%string /\
  "Food"%string <> SUMMARY_KEY /\
  exists e,
    dict_get "Food" (track_ex b txs "month") = Some (CategoryRow e) /\
    calculate_budget_variance convert_currency_spec
                              normalize_to_base_currency_spec fixed_clock
                              b txs (Some "Food"%string)
    = Returned (CategoryVariance "Food" (variance e)
                  (x_minus_100 (percentage_used e))
                  (RowStatus (status e))).
Proof.
  cbv zeta.
  assert (Hwf : dict_wf (categories (budget_of 1000 [("Food"%string, 500)])))
    by wf_by_computation.
  assert (Hne : "Food"%string <> ""%string) by discriminate.
  assert (Hns : "Food"%string <> SUMMARY_KEY) by discriminate.
  split; [exact Hwf|]. split; [exact Hne|]. split; [exact Hns|].
  exact (proj2 (variance_of_category
                  convert_currency_spec normalize_to_base_currency_spec
                  fixed_clock (budget_of 1000 [("Food"%string, 500)])
                  [expense "Food" 350; expense "Food" 250] "Food"
                  Hwf Hne Hns)
               (or_introl eq_refl)).
Defined.

(** X16 at the budget [Food] = 500 with expenses on [Fun] and on [Food]. *)
Lemma comparison_key_order_witness :
  let b := budget_of 1000 [("Food"%string, 500)] in
  let txs := [expense "Fun" 20; expense "Food" 350] in
  dict_wf (categories b) /\
  ~ In SUMMARY_KEY (dict_keys (categories b)) /\
  ~ In SUMMARY_KEY (dict_keys (spending_ex b txs "month")) /\
  dict_keys (track_ex b txs "month") = ["Food"; "Fun"; "_summary"]%string.
Proof.
  cbv zeta.
  assert (Hwf : dict_wf (categories (budget_of 1000 [("Food"%string, 500)])))
    by wf_by_computation.
  assert (Hb : ~ In SUMMARY_KEY
                    (dict_keys
                       (categories (budget_of 1000 [("Food"%string, 500)]))))
    by (simpl; intuition discriminate).
  assert (Hs : ~ In SUMMARY_KEY
                    (dict_keys
                       (spending_ex (budget_of 1000 [("Food"%string, 500)])
                                    [expense "Fun" 20; expense "Food" 350]
                                    "month")))
    by (vm_compute; intuition discriminate).
  split; [exact Hwf|]. split; [exact Hb|]. split; [exact Hs|].
  exact (comparison_key_order
           convert_currency_spec normalize_to_base_currency_spec fixed_clock
           (budget_of 1000 [("Food"%string, 500)])
           [expense "Fun" 20; expense "Food" 350] "month" Hwf Hb Hs).
Defined.

(** X20 at three expenses in the target currency. *)
Lemma breakdown_adds_up_to_total_witness :
  let txs := [expense "Food" (1999 # 100); expense "Fun" (1 # 100);
              expense "Food" 5] in
  (forall t, In t txs -> two_decimal (amount_in convert_currency_spec "USD" t))
  /\
  py_sum (dict_values
            (get_expense_breakdown convert_currency_spec txs None None "USD"))
  == calculate_total_expenses convert_currency_spec txs None None "USD".
Proof.
  cbv zeta.
  assert (H : forall t,
             In t [expense "Food" (1999 # 100); expense "Fun" (1 # 100);
                   expense "Food" 5] ->
             two_decimal (amount_in convert_currency_spec "USD" t)).
  { intros t [<- | [<- | [<- | []]]];
      [exists 1999%Z | exists 1%Z | exists 500%Z]; vm_compute; reflexivity. }
  split; [exact H|].
  exact (proj1 (breakdown_adds_up_to_total
                  convert_currency_spec
                  [expense "Food" (1999 # 100); expense "Fun" (1 # 100);
                   expense "Food" 5] None None "USD" H)).
Defined.

(** X21 at an income of 3000 and an expense of 600. *)
Lemma savings_rate_at_most_100_witness :
  let txs := [mkTransaction "2024-06-01" "income" 3000 "Salary" "USD" "";
              expense "Food" 600] in
  (forall t, In t txs -> 0 <= amount_in convert_currency_spec "USD" t) /\
  calculate_savings_rate convert_currency_spec txs None None "USD" <= 100.
Proof.
  cbv zeta.
  assert (H : forall t,
             In t [mkTransaction "2024-06-01" "income" 3000 "Salary" "USD" "";
                   expense "Food" 600] ->
             0 <= amount_in convert_currency_spec "USD" t).
  { intros t [<- | [<- | []]]; vm_compute; discriminate. }
  split; [exact H|].
  exact (proj2 (savings_rate_at_most_100
                  convert_currency_spec
                  [mkTransaction "2024-06-01" "income" 3000 "Salary" "USD" "";
                   expense "Food" 600] None None "USD" H)).
Defined.

(** X23 with a clock on the 15th of June 2024. *)
Lemma week_within_month_witness :
  let clock := fun n : nat =>
                 if Nat.leb n 7 then "2024-06-08"%string
                 else "2024-05-16"%string in
  let txs := [mkTransaction "2024-05-01" "expense" 5 "Food" "USD" "";
              mkTransaction "2024-05-20" "expense" 7 "Food" "USD" "";
              mkTransaction "2024-06-10" "expense" 9 "Fun" "USD" ""] in
  String.leb (clock 30%nat) (clock 7%nat) = true /\
  get_transactions_by_period
    clock (get_transactions_by_period clock txs "month") "week"
  = get_transactions_by_period clock txs "week" /\
  get_transactions_by_period
    clock (get_transactions_by_period clock txs "week") "month"
  = get_transactions_by_period clock txs "week".
Proof.
  cbv zeta. split; [reflexivity|].
  apply (week_within_month
           (fun n : nat =>
              if Nat.leb n 7 then "2024-06-08"%string
              else "2024-05-16"%string)).
  reflexivity.
Defined.

(** X24 at three transactions. *)
Lemma date_range_bounds_witness :
  let txs := [mkTransaction "2024-05-20" "expense" 7 "Food" "USD" "";
              mkTransaction "2024-05-01" "expense" 5 "Food" "USD" "";
              mkTransaction "2024-06-10" "income" 9 "Salary" "USD" ""] in
  txs <> [] /\
  exists first_date last_date,
    get_date_range txs = (Some first_date, Some last_date) /\
    In first_date (map t_date txs) /\ In last_date (map t_date txs) /\
    forall t, In t txs ->
              String.leb first_date (t_date t) = true /\
              String.leb (t_date t) last_date = true.
Proof.
  cbv zeta.
  assert (H : [mkTransaction "2024-05-20" "expense" 7 "Food" "USD" "";
               mkTransaction "2024-05-01" "expense" 5 "Food" "USD" "";
               mkTransaction "2024-06-10" "income" 9 "Salary" "USD" ""]
              <> []) by discriminate.
  split; [exact H|].
  exact (date_range_bounds _ H).
Defined.

(** X25 at an expense of 12.346 on [" Food "]. *)
Lemma added_expense_is_counted_witness :
  let t := mkTransaction "2024-06-01" "expense" (1235 # 100) "Food" "USD" "" in
  add_expense validate_positive_number_spec validate_currency_spec
              "2024-06-01" (12346 # 1000) " Food " None "USD" ""
  = Returned t /\
  calculate_total_expenses convert_currency_spec [t] None None "USD"
  = 1235 # 100 /\
  get_expense_breakdown convert_currency_spec [t] None None "USD"
  = [("Food"%string, 1235 # 100)].
Proof.
  cbv zeta.
  assert (H : add_expense validate_positive_number_spec
                          validate_currency_spec
                          "2024-06-01" (12346 # 1000) " Food " None "USD" ""
              = Returned (mkTransaction "2024-06-01" "expense" (1235 # 100)
                                        "Food" "USD" ""))
    by reflexivity.
  split; [exact H|].
  destruct (added_expense_is_counted
              validate_positive_number_spec validate_currency_spec
              convert_currency_spec _ _ _ _ _ _ _ H)
    as (_ & _ & _ & _ & Htotal & Hbreakdown & _).
  split; [exact Htotal | exact Hbreakdown].
Defined.

(** X26 on a budget of 1000 with two categories added and one removed. *)
Lemma category_share_in_range_witness :
  let calls := [AddCategory "2024-06-02" "Rent" 600;
                AddCategory "2024-06-02" "Food" 300;
                RemoveCategory "2024-06-04" "Rent"]%string in
  let b := Budget_init "2024-06-01" 1000 "USD" in
  let b' := run_calls validate_positive_number_spec b calls in
  create_budget validate_positive_number_spec "2024-06-01" 1000 "USD"
  = Returned b /\
  0 <= get_category_amount b' "Food" <= monthly_income b' + (1 # 200) /\
  0 <= get_category_percentage b' "Food" /\
  (10 <= monthly_income b' -> get_category_percentage b' "Food" <= 100).
Proof.
  cbv zeta. split; [reflexivity|].
  apply (category_share_in_range
           validate_positive_number_spec
           validate_positive_number_spec_nonnegative
           "2024-06-01" 1000 "USD").
  reflexivity.
Defined.

(** X27 with the validation of the specification, which returns an amount
    within the limits as it is given. *)
Lemma category_percentage_can_exceed_100_witness :
  validate_positive_number_spec (1 # 100) = Some (1 # 100) /\
  validate_positive_number_spec (14 # 1000) = Some (14 # 1000) /\
  exists b b',
    create_budget validate_positive_number_spec "2024-06-01" (1 # 100) "USD"
    = Returned b /\
    add_category validate_positive_number_spec "2024-06-01" b "Food"
                 (14 # 1000) = (true, b') /\
    get_category_percentage b' "Food" == 140.
Proof.
  split; [reflexivity|]. split; [reflexivity|].
  exact (category_percentage_can_exceed_100
           validate_positive_number_spec "2024-06-01" "USD"
           eq_refl eq_refl).
Defined.
